(** * Public Radio firmware: receiver control and parameter persistence

    A shallow embedding of [Firmware/main.c] (ATtiny25 firmware driving an
    Si4702 FM receiver) and the properties of its register shadow store,
    its CRC-protected EEPROM parameter block, its button gesture handler,
    its programming-packet reader and its boot sequence.

    Conventions.
    - C integers are [Z]; every narrowing store or wrap-around is written
      out with [u8] / [u16].  On the AVR [int] is 16 bits wide.
    - [uint8_t shadow[32]] and the EEPROM are lists of bytes indexed by
      position, read with [!!!] and updated with [<[ _ := _ ]>].
    - Hardware effects are appended, in program order, to the [trace] of
      the [world]; inputs (button pin, programming bytes, supply voltage
      comparisons) are fields of the [world] consumed by the reads. *)

From Stdlib Require Import ZArith List Lia Bool.
From stdpp Require Import base list.
Import ListNotations.
Local Open Scope Z_scope.

(** ** Machine integers *)

Definition u8 (x : Z) : Z := x mod 256.
Definition u16 (x : Z) : Z := x mod 65536.

(** [_BV(bit)] of avr-libc: [1 << bit]. *)
Definition _BV (bit : Z) : Z := Z.shiftl 1 bit.

(** ** Constants of [main.c] *)

Definition FMIC_ADDRESS : Z := 16.            (* 0b0010000 *)

Definition PB0 : Z := 0.
Definition PB1 : Z := 1.
Definition PB2 : Z := 2.
Definition PB3 : Z := 3.
Definition PB4 : Z := 4.

Definition LED_DRIVE_BIT : Z := PB4.
Definition FMIC_RESET_BIT : Z := PB1.
Definition BUTTON_INPUT_BIT : Z := PB3.
Definition BUTTON_PCINT_BIT : Z := 3.         (* PCINT3 *)
Definition PCIE : Z := 5.                     (* avr/io.h, GIMSK *)
Definition LSM : Z := 7.                      (* avr/io.h, PLLCSR *)

Definition LONG_PRESS_MS : Z := 2000.
Definition BUTTON_DEBOUNCE_MS : Z := 50.

Definition DIAGNOSTIC_BLINK_BADEEPROM : Z := 3.
Definition DIAGNOSTIC_BLINK_SAVEDCHAN : Z := 2.
Definition DIAGNOSTIC_BLINK_LOWBATTERY : Z := 1.
Definition DIAGNOSTIC_BLINK_NONE : Z := 0.

(** The enumeration [si4702_register]: each enumerator's value is the byte
    offset of the register's high byte inside [shadow]. *)
Inductive si4702_register : Set :=
| REGISTER_00 | REGISTER_01 | REGISTER_02 | REGISTER_03
| REGISTER_04 | REGISTER_05 | REGISTER_06 | REGISTER_07
| REGISTER_08 | REGISTER_09 | REGISTER_10 | REGISTER_11
| REGISTER_12 | REGISTER_13 | REGISTER_14 | REGISTER_15.

Definition reg_value (r : si4702_register) : Z :=
  match r with
  | REGISTER_00 => 12 | REGISTER_01 => 14 | REGISTER_02 => 16
  | REGISTER_03 => 18 | REGISTER_04 => 20 | REGISTER_05 => 22
  | REGISTER_06 => 24 | REGISTER_07 => 26 | REGISTER_08 => 28
  | REGISTER_09 => 30 | REGISTER_10 => 0  | REGISTER_11 => 2
  | REGISTER_12 => 4  | REGISTER_13 => 6  | REGISTER_14 => 8
  | REGISTER_15 => 10
  end.

(** A C enumerator is an [int]; the coercion lets call sites read as in C. *)
Coercion reg_value : si4702_register >-> Z.

(** The chip's register address that an enumerator names. *)
Definition logical_address (r : si4702_register) : Z :=
  match r with
  | REGISTER_00 => 0  | REGISTER_01 => 1  | REGISTER_02 => 2
  | REGISTER_03 => 3  | REGISTER_04 => 4  | REGISTER_05 => 5
  | REGISTER_06 => 6  | REGISTER_07 => 7  | REGISTER_08 => 8
  | REGISTER_09 => 9  | REGISTER_10 => 10 | REGISTER_11 => 11
  | REGISTER_12 => 12 | REGISTER_13 => 13 | REGISTER_14 => 14
  | REGISTER_15 => 15
  end.

(** EEPROM addresses (the C pointers [(const uint8_t * )n]). *)
Definition EEPROM_BAND : nat := 0.
Definition EEPROM_DEEMPHASIS : nat := 1.
Definition EEPROM_SPACING : nat := 2.
Definition EEPROM_CHANNEL : nat := 3.
Definition EEPROM_VOLUME : nat := 5.
Definition EEPROM_CRC16 : nat := 14.
Definition EEPROM_PARAM_BLOCK_SIZE : nat := 16.
Definition EEPROM_WORKING : nat := 0.
Definition EEPROM_FACTORY : nat := 16.

Definition REG_02_DSMUTE_BIT : Z := 15.
Definition REG_02_DMUTE_BIT : Z := 14.
Definition REG_02_MONO_BIT : Z := 13.
Definition REG_02_ENABLE_BIT : Z := 1.

(** ** avr-libc [_crc16_update] (util/crc16.h)

    The library documents the routine by its C equivalent: xor the byte
    into the low half, then eight conditional shifts with the reflected
    polynomial 0xA001. *)

Definition crc16_step (crc : Z) : Z :=
  if Z.testbit crc 0 then Z.lxor (Z.shiftr crc 1) 0xA001 else Z.shiftr crc 1.

Definition _crc16_update (crc a : Z) : Z :=
  Nat.iter 8 crc16_step (Z.lxor crc (u8 a)).

(** ** The machine state and its observable effects *)

Inductive io_reg : Set :=
| PORTB | DDRB | OCR1B | OCR1C | TCCR1 | GTCCR | PLLCSR | GIMSK | PCMSK.

Inductive event : Type :=
| EvOut (r : io_reg) (v : Z)            (* r = v *)
| EvSBI (r : io_reg) (bit : Z)          (* SBI(r, bit) *)
| EvCBI (r : io_reg) (bit : Z)          (* CBI(r, bit) *)
| EvDelayMs (ms : Z)
| EvDelayUs (us : Z)
| EvTWIInit                             (* USI_TWI_Master_Initialise() *)
| EvTWIWrite (addr : Z) (data : list Z) (* USI_TWI_Write_Data(addr, data, n) *)
| EvTWIRead (addr : Z) (n : nat)        (* USI_TWI_Read_Data(addr, buf, n) *)
| EvEepromWrite (a : nat) (v : Z)       (* one EEPROM cell programmed *)
| EvAdcOn
| EvAdcOff
| EvSei
| EvSleep.                              (* sleep_cpu() in power-down mode *)

Record world : Type := mkWorld {
  shadow : list Z;               (* uint8_t shadow[32] *)
  currentLEDBrightness : Z;      (* static uint8_t currentLEDBrightness *)
  eeprom : list Z;               (* EEPROM cells, address = position *)
  button : list bool;            (* what successive reads of the button pin
                                    will see, [true] = pressed; a pin that is
                                    no longer driven reads released *)
  pbytes : list Z;               (* results of successive readPbyte() calls *)
  twi_rx : list Z;               (* bytes the receiver chip returns to the
                                    next bus read *)
  vcc_above_low : bool;          (* VCC_GT(LOW_BATTERY_VOLTAGE) *)
  prog_voltage : bool;           (* programmingVoltagePresent() *)
  trace : list event             (* effects so far, oldest first *)
}.

Definition set_shadow (sh : list Z) (w : world) : world :=
  mkWorld sh (currentLEDBrightness w) (eeprom w) (button w) (pbytes w)
          (twi_rx w) (vcc_above_low w) (prog_voltage w) (trace w).
Definition set_currentLEDBrightness (b : Z) (w : world) : world :=
  mkWorld (shadow w) b (eeprom w) (button w) (pbytes w)
          (twi_rx w) (vcc_above_low w) (prog_voltage w) (trace w).
Definition set_eeprom (e : list Z) (w : world) : world :=
  mkWorld (shadow w) (currentLEDBrightness w) e (button w) (pbytes w)
          (twi_rx w) (vcc_above_low w) (prog_voltage w) (trace w).
Definition set_button (l : list bool) (w : world) : world :=
  mkWorld (shadow w) (currentLEDBrightness w) (eeprom w) l (pbytes w)
          (twi_rx w) (vcc_above_low w) (prog_voltage w) (trace w).
Definition set_pbytes (l : list Z) (w : world) : world :=
  mkWorld (shadow w) (currentLEDBrightness w) (eeprom w) (button w) l
          (twi_rx w) (vcc_above_low w) (prog_voltage w) (trace w).
Definition set_twi_rx (l : list Z) (w : world) : world :=
  mkWorld (shadow w) (currentLEDBrightness w) (eeprom w) (button w) (pbytes w)
          l (vcc_above_low w) (prog_voltage w) (trace w).
Definition set_trace (t : list event) (w : world) : world :=
  mkWorld (shadow w) (currentLEDBrightness w) (eeprom w) (button w) (pbytes w)
          (twi_rx w) (vcc_above_low w) (prog_voltage w) t.

(** A C function with result type [A] is a state transformer. *)
Definition M (A : Type) : Type := world -> A * world.

Definition ret {A} (a : A) : M A := fun w => (a, w).
Definition bind {A B} (m : M A) (k : A -> M B) : M B :=
  fun w => let (a, w') := m w in k a w'.

Declare Scope fw_scope.
Delimit Scope fw_scope with fw.
Notation "x <- m ;; k" := (bind m (fun x => k))
  (at level 100, m at next level, right associativity) : fw_scope.
Notation "m ;; k" := (bind m (fun _ => k))
  (at level 100, right associativity) : fw_scope.
Local Open Scope fw_scope.

Definition emit (e : event) : M unit :=
  fun w => (tt, set_trace (trace w ++ [e]) w).

Fixpoint repeatM (n : nat) (body : M unit) : M unit :=
  match n with
  | O => ret tt
  | S n' => body ;; repeatM n' body
  end.

Definition SBI (port : io_reg) (bit : Z) : M unit := emit (EvSBI port bit).
Definition CBI (port : io_reg) (bit : Z) : M unit := emit (EvCBI port bit).
Definition _delay_ms (ms : Z) : M unit := emit (EvDelayMs ms).
Definition _delay_us (us : Z) : M unit := emit (EvDelayUs us).

(** ** avr-libc EEPROM access (avr/eeprom.h); words are little-endian *)

Definition eeprom_read_byte (a : nat) : M Z :=
  fun w => (eeprom w !!! a, w).

Definition eeprom_write_byte (a : nat) (v : Z) : M unit :=
  fun w => (tt, set_trace (trace w ++ [EvEepromWrite a (u8 v)])
                          (set_eeprom (<[a := u8 v]> (eeprom w)) w)).

Definition eeprom_read_word (a : nat) : M Z :=
  lo <- eeprom_read_byte a ;;
  hi <- eeprom_read_byte (S a) ;;
  ret (Z.lor lo (Z.shiftl hi 8)).

Definition eeprom_write_word (a : nat) (v : Z) : M unit :=
  eeprom_write_byte a v ;;
  eeprom_write_byte (S a) (Z.shiftr v 8).

(** ** LED drive *)

Definition LED_PWM_init : M unit :=
  emit (EvOut PLLCSR (_BV LSM)) ;;
  emit (EvOut OCR1C 255) ;;
  emit (EvOut OCR1B 0).

Definition LED_PWM_on : M unit :=
  emit (EvOut TCCR1 0x84) ;;
  emit (EvOut GTCCR 0x60).

Definition LED_PWM_off : M unit :=
  emit (EvOut TCCR1 0) ;;
  emit (EvOut GTCCR 0).

Definition updateLEDcompensation : M unit :=
  fun w =>
    if 0 <? currentLEDBrightness w
    then emit (EvOut OCR1B (currentLEDBrightness w)) w
    else (tt, w).

Definition setLEDBrightness (b : Z) : M unit :=
  (fun w => (tt, set_currentLEDBrightness (u8 b) w)) ;;
  if u8 b =? 0 then LED_PWM_off
  else updateLEDcompensation ;; LED_PWM_on.

(** ** Register shadow store *)

Definition get_shadow_reg (reg : Z) : M Z :=
  fun w =>
    (u16 (Z.lor (Z.shiftl (shadow w !!! Z.to_nat reg) 8)
                (shadow w !!! Z.to_nat (reg + 1))), w).

Definition set_shadow_reg (reg : Z) (value : Z) : M unit :=
  fun w =>
    (tt, set_shadow (<[Z.to_nat (reg + 1) := u8 (Z.land value 0xff)]>
                       (<[Z.to_nat reg := u8 (Z.shiftr value 8)]> (shadow w))) w).

(** [USI_TWI_Write_Data(addr, &shadow[REGISTER_02], upto_reg - REGISTER_02 + 2)]:
    the bus driver is outside this file, the transfer is recorded with the
    bytes handed to it. *)
Definition si4702_write_registers (upto_reg : Z) : M unit :=
  fun w =>
    emit (EvTWIWrite FMIC_ADDRESS
            (take (Z.to_nat (upto_reg - REGISTER_02 + 2))
                  (drop (Z.to_nat REGISTER_02) (shadow w)))) w.

(** The eight values [bitMask] takes in
    [for (bitMask = 0b10000000; bitMask != 0; bitMask >>= 1)]. *)
Definition bit_masks : list Z := [0x80; 0x40; 0x20; 0x10; 0x08; 0x04; 0x02; 0x01].

Fixpoint debugBlinkByte_loop (masks : list Z) (data : Z) : M unit :=
  match masks with
  | [] => ret tt
  | bitMask :: rest =>
      SBI PORTB PB3 ;;
      _delay_us 50 ;;
      CBI PORTB PB3 ;;
      _delay_us 50 ;;
      (if Z.land data bitMask =? 0 then CBI PORTB PB3 else SBI PORTB PB3) ;;
      _delay_us 900 ;;
      debugBlinkByte_loop rest data
  end.

Definition debugBlinkByte (data : Z) : M unit :=
  CBI PORTB PB3 ;;
  SBI DDRB PB3 ;;
  _delay_us 500 ;;
  debugBlinkByte_loop bit_masks (u8 data) ;;
  CBI DDRB PB3 ;;
  SBI PORTB PB3.

Definition tune_direct (chan : Z) : M unit :=
  set_shadow_reg REGISTER_03 (Z.lor 0x8000 0x01ff) ;;
  si4702_write_registers REGISTER_03 ;;
  _delay_ms 160 ;;
  set_shadow_reg REGISTER_03 chan ;;
  si4702_write_registers REGISTER_03.

Definition currentChanFromShadow : M Z :=
  get_shadow_reg (Z.land REGISTER_03 0x1ff).

(** ** Parameter persistence store *)

(** [for (...; src < end; src++) crc = _crc16_update(crc, eeprom_read_byte(src));]
    over [n] consecutive cells starting at [src]. *)
Fixpoint crc_loop (n : nat) (src : nat) (crc : Z) : M Z :=
  match n with
  | O => ret crc
  | S n' =>
      b <- eeprom_read_byte src ;;
      crc_loop n' (S src) (_crc16_update crc b)
  end.

Definition update_channel (channel : Z) : M unit :=
  eeprom_write_word EEPROM_CHANNEL channel ;;
  crc <- crc_loop (EEPROM_CRC16 - EEPROM_WORKING) EEPROM_WORKING 0x0000 ;;
  eeprom_write_word EEPROM_CRC16 crc.

Definition check_param_crc (base : nat) : M Z :=
  crc_loop EEPROM_PARAM_BLOCK_SIZE base 0x0000.

Fixpoint copy_factory_param_loop (n : nat) (src dest : nat) : M unit :=
  match n with
  | O => ret tt
  | S n' =>
      b <- eeprom_read_byte src ;;
      eeprom_write_byte dest b ;;
      copy_factory_param_loop n' (S src) (S dest)
  end.

Definition copy_factory_param : M unit :=
  copy_factory_param_loop EEPROM_PARAM_BLOCK_SIZE EEPROM_FACTORY EEPROM_WORKING.

(** The body of [shutDown] in the source consists of comments only. *)
Definition shutDown (blinkCount : Z) : M unit := ret tt.

Definition debugBlink (b : Z) : M unit :=
  repeatM (Z.to_nat (u8 b))
    (SBI PORTB LED_DRIVE_BIT ;;
     _delay_ms 10 ;;
     CBI PORTB LED_DRIVE_BIT ;;
     _delay_ms 200) ;;
  _delay_ms 1000.

(** ** Receiver bring-up *)

Definition USI_TWI_Master_Initialise : M unit := emit EvTWIInit.

Definition si4702_init : M unit :=
  SBI PORTB FMIC_RESET_BIT ;;
  _delay_ms 1 ;;
  USI_TWI_Master_Initialise ;;
  set_shadow_reg REGISTER_07 0x8100 ;;
  si4702_write_registers REGISTER_07 ;;
  _delay_ms 600 ;;
  set_shadow_reg REGISTER_02 (_BV REG_02_ENABLE_BIT) ;;
  si4702_write_registers REGISTER_02 ;;
  _delay_ms 110 ;;
  r4 <- get_shadow_reg REGISTER_04 ;;
  deemph <- eeprom_read_byte EEPROM_DEEMPHASIS ;;
  set_shadow_reg REGISTER_04
    (Z.lor r4 (if deemph =? 0 then 0x0000 else 0x0800)) ;;
  band <- eeprom_read_byte EEPROM_BAND ;;
  spacing <- eeprom_read_byte EEPROM_SPACING ;;
  volume <- eeprom_read_byte EEPROM_VOLUME ;;
  set_shadow_reg REGISTER_05
    (Z.lor (Z.lor (Z.shiftl (Z.land band 0x03) 6)
                  (Z.shiftl (Z.land spacing 0x03) 4))
           (Z.land volume 0x0f)) ;;
  si4702_write_registers REGISTER_05 ;;
  chan <- eeprom_read_word EEPROM_CHANNEL ;;
  debugBlinkByte (chan / 0x100) ;;
  debugBlinkByte (Z.land chan 0xff) ;;
  set_shadow_reg REGISTER_03 (Z.lor 0x8000 chan) ;;
  si4702_write_registers REGISTER_03 ;;
  _delay_ms 100 ;;
  set_shadow_reg REGISTER_02
    (Z.lor (Z.lor (_BV REG_02_DMUTE_BIT) REG_02_MONO_BIT)
           (_BV REG_02_ENABLE_BIT)) ;;
  set_shadow_reg REGISTER_03 chan ;;
  si4702_write_registers REGISTER_03.

Definition deepSleep : M unit := emit EvSleep.

(** ** Button *)

(** One read of the button pin ([!TBI(PINB, BUTTON_INPUT_BIT)]). *)
Definition buttonDown : M bool :=
  fun w =>
    match button w with
    | [] => (false, w)
    | b :: rest => (b, set_button rest w)
    end.

Definition initButton : M bool :=
  SBI PORTB BUTTON_INPUT_BIT ;;
  r <- buttonDown ;;
  SBI GIMSK PCIE ;;
  SBI PCMSK BUTTON_PCINT_BIT ;;
  emit EvSei ;;
  ret r.

(** [while (countdown && buttonDown()) { _delay_ms(1); countdown--; }];
    the result is the value of [countdown] when the loop is left.  The pin
    is not read once [countdown] is zero. *)
Fixpoint timing_loop (countdown : nat) : M nat :=
  match countdown with
  | O => ret O
  | S c =>
      down <- buttonDown ;;
      if down then _delay_ms 1 ;; timing_loop c
      else ret countdown
  end.

(** [while (buttonDown());] *)
Fixpoint release_loop (samples : list bool) : list bool :=
  match samples with
  | [] => []
  | b :: rest => if b then release_loop rest else rest
  end.

Definition wait_release : M unit :=
  fun w => (tt, set_button (release_loop (button w)) w).

Definition handleButtonDown : M unit :=
  setLEDBrightness 0 ;;
  _delay_ms BUTTON_DEBOUNCE_MS ;;
  currentChan <- currentChanFromShadow ;;
  countdown <- timing_loop (Z.to_nat LONG_PRESS_MS) ;;
  (if negb (Nat.eqb countdown 0) then
     let currentChan := u16 (currentChan + 1) in
     let currentChan := if (1080 - 760) <? currentChan then 0 else currentChan in
     tune_direct currentChan
   else
     setLEDBrightness 255 ;;
     update_channel currentChan ;;
     _delay_ms 500 ;;
     setLEDBrightness 0) ;;
  wait_release ;;
  _delay_ms BUTTON_DEBOUNCE_MS.

(** ** Programming packets *)

(** Modelled from the spec: [readPbyte] is declared in VccProg.h, which is
    not among the sources.  Each call yields the next received byte
    (0..255) or a negative error code; when nothing more arrives the read
    fails. *)
Definition readPbyte : M Z :=
  fun w =>
    match pbytes w with
    | [] => (-1, w)
    | d :: rest => (d, set_pbytes rest w)
    end.

Definition readProgrammingPacket : M Z :=
  let crc := 0x0000 in
  d <- readPbyte ;;
  if d <? 0 then ret d else
  let crc := _crc16_update crc d in
  let channel := u16 (Z.shiftl d 8) in
  d <- readPbyte ;;
  if d <? 0 then ret d else
  let crc := _crc16_update crc d in
  let channel := u16 (Z.lor channel d) in
  d <- readPbyte ;;
  if d <? 0 then ret d else
  let crc_rec := u16 (Z.shiftl d 8) in
  d <- readPbyte ;;
  if d <? 0 then ret d else
  let crc_rec := u16 (Z.lor crc_rec d) in
  if negb (crc =? crc_rec) then
    debugBlink 1 ;;
    ret (-1)
  else
    _delay_ms 50 ;;
    update_channel channel ;;
    debugBlink 2 ;;
    ret 0.

(** ** Boot sequence

    [main] up to the point where the radio is on and tuned.  The breathing
    and sleep loops that follow [si4702_init()] are not part of this model.
    - Low battery: after the blink window the processor sleeps with no wake
      source armed, which ends the run.
    - Programming: [while (1) readProgrammingPacket();] never returns; the
      model runs one iteration per pending input byte (every iteration
      consumes at least one byte while any is pending, and an iteration
      without input has no effect), then reports that the loop is still
      waiting. *)

Inductive boot_result : Set :=
| LowBatteryAsleep
| ProgrammingWaiting
| RadioOn.

Definition VCC_GT_LOW_BATTERY_VOLTAGE : M bool := fun w => (vcc_above_low w, w).
Definition programmingVoltagePresent : M bool := fun w => (prog_voltage w, w).
Definition adc_on : M unit := emit EvAdcOn.
Definition adc_off : M unit := emit EvAdcOff.

Fixpoint programming_loop (fuel : nat) : M unit :=
  match fuel with
  | O => ret tt
  | S fuel' => readProgrammingPacket ;; programming_loop fuel'
  end.

(** [while (buttonDown()) { double blink }] at boot; the body does not read
    the pin, so the recursion follows the pending samples. *)
Fixpoint factory_pending_loop (samples : list bool) : M unit :=
  match samples with
  | [] => ret tt
  | _ :: rest =>
      down <- buttonDown ;;
      if down then
        setLEDBrightness 255 ;;
        _delay_ms 100 ;;
        setLEDBrightness 0 ;;
        _delay_ms 100 ;;
        setLEDBrightness 255 ;;
        _delay_ms 100 ;;
        setLEDBrightness 0 ;;
        _delay_ms 900 ;;
        factory_pending_loop rest
      else ret tt
  end.

Definition main : M boot_result :=
  SBI DDRB FMIC_RESET_BIT ;;
  SBI DDRB LED_DRIVE_BIT ;;
  adc_on ;;
  vcc_ok <- VCC_GT_LOW_BATTERY_VOLTAGE ;;
  if negb vcc_ok then
    adc_off ;;
    repeatM 120
      (SBI PORTB LED_DRIVE_BIT ;;
       _delay_ms 100 ;;
       CBI PORTB LED_DRIVE_BIT ;;
       _delay_ms 900) ;;
    deepSleep ;;
    ret LowBatteryAsleep
  else
  prog <- programmingVoltagePresent ;;
  if prog then
    (fun w => programming_loop (length (pbytes w)) w) ;;
    ret ProgrammingWaiting
  else
  adc_off ;;
  LED_PWM_init ;;
  LED_PWM_on ;;
  down <- initButton ;;
  (if down then
     (fun w => factory_pending_loop (button w) w) ;;
     copy_factory_param
   else ret tt) ;;
  crc <- check_param_crc EEPROM_WORKING ;;
  (if crc =? 0 then shutDown DIAGNOSTIC_BLINK_BADEEPROM else ret tt) ;;
  si4702_init ;;
  ret RadioOn.

(** ** Observations on traces *)

Definition is_twi_write (e : event) : bool :=
  match e with EvTWIWrite _ _ => true | _ => false end.

Definition is_eeprom_write (e : event) : bool :=
  match e with EvEepromWrite _ _ => true | _ => false end.

Definition is_sleep (e : event) : bool :=
  match e with EvSleep => true | _ => false end.

(** The bus transfers of a trace, in order: the bytes of each write. *)
Fixpoint twi_writes (t : list event) : list (list Z) :=
  match t with
  | [] => []
  | EvTWIWrite _ data :: t' => data :: twi_writes t'
  | _ :: t' => twi_writes t'
  end.

(** The EEPROM cells programmed by a trace, in order. *)
Fixpoint eeprom_writes (t : list event) : list (nat * Z) :=
  match t with
  | [] => []
  | EvEepromWrite a v :: t' => (a, v) :: eeprom_writes t'
  | _ :: t' => eeprom_writes t'
  end.

(** Running a function: its result, and the state it leaves. *)
Definition result {A} (m : M A) (w : world) : A := fst (m w).
Definition exec {A} (m : M A) (w : world) : world := snd (m w).

(** The value of register 0x3 that a bus write starting at register 0x2
    carries (bytes 2 and 3 of the transfer, big-endian). *)
Definition twi_reg3 (data : list Z) : Z :=
  Z.lor (Z.shiftl (data !!! 2%nat) 8) (data !!! 3%nat).

(** The value of register 0x2 in such a transfer (bytes 0 and 1). *)
Definition twi_reg2 (data : list Z) : Z :=
  Z.lor (Z.shiftl (data !!! 0%nat) 8) (data !!! 1%nat).

(** A sample state for evaluating the firmware: cleared shadow bank,
    LED off, good battery, no programmer, nothing pending. *)
Definition sample_world (e : list Z) (btn : list bool) : world :=
  mkWorld (replicate 32 0) 0 e btn [] [] true false [].

(** ** Reading the register bank

    Modelled from the spec: [USI_TWI_Read_Data] belongs to the bus driver
    (USI_TWI_Master.h), which is not among the sources.  One read
    transaction stores the bytes the chip returns, in the order received,
    at the start of the buffer; the chip starts at register 0xA and wraps
    from 0xF to 0x0. *)
Definition USI_TWI_Read_Data (addr : Z) (n : nat) : M unit :=
  fun w =>
    (tt, set_trace (trace w ++ [EvTWIRead addr n])
           (set_twi_rx (drop n (twi_rx w))
              (set_shadow (list_inserts 0 (u8 <$> take n (twi_rx w)) (shadow w)) w))).

Definition si4702_read_registers : M unit :=
  USI_TWI_Read_Data FMIC_ADDRESS (Z.to_nat (0x10 * 2)).

(** ** Breathing and sleeping *)

Definition breath_data : list Z :=
  [1; 1; 2; 3; 5; 8; 11; 15; 20; 25; 30; 36; 43; 49; 56; 64; 72; 80; 88; 97;
   105; 114; 123; 132; 141; 150; 158; 167; 175; 183; 191; 199; 206; 212; 219;
   225; 230; 235; 240; 244; 247; 250; 252; 253; 254; 255; 254; 253; 252; 250;
   247; 244; 240; 235; 230; 225; 219; 212; 206; 199; 191; 183; 175; 167; 158;
   150; 141; 132; 123; 114; 105; 97; 88; 80; 72; 64; 56; 49; 43; 36; 30; 25;
   20; 15; 11; 8; 5; 3; 2; 1; 0].

Definition BREATH_LEN : Z := Z.of_nat (length breath_data).

Definition breath (step : Z) : Z := breath_data !!! Z.to_nat (u8 step).

Definition BREATH_COUNT_TIMEOUT_S : Z := 60.

Definition debugshortblink : M unit :=
  SBI PORTB LED_DRIVE_BIT ;;
  _delay_ms 50 ;;
  CBI PORTB LED_DRIVE_BIT ;;
  _delay_ms 50.

(** One traversal of
    [for (cycle = 0; cycle < BREATH_LEN; cycle++) { ... if (buttonDown())
    { handleButtonDown(); cycle = 0; } }], entered with the given value of
    [cycle].  A press restarts the ramp, so the number of steps is not
    bounded by the table length: [fuel] bounds it, and [None] reports that
    the bound was reached before the loop was left. *)
Fixpoint breath_ramp (fuel : nat) (cycle : Z) : M (option unit) :=
  match fuel with
  | O => ret None
  | S fuel' =>
      if cycle <? BREATH_LEN then
        setLEDBrightness (breath cycle) ;;
        _delay_ms 20 ;;
        down <- buttonDown ;;
        if down then
          handleButtonDown ;;
          breath_ramp fuel' (u8 (0 + 1))
        else breath_ramp fuel' (u8 (cycle + 1))
      else ret (Some tt)
  end.

(** [while (countdown_s) { ramp; countdown_s--; }] *)
Fixpoint breathing (countdown_s : nat) (fuel : nat) : M (option unit) :=
  match countdown_s with
  | O => ret (Some tt)
  | S c =>
      r <- breath_ramp fuel 0 ;;
      match r with
      | None => ret None
      | Some _ => breathing c fuel
      end
  end.

(** One turn of the final [while (1)] of [main]: sleep until woken, then
    handle the button if it reads pressed. *)
Definition sleep_iteration : M unit :=
  LED_PWM_off ;;
  deepSleep ;;
  down <- buttonDown ;;
  if down then
    LED_PWM_on ;;
    handleButtonDown
  else ret tt.

(** The events a function appends when run from state [w]. *)
Definition events_of {A} (m : M A) (w : world) : list event :=
  drop (length (trace w)) (trace (exec m w)).

(** ** Vocabulary for the statements *)

(** The CRC-16 of a byte string, from the initial value 0x0000. *)
Definition crc16 (bytes : list Z) : Z := fold_left _crc16_update bytes 0.

(** The 16-bit value whose high byte is [hi] and low byte is [lo]. *)
Definition be16 (hi lo : Z) : Z := Z.lor (Z.shiftl hi 8) lo.

(** A parameter block with the channel cells rewritten. *)
Definition block_with_channel (channel : Z) (e : list Z) : list Z :=
  <[S EEPROM_CHANNEL := u8 (Z.shiftr channel 8)]> (<[EEPROM_CHANNEL := u8 channel]> e).

(** A parameter block with the CRC of its first fourteen cells stored,
    low byte first, in its last two. *)
Definition block_with_crc (e : list Z) : list Z :=
  let crc := crc16 (take EEPROM_CRC16 e) in
  <[S EEPROM_CRC16 := u8 (Z.shiftr crc 8)]> (<[EEPROM_CRC16 := u8 crc]> e).

(** The events of a held (long) press, after those already in the trace:
    indicator off and debounce, the 1 ms ticks of the countdown, indicator
    to full brightness, the four EEPROM cells, the 500 ms hold, indicator
    off, debounce. *)
Definition long_press_events (chan : Z) (e : list Z) : list event :=
  let e1 := block_with_channel chan e in
  let crc := crc16 (take EEPROM_CRC16 e1) in
  [EvOut TCCR1 0; EvOut GTCCR 0; EvDelayMs BUTTON_DEBOUNCE_MS]
  ++ replicate (Z.to_nat LONG_PRESS_MS) (EvDelayMs 1)
  ++ [EvOut OCR1B 255; EvOut TCCR1 0x84; EvOut GTCCR 0x60]
  ++ [EvEepromWrite EEPROM_CHANNEL (u8 chan);
      EvEepromWrite (S EEPROM_CHANNEL) (u8 (Z.shiftr chan 8));
      EvEepromWrite EEPROM_CRC16 (u8 crc);
      EvEepromWrite (S EEPROM_CRC16) (u8 (Z.shiftr crc 8))]
  ++ [EvDelayMs 500; EvOut TCCR1 0; EvOut GTCCR 0; EvDelayMs BUTTON_DEBOUNCE_MS].

(** The EEPROM cells that [update_channel chan] programs, in order, when
    the EEPROM holds [e]. *)
Definition update_channel_writes (chan : Z) (e : list Z) : list (nat * Z) :=
  let e1 := block_with_channel chan e in
  let crc := crc16 (take EEPROM_CRC16 e1) in
  [(EEPROM_CHANNEL, u8 chan); (S EEPROM_CHANNEL, u8 (Z.shiftr chan 8));
   (EEPROM_CRC16, u8 crc); (S EEPROM_CRC16, u8 (Z.shiftr crc 8))].

(** Where the first EEPROM write of a trace falls relative to the
    full-brightness flash: before the indicator is set to 255, while it is
    lit, or after it has been switched off again. *)
Inductive flash_phase : Set := BeforeFlash | FlashLit | FlashOver.

Fixpoint first_write_phase (ph : flash_phase) (t : list event) : option flash_phase :=
  match t with
  | [] => None
  | EvEepromWrite _ _ :: _ => Some ph
  | EvOut OCR1B v :: t' =>
      first_write_phase
        (match ph with BeforeFlash => if v =? 255 then FlashLit else ph | _ => ph end) t'
  | EvOut TCCR1 v :: t' =>
      first_write_phase
        (match ph with FlashLit => if v =? 0 then FlashOver else ph | _ => ph end) t'
  | _ :: t' => first_write_phase ph t'
  end.

(** Register [a] (0x2..0x9) as carried, big-endian, by a bus write that
    starts at register 0x2. *)
Definition twi_reg (a : Z) (data : list Z) : Z :=
  be16 (data !!! Z.to_nat (2 * (a - 2))) (data !!! Z.to_nat (2 * (a - 2) + 1)).

(** The shadow bank as a plain list: a register stored, a register read,
    and the bytes of registers 0x2 up to [upto_reg], as [set_shadow_reg],
    [get_shadow_reg] and [si4702_write_registers] compute them. *)
Definition bank_set (reg value : Z) (sh : list Z) : list Z :=
  <[Z.to_nat (reg + 1) := u8 (Z.land value 0xff)]>
    (<[Z.to_nat reg := u8 (Z.shiftr value 8)]> sh).

Definition bank_get (reg : Z) (sh : list Z) : Z :=
  u16 (Z.lor (Z.shiftl (sh !!! Z.to_nat reg) 8) (sh !!! Z.to_nat (reg + 1))).

Definition bank_bytes (upto_reg : Z) (sh : list Z) : list Z :=
  take (Z.to_nat (upto_reg - REGISTER_02 + 2)) (drop (Z.to_nat REGISTER_02) sh).

(** The two cells of a register in the bank, joined big-endian. *)
Definition reg_word (reg : Z) (sh : list Z) : Z :=
  be16 (sh !!! Z.to_nat reg) (sh !!! Z.to_nat (reg + 1)).

(** The register stores of [setLEDBrightness b]: the timer is stopped for
    0, otherwise the compare value is loaded and PWM switched on. *)
Definition led_events (b : Z) : list event :=
  if u8 b =? 0 then [EvOut TCCR1 0; EvOut GTCCR 0]
  else [EvOut OCR1B (u8 b); EvOut TCCR1 0x84; EvOut GTCCR 0x60].

(** One undisturbed traversal of the breathing table: each brightness
    followed by its 20 ms step. *)
Definition ramp_events : list event :=
  concat (map (fun b => led_events b ++ [EvDelayMs 20]) breath_data).

(** The events of one turn of the boot-time [while (buttonDown())] loop:
    two flashes at full brightness, 100 ms each, 100 ms apart, then
    900 ms dark. *)
Definition double_blink_events : list event :=
  led_events 255 ++ [EvDelayMs 100] ++ led_events 0 ++ [EvDelayMs 100] ++
  led_events 255 ++ [EvDelayMs 100] ++ led_events 0 ++ [EvDelayMs 900].

(** The events [main] appends before it samples the button, in normal
    mode (good supply, no programmer). *)
Definition boot_prefix_events : list event :=
  [EvSBI DDRB FMIC_RESET_BIT; EvSBI DDRB LED_DRIVE_BIT; EvAdcOn; EvAdcOff;
   EvOut PLLCSR (_BV LSM); EvOut OCR1C 255; EvOut OCR1B 0;
   EvOut TCCR1 0x84; EvOut GTCCR 0x60;
   EvSBI PORTB BUTTON_INPUT_BIT; EvSBI GIMSK PCIE;
   EvSBI PCMSK BUTTON_PCINT_BIT; EvSei].

(** The events of one turn of the final loop of [main] in which the
    button reads released after the wake: timer off, sleep. *)
Definition idle_wake_events : list event :=
  [EvOut TCCR1 0; EvOut GTCCR 0; EvSleep].

(** A cell or list of cells holding byte values. *)
Definition is_byte (b : Z) : Prop := 0 <= b < 256.

(** The events of [debugBlinkByte]: a start mark, then per bit, most
    significant first, a clock pulse followed by the data level, then the
    pin handed back. *)
Definition blink_bit_events (data bitMask : Z) : list event :=
  [EvSBI PORTB PB3; EvDelayUs 50; EvCBI PORTB PB3; EvDelayUs 50;
   if Z.land data bitMask =? 0 then EvCBI PORTB PB3 else EvSBI PORTB PB3;
   EvDelayUs 900].

Definition debugBlinkByte_events (data : Z) : list event :=
  [EvCBI PORTB PB3; EvSBI DDRB PB3; EvDelayUs 500]
  ++ concat (map (blink_bit_events (u8 data)) bit_masks)
  ++ [EvCBI DDRB PB3; EvSBI PORTB PB3].

(** What a receiver of the [debugBlinkByte] waveform samples: the level
    put on the pin after each clock pulse. *)
Fixpoint blink_levels (t : list event) : list bool :=
  match t with
  | [] => []
  | EvSBI PORTB _ :: t1 =>
      match t1 with
      | EvDelayUs _ :: EvCBI PORTB _ :: EvDelayUs _ :: EvSBI PORTB _ :: t' =>
          true :: blink_levels t'
      | EvDelayUs _ :: EvCBI PORTB _ :: EvDelayUs _ :: EvCBI PORTB _ :: t' =>
          false :: blink_levels t'
      | _ => blink_levels t1
      end
  | _ :: t1 => blink_levels t1
  end.

(** The number whose binary digits, most significant first, are [bits]. *)
Definition bits_value (bits : list bool) : Z :=
  fold_left (fun acc (b : bool) => 2 * acc + (if b then 1 else 0)) bits 0.

(** The number of leading pressed samples of the button input. *)
Fixpoint pressed_run (samples : list bool) : nat :=
  match samples with
  | true :: rest => S (pressed_run rest)
  | _ => O
  end.

(** Sample inputs. *)
Definition erased_eeprom : list Z := replicate 32 0xff.

Definition tuned_world (chan : Z) (e : list Z) (btn : list bool) : world :=
  exec (set_shadow_reg REGISTER_03 chan) (sample_world e btn).

Definition short_press : list bool := replicate 10 true ++ [false].
Definition long_press_released_on_timeout : list bool :=
  replicate (Z.to_nat LONG_PRESS_MS) true ++ [false].

(** * Properties *)

#[local] Arguments _crc16_update : simpl never.

(** ** Machine integers *)

Lemma u8_range x : 0 <= u8 x < 256.
Proof. unfold u8. apply Z.mod_pos_bound. lia. Qed.

Lemma u8_small x : 0 <= x < 256 -> u8 x = x.
Proof. intros H. unfold u8. apply Z.mod_small. exact H. Qed.

Lemma u16_small x : 0 <= x < 65536 -> u16 x = x.
Proof. intros H. unfold u16. apply Z.mod_small. exact H. Qed.

Lemma u8_land_ones x : u8 x = Z.land x (Z.ones 8).
Proof. unfold u8. rewrite Z.land_ones by lia. reflexivity. Qed.

Lemma shiftr8_range v : 0 <= v < 65536 -> 0 <= Z.shiftr v 8 < 256.
Proof.
  intros H. rewrite Z.shiftr_div_pow2 by lia. change (2 ^ 8) with 256.
  split; [apply Z.div_pos; lia | apply Z.div_lt_upper_bound; lia].
Qed.

(** Splitting a 16-bit value into its high and low byte and joining the
    bytes big-endian gives the value back. *)
Lemma join_split_be v :
  0 <= v < 65536 ->
  Z.lor (Z.shiftl (u8 (Z.shiftr v 8)) 8) (u8 (Z.land v 0xff)) = v.
Proof.
  intros H.
  rewrite (u8_small (Z.shiftr v 8)) by (apply shiftr8_range; exact H).
  rewrite u8_land_ones. change 0xff with (Z.ones 8).
  rewrite <- Z.land_assoc, Z.land_diag.
  rewrite <- Z.ldiff_ones_r by lia.
  apply Z.lor_ldiff_and.
Qed.

(** The same for the little-endian layout of EEPROM words. *)
Lemma join_split_le v :
  0 <= v < 65536 ->
  Z.lor (u8 v) (Z.shiftl (u8 (Z.shiftr v 8)) 8) = v.
Proof.
  intros H.
  rewrite (u8_small (Z.shiftr v 8)) by (apply shiftr8_range; exact H).
  rewrite u8_land_ones, Z.lor_comm.
  rewrite <- Z.ldiff_ones_r by lia.
  apply Z.lor_ldiff_and.
Qed.

(** ** CRC-16 *)

Lemma crc16_step_range c : 0 <= c < 65536 -> 0 <= crc16_step c < 65536.
Proof.
  intros H. unfold crc16_step.
  assert (Hs : 0 <= Z.shiftr c 1 < 32768).
  { rewrite Z.shiftr_div_pow2 by lia. change (2 ^ 1) with 2.
    split; [apply Z.div_pos; lia | apply Z.div_lt_upper_bound; lia]. }
  destruct (Z.testbit c 0); [|lia].
  split.
  - apply Z.lxor_nonneg. lia.
  - change 65536 with (2 ^ 16).
    destruct (Z.eq_dec (Z.lxor (Z.shiftr c 1) 40961) 0) as [->|Hne]; [lia|].
    apply Z.log2_lt_pow2.
    + assert (0 <= Z.lxor (Z.shiftr c 1) 40961) by (apply Z.lxor_nonneg; lia). lia.
    + eapply Z.le_lt_trans; [apply Z.log2_lxor; lia|].
      apply Z.max_lub_lt.
      * destruct (Z.eq_dec (Z.shiftr c 1) 0) as [->|Hn0]; [reflexivity|].
        apply Z.log2_lt_pow2; lia.
      * reflexivity.
Qed.

Lemma crc16_update_range c a : 0 <= c < 65536 -> 0 <= _crc16_update c a < 65536.
Proof.
  intros H. unfold _crc16_update.
  assert (H0 : 0 <= Z.lxor c (u8 a) < 65536).
  { pose proof (u8_range a) as Ha. split.
    - apply Z.lxor_nonneg. lia.
    - change 65536 with (2 ^ 16).
      destruct (Z.eq_dec (Z.lxor c (u8 a)) 0) as [->|Hne]; [lia|].
      apply Z.log2_lt_pow2.
      + assert (0 <= Z.lxor c (u8 a)) by (apply Z.lxor_nonneg; lia). lia.
      + eapply Z.le_lt_trans; [apply Z.log2_lxor; lia|].
        apply Z.max_lub_lt.
        * destruct (Z.eq_dec c 0) as [->|Hn0]; [reflexivity|].
          apply Z.log2_lt_pow2; lia.
        * destruct (Z.eq_dec (u8 a) 0) as [->|Hn0]; [reflexivity|].
          apply Z.log2_lt_pow2; lia. }
  simpl. do 8 (apply crc16_step_range). exact H0.
Qed.

(** A step on an even value is a plain halving. *)
Lemma crc16_step_double x : crc16_step (2 * x) = x.
Proof.
  unfold crc16_step. rewrite Z.testbit_even_0.
  rewrite Z.shiftr_div_pow2 by lia. change (2 ^ 1) with 2.
  rewrite Z.mul_comm. apply Z.div_mul. lia.
Qed.

(** Feeding a CRC its own low byte leaves its high byte. *)
Lemma crc16_update_low c :
  0 <= c < 65536 -> _crc16_update c (Z.land c 0xff) = Z.shiftr c 8.
Proof.
  intros H. unfold _crc16_update.
  assert (E : Z.lxor c (u8 (Z.land c 0xff)) = 256 * Z.shiftr c 8).
  { rewrite u8_land_ones. change 0xff with (Z.ones 8).
    rewrite <- Z.land_assoc, Z.land_diag.
    transitivity (Z.ldiff c (Z.ones 8)).
    - apply Z.bits_inj'. intros n Hn.
      rewrite Z.lxor_spec, Z.land_spec, Z.ldiff_spec.
      destruct (Z.testbit c n), (Z.testbit (Z.ones 8) n); reflexivity.
    - rewrite Z.ldiff_ones_r by lia.
      rewrite Z.shiftl_mul_pow2 by lia. change (2 ^ 8) with 256. lia. }
  rewrite E.
  set (x := Z.shiftr c 8).
  replace (256 * x) with (2 * (2 * (2 * (2 * (2 * (2 * (2 * (2 * x)))))))) by lia.
  simpl. rewrite !crc16_step_double. reflexivity.
Qed.

(** Feeding a CRC its low byte and then its high byte leaves zero: the
    residue of a block that ends in its own little-endian CRC. *)
Lemma crc16_residue c :
  0 <= c < 65536 ->
  _crc16_update (_crc16_update c (u8 c)) (u8 (Z.shiftr c 8)) = 0.
Proof.
  intros H.
  replace (u8 c) with (Z.land c 0xff)
    by (rewrite u8_land_ones; reflexivity).
  rewrite crc16_update_low by exact H.
  pose proof (shiftr8_range c H) as Hr.
  unfold _crc16_update.
  rewrite !u8_small by (try rewrite u8_small; lia).
  rewrite Z.lxor_nilpotent. reflexivity.
Qed.

(** ** Register shadow store *)

Lemma reg_value_layout (r : si4702_register) :
  reg_value r = 2 * ((logical_address r + 6) mod 16).
Proof. destruct r; reflexivity. Qed.

Lemma logical_address_range (r : si4702_register) :
  0x0 <= logical_address r <= 0xF.
Proof. destruct r; simpl; lia. Qed.

Lemma logical_address_inj (r r' : si4702_register) :
  logical_address r = logical_address r' -> r = r'.
Proof. destruct r, r'; simpl; intros H; try reflexivity; discriminate H. Qed.

Lemma shadow_set_shadow_reg (reg value : Z) (w : world) :
  shadow (exec (set_shadow_reg reg value) w) =
  <[Z.to_nat (reg + 1) := u8 (Z.land value 0xff)]>
    (<[Z.to_nat reg := u8 (Z.shiftr value 8)]> (shadow w)).
Proof. reflexivity. Qed.

Lemma get_after_set (reg v : Z) (w : world) :
  0 <= reg -> (Z.to_nat reg + 1 < length (shadow w))%nat ->
  0 <= v < 65536 ->
  result (get_shadow_reg reg) (exec (set_shadow_reg reg v) w) = v.
Proof.
  intros Hreg Hlen Hv.
  unfold result, get_shadow_reg. cbn [fst].
  rewrite shadow_set_shadow_reg.
  rewrite list_lookup_total_insert_ne by lia.
  rewrite list_lookup_total_insert_eq by lia.
  rewrite list_lookup_total_insert_eq by (rewrite length_insert; lia).
  rewrite join_split_be by exact Hv.
  apply u16_small. exact Hv.
Qed.

(** C8.  For every register enumerator [r] (logical addresses 0x0..0xF)
    and every 16-bit [v]: reading the shadow bank right after
    [set_shadow_reg r v] returns exactly [v]; both bytes of every other
    register, and hence its value, are unchanged; the bank keeps its 32
    cells and neither the bus nor the EEPROM is touched.  The storage
    offset of [r] is twice its position in the chip's read order (which
    starts at 0xA and wraps), and distinct registers have distinct
    offsets. *)
Theorem shadow_reg_roundtrip (r : si4702_register) (v : Z) (w : world) :
  length (shadow w) = 32%nat ->
  0 <= v < 65536 ->
  let w' := exec (set_shadow_reg r v) w in
  result (get_shadow_reg r) w' = v /\
  (forall r' : si4702_register, r' <> r ->
     shadow w' !!! Z.to_nat r' = shadow w !!! Z.to_nat r' /\
     shadow w' !!! Z.to_nat (r' + 1) = shadow w !!! Z.to_nat (r' + 1) /\
     result (get_shadow_reg r') w' = result (get_shadow_reg r') w) /\
  length (shadow w') = 32%nat /\
  trace w' = trace w /\ eeprom w' = eeprom w /\
  reg_value r = 2 * ((logical_address r + 6) mod 16) /\
  (forall r' : si4702_register, reg_value r' = reg_value r -> r' = r).
Proof.
  intros Hlen Hv w'. split; [|split; [|split; [|split; [|split; [|split]]]]].
  - apply get_after_set; [destruct r; simpl; lia | rewrite Hlen; destruct r; simpl; lia | exact Hv].
  - intros r' Hne.
    assert (H1 : shadow w' !!! Z.to_nat r' = shadow w !!! Z.to_nat r').
    { subst w'. rewrite shadow_set_shadow_reg.
      rewrite !list_lookup_total_insert_ne; [reflexivity| |];
        destruct r, r'; simpl; try lia; congruence. }
    assert (H2 : shadow w' !!! Z.to_nat (r' + 1) = shadow w !!! Z.to_nat (r' + 1)).
    { subst w'. rewrite shadow_set_shadow_reg.
      rewrite !list_lookup_total_insert_ne; [reflexivity| |];
        destruct r, r'; simpl; try lia; congruence. }
    split; [exact H1|split; [exact H2|]].
    unfold result, get_shadow_reg. cbn [fst]. rewrite H1, H2. reflexivity.
  - subst w'. rewrite shadow_set_shadow_reg, !length_insert. exact Hlen.
  - reflexivity.
  - reflexivity.
  - apply reg_value_layout.
  - intros r' H. destruct r, r'; try reflexivity; discriminate H.
Qed.

Lemma shadow_reg_roundtrip_witness :
  length (shadow (sample_world [] [])) = 32%nat /\
  0 <= 0x1234 < 65536 /\
  result (get_shadow_reg REGISTER_03)
         (exec (set_shadow_reg REGISTER_03 0x1234) (sample_world [] [])) = 0x1234.
Proof.
  split; [reflexivity|]. split; [lia|].
  apply (shadow_reg_roundtrip REGISTER_03 0x1234 (sample_world [] []));
    [reflexivity | lia].
Defined.


(** ** Parameter persistence store *)



Lemma fold_crc16_range (l : list Z) (c : Z) :
  0 <= c < 65536 -> 0 <= fold_left _crc16_update l c < 65536.
Proof.
  revert c. induction l as [|b l IH]; intros c Hc; simpl; [exact Hc|].
  apply IH, crc16_update_range, Hc.
Qed.

Lemma crc16_range (l : list Z) : 0 <= crc16 l < 65536.
Proof. apply fold_crc16_range. lia. Qed.

Lemma crc_loop_spec (n src : nat) (crc : Z) (w : world) :
  (src + n <= length (eeprom w))%nat ->
  crc_loop n src crc w =
  (fold_left _crc16_update (take n (drop src (eeprom w))) crc, w).
Proof.
  revert src crc. induction n as [|n IH]; intros src crc Hlen.
  - reflexivity.
  - cbn [crc_loop]. unfold bind, eeprom_read_byte.
    rewrite IH by lia.
    rewrite (drop_S (eeprom w) (eeprom w !!! src) src)
      by (apply list_lookup_lookup_total_lt; lia).
    reflexivity.
Qed.

Lemma eeprom_write_word_spec (a : nat) (v : Z) (w : world) :
  eeprom_write_word a v w =
  (tt, set_trace (trace w ++ [EvEepromWrite a (u8 v);
                              EvEepromWrite (S a) (u8 (Z.shiftr v 8))])
         (set_eeprom (<[S a := u8 (Z.shiftr v 8)]> (<[a := u8 v]> (eeprom w))) w)).
Proof.
  unfold eeprom_write_word, bind, eeprom_write_byte, set_trace, set_eeprom.
  cbn. rewrite <- app_assoc. reflexivity.
Qed.


Lemma update_channel_spec (channel : Z) (w : world) :
  (16 <= length (eeprom w))%nat ->
  update_channel channel w =
  (tt,
   let e1 := block_with_channel channel (eeprom w) in
   let crc := crc16 (take EEPROM_CRC16 e1) in
   set_trace (trace w ++ [EvEepromWrite EEPROM_CHANNEL (u8 channel);
                          EvEepromWrite (S EEPROM_CHANNEL) (u8 (Z.shiftr channel 8));
                          EvEepromWrite EEPROM_CRC16 (u8 crc);
                          EvEepromWrite (S EEPROM_CRC16) (u8 (Z.shiftr crc 8))])
     (set_eeprom (block_with_crc e1) w)).
Proof.
  intros Hlen. unfold update_channel, bind.
  rewrite eeprom_write_word_spec.
  rewrite crc_loop_spec by (cbn; rewrite !length_insert; unfold EEPROM_CRC16, EEPROM_WORKING; lia).
  rewrite eeprom_write_word_spec.
  unfold set_trace, set_eeprom, block_with_crc, block_with_channel, crc16. cbn.
  rewrite <- app_assoc. reflexivity.
Qed.

Lemma check_crc_block_with_crc (e : list Z) :
  (16 <= length e)%nat ->
  crc16 (take EEPROM_PARAM_BLOCK_SIZE (block_with_crc e)) = 0.
Proof.
  intros Hlen. unfold block_with_crc.
  set (crc := crc16 (take EEPROM_CRC16 e)).
  set (e' := <[S EEPROM_CRC16:=u8 (Z.shiftr crc 8)]> (<[EEPROM_CRC16:=u8 crc]> e)).
  assert (Hl' : length e' = length e) by (subst e'; rewrite !length_insert; reflexivity).
  assert (H14 : take EEPROM_CRC16 e' = take EEPROM_CRC16 e).
  { subst e'. rewrite !take_insert_ge by (unfold EEPROM_CRC16; lia). reflexivity. }
  assert (E14 : e' !! EEPROM_CRC16 = Some (u8 crc)).
  { subst e'. rewrite list_lookup_insert_ne by (unfold EEPROM_CRC16; lia).
    apply list_lookup_insert_eq. unfold EEPROM_CRC16. lia. }
  assert (E15 : e' !! S EEPROM_CRC16 = Some (u8 (Z.shiftr crc 8))).
  { subst e'. apply list_lookup_insert_eq. rewrite length_insert.
    unfold EEPROM_CRC16. lia. }
  change EEPROM_PARAM_BLOCK_SIZE with (S (S EEPROM_CRC16)).
  rewrite (take_S_r _ _ _ E15), (take_S_r _ _ _ E14), H14.
  unfold crc16. rewrite !fold_left_app. cbn [fold_left].
  fold (crc16 (take EEPROM_CRC16 e)). fold crc.
  apply crc16_residue. apply crc16_range.
Qed.

Lemma update_channel_block_valid (channel : Z) (w : world) :
  (16 <= length (eeprom w))%nat ->
  0 <= channel < 65536 ->
  let w' := exec (update_channel channel) w in
  result (eeprom_read_word EEPROM_CRC16) w' = crc16 (take EEPROM_CRC16 (eeprom w')) /\
  result (check_param_crc EEPROM_WORKING) w' = 0 /\
  result (eeprom_read_word EEPROM_CHANNEL) w' = channel /\
  length (eeprom w') = length (eeprom w).
Proof.
  intros Hlen Hch w'.
  assert (Ew : eeprom w' = block_with_crc (block_with_channel channel (eeprom w))).
  { subst w'. unfold exec. rewrite update_channel_spec by exact Hlen. reflexivity. }
  set (e1 := block_with_channel channel (eeprom w)) in *.
  assert (Hl1 : length e1 = length (eeprom w))
    by (subst e1; unfold block_with_channel; rewrite !length_insert; reflexivity).
  assert (Hl' : length (eeprom w') = length (eeprom w))
    by (rewrite Ew; unfold block_with_crc; cbn zeta; rewrite !length_insert; exact Hl1).
  split; [|split; [|split]].
  - unfold result, eeprom_read_word, bind, eeprom_read_byte, ret. cbn [fst].
    rewrite Ew. unfold block_with_crc at 1 2. cbn zeta.
    rewrite list_lookup_total_insert_ne by (unfold EEPROM_CRC16; lia).
    rewrite list_lookup_total_insert_eq by (unfold EEPROM_CRC16; lia).
    rewrite list_lookup_total_insert_eq
      by (rewrite length_insert; unfold EEPROM_CRC16; lia).
    rewrite join_split_le by apply crc16_range.
    unfold block_with_crc. cbn zeta.
    rewrite !take_insert_ge by (unfold EEPROM_CRC16; lia). reflexivity.
  - unfold result, check_param_crc.
    rewrite crc_loop_spec by (unfold EEPROM_PARAM_BLOCK_SIZE, EEPROM_WORKING; lia).
    cbn [fst]. change (drop EEPROM_WORKING (eeprom w')) with (eeprom w').
    rewrite Ew. apply check_crc_block_with_crc. lia.
  - unfold result, eeprom_read_word, bind, eeprom_read_byte, ret. cbn [fst].
    rewrite Ew. unfold block_with_crc. cbn zeta.
    rewrite !list_lookup_total_insert_ne by (unfold EEPROM_CRC16, EEPROM_CHANNEL; lia).
    subst e1. unfold block_with_channel.
    rewrite list_lookup_total_insert_ne by (unfold EEPROM_CHANNEL; lia).
    rewrite list_lookup_total_insert_eq by (unfold EEPROM_CHANNEL; lia).
    rewrite list_lookup_total_insert_eq
      by (rewrite length_insert; unfold EEPROM_CHANNEL; lia).
    apply join_split_le. exact Hch.
  - exact Hl'.
Qed.

(** C4.  For every 16-bit channel and every prior EEPROM contents (of at
    least one parameter block), after [update_channel] the CRC word stored
    in the last two cells of the working block equals the CRC-16 of the
    fourteen cells before it, [check_param_crc] over the working block
    returns 0 (valid), and the channel cells read back as the channel. *)
Theorem update_channel_crc_valid (channel : Z) (w : world) :
  (16 <= length (eeprom w))%nat ->
  0 <= channel < 65536 ->
  let w' := exec (update_channel channel) w in
  result (eeprom_read_word EEPROM_CRC16) w' = crc16 (take EEPROM_CRC16 (eeprom w')) /\
  result (check_param_crc EEPROM_WORKING) w' = 0 /\
  result (eeprom_read_word EEPROM_CHANNEL) w' = channel /\
  length (eeprom w') = length (eeprom w).
Proof. exact (update_channel_block_valid channel w). Qed.

Lemma update_channel_crc_valid_witness :
  (16 <= length (eeprom (sample_world erased_eeprom [])))%nat /\
  0 <= 100 < 65536 /\
  result (check_param_crc EEPROM_WORKING)
         (exec (update_channel 100) (sample_world erased_eeprom [])) = 0.
Proof.
  split; [vm_compute; lia|]. split; [lia|].
  apply (update_channel_crc_valid 100 (sample_world erased_eeprom []));
    [vm_compute; lia | lia].
Defined.


(** ** Sequencing *)

Lemma exec_bind {A B} (m : M A) (k : A -> M B) (w : world) :
  exec (bind m k) w = exec (k (result m w)) (exec m w).
Proof. unfold exec, result, bind. destruct (m w). reflexivity. Qed.

Lemma result_bind {A B} (m : M A) (k : A -> M B) (w : world) :
  result (bind m k) w = result (k (result m w)) (exec m w).
Proof. unfold exec, result, bind. destruct (m w). reflexivity. Qed.

Lemma run_eq {A} (m : M A) (w : world) : m w = (result m w, exec m w).
Proof. unfold exec, result. destruct (m w). reflexivity. Qed.

Lemma eeprom_writes_app (t1 t2 : list event) :
  eeprom_writes (t1 ++ t2) = eeprom_writes t1 ++ eeprom_writes t2.
Proof.
  induction t1 as [|e t1 IH]; [reflexivity|].
  destruct e; simpl; rewrite IH; reflexivity.
Qed.

Lemma twi_writes_app (t1 t2 : list event) :
  twi_writes (t1 ++ t2) = twi_writes t1 ++ twi_writes t2.
Proof.
  induction t1 as [|e t1 IH]; [reflexivity|].
  destruct e; simpl; rewrite IH; reflexivity.
Qed.

Lemma eeprom_writes_delays (n : nat) (ms : Z) :
  eeprom_writes (replicate n (EvDelayMs ms)) = [].
Proof. induction n as [|n IH]; [reflexivity|exact IH]. Qed.

Lemma twi_writes_delays (n : nat) (ms : Z) :
  twi_writes (replicate n (EvDelayMs ms)) = [].
Proof. induction n as [|n IH]; [reflexivity|exact IH]. Qed.

(** ** Button timing *)

Lemma timing_loop_released (c n : nat) (rest : list bool) (w : world) :
  (n < c)%nat ->
  button w = replicate n true ++ false :: rest ->
  timing_loop c w =
  ((c - n)%nat,
   set_trace (trace w ++ replicate n (EvDelayMs 1)) (set_button rest w)).
Proof.
  revert n w. induction c as [|c IH]; intros n w Hn Hb; [lia|].
  destruct n as [|n].
  - cbn [timing_loop]. unfold bind, buttonDown. rewrite Hb. cbn.
    rewrite app_nil_r. destruct w; reflexivity.
  - cbn [timing_loop]. unfold bind at 1. unfold buttonDown. rewrite Hb.
    cbn [replicate app]. unfold bind, _delay_ms, emit.
    rewrite (IH n); [|lia|reflexivity].
    destruct w; cbn. rewrite <- app_assoc. reflexivity.
Qed.

Lemma timing_loop_held (c : nat) (rest : list bool) (w : world) :
  button w = replicate c true ++ rest ->
  timing_loop c w =
  (O, set_trace (trace w ++ replicate c (EvDelayMs 1)) (set_button rest w)).
Proof.
  revert w. induction c as [|c IH]; intros w Hb.
  - cbn in *. rewrite app_nil_r. subst rest. destruct w; reflexivity.
  - cbn [timing_loop]. unfold bind at 1. unfold buttonDown. rewrite Hb.
    cbn [replicate app]. unfold bind, _delay_ms, emit.
    rewrite IH; [|reflexivity].
    destruct w; cbn. rewrite <- app_assoc. reflexivity.
Qed.

Lemma result_timing_released (c n : nat) (rest : list bool) (w : world) :
  (n < c)%nat -> button w = replicate n true ++ false :: rest ->
  result (timing_loop c) w = (c - n)%nat.
Proof.
  intros Hn Hb. unfold result.
  rewrite (timing_loop_released c n rest w Hn Hb). reflexivity.
Qed.

Lemma exec_timing_released (c n : nat) (rest : list bool) (w : world) :
  (n < c)%nat -> button w = replicate n true ++ false :: rest ->
  exec (timing_loop c) w =
  set_trace (trace w ++ replicate n (EvDelayMs 1)) (set_button rest w).
Proof.
  intros Hn Hb. unfold exec.
  rewrite (timing_loop_released c n rest w Hn Hb). reflexivity.
Qed.

Lemma result_timing_held (c : nat) (rest : list bool) (w : world) :
  button w = replicate c true ++ rest -> result (timing_loop c) w = O.
Proof.
  intros Hb. unfold result. rewrite (timing_loop_held c rest w Hb). reflexivity.
Qed.

Lemma exec_timing_held (c : nat) (rest : list bool) (w : world) :
  button w = replicate c true ++ rest ->
  exec (timing_loop c) w =
  set_trace (trace w ++ replicate c (EvDelayMs 1)) (set_button rest w).
Proof.
  intros Hb. unfold exec. rewrite (timing_loop_held c rest w Hb). reflexivity.
Qed.

Lemma exec_update_channel (channel : Z) (w : world) :
  (16 <= length (eeprom w))%nat ->
  exec (update_channel channel) w =
  let e1 := block_with_channel channel (eeprom w) in
  let crc := crc16 (take EEPROM_CRC16 e1) in
  set_trace (trace w ++ [EvEepromWrite EEPROM_CHANNEL (u8 channel);
                         EvEepromWrite (S EEPROM_CHANNEL) (u8 (Z.shiftr channel 8));
                         EvEepromWrite EEPROM_CRC16 (u8 crc);
                         EvEepromWrite (S EEPROM_CRC16) (u8 (Z.shiftr crc 8))])
    (set_eeprom (block_with_crc e1) w).
Proof.
  intros Hlen. unfold exec. rewrite update_channel_spec by exact Hlen. reflexivity.
Qed.


Lemma exec_setLEDBrightness_off (w : world) :
  exec (setLEDBrightness 0) w =
  set_trace (trace w ++ [EvOut TCCR1 0; EvOut GTCCR 0])
            (set_currentLEDBrightness 0 w).
Proof.
  unfold exec, setLEDBrightness, bind. change (u8 0) with 0.
  destruct w; cbn. rewrite <- app_assoc. reflexivity.
Qed.

Lemma exec_setLEDBrightness_full (w : world) :
  exec (setLEDBrightness 255) w =
  set_trace (trace w ++ [EvOut OCR1B 255; EvOut TCCR1 0x84; EvOut GTCCR 0x60])
            (set_currentLEDBrightness 255 w).
Proof.
  unfold exec, setLEDBrightness, bind. change (u8 255) with 255.
  destruct w; cbn. rewrite <- !app_assoc. reflexivity.
Qed.

Lemma handleButtonDown_held (w : world) (rest : list bool) :
  (16 <= length (eeprom w))%nat ->
  button w = replicate (Z.to_nat LONG_PRESS_MS) true ++ rest ->
  let chan := result currentChanFromShadow w in
  let w' := exec handleButtonDown w in
  trace w' = trace w ++ long_press_events chan (eeprom w) /\
  eeprom w' = block_with_crc (block_with_channel chan (eeprom w)) /\
  shadow w' = shadow w /\
  button w' = release_loop rest.
Proof.
  intros Hlen Hb chan w'. subst w'.
  unfold handleButtonDown. rewrite !exec_bind.
  set (w1 := exec currentChanFromShadow
               (exec (_delay_ms BUTTON_DEBOUNCE_MS) (exec (setLEDBrightness 0) w))).
  assert (Hb1 : button w1 = replicate (Z.to_nat LONG_PRESS_MS) true ++ rest) by exact Hb.
  rewrite (result_timing_held _ rest w1 Hb1), (exec_timing_held _ rest w1 Hb1).
  cbn [Nat.eqb negb]. rewrite !exec_bind.
  rewrite exec_update_channel by exact Hlen.
  change (result currentChanFromShadow
            (exec (_delay_ms BUTTON_DEBOUNCE_MS) (exec (setLEDBrightness 0) w)))
    with chan.
  unfold long_press_events.
  generalize (replicate (Z.to_nat LONG_PRESS_MS) (EvDelayMs 1)). intros delays.
  clearbody chan. subst w1. rewrite !exec_setLEDBrightness_off.
  rewrite !exec_setLEDBrightness_full. clear Hb1.
  destruct w as [sh led ee bt pb rx vc pv tr].
  cbn. rewrite <- !app_assoc. cbn. auto.
Qed.

(** ** Direct tune *)

Ltac simpl_lookups :=
  repeat first
    [ rewrite list_lookup_total_insert_eq by (rewrite ?length_insert; lia)
    | rewrite list_lookup_total_insert_ne by lia ].

Lemma exec_tune_direct (chan : Z) (w : world) :
  exec (tune_direct chan) w =
  let sh1 := <[19%nat := 0xff]> (<[18%nat := 0x81]> (shadow w)) in
  let sh2 := <[19%nat := u8 (Z.land chan 0xff)]>
               (<[18%nat := u8 (Z.shiftr chan 8)]> sh1) in
  set_trace (trace w ++ [EvTWIWrite FMIC_ADDRESS (take 4 (drop 16 sh1));
                         EvDelayMs 160;
                         EvTWIWrite FMIC_ADDRESS (take 4 (drop 16 sh2))])
            (set_shadow sh2 w).
Proof.
  unfold tune_direct. rewrite !exec_bind.
  unfold exec, set_shadow_reg, si4702_write_registers, _delay_ms, emit.
  destruct w; cbn. rewrite <- !app_assoc. reflexivity.
Qed.

(** Register 0x3 as carried by a transfer of the first two shadow
    registers is the shadow's register 0x3. *)
Lemma twi_reg3_shadow (sh : list Z) :
  twi_reg3 (take 4 (drop 16 sh)) = Z.lor (Z.shiftl (sh !!! 18%nat) 8) (sh !!! 19%nat).
Proof.
  unfold twi_reg3.
  rewrite !lookup_total_take_lt by lia. rewrite !lookup_total_drop. reflexivity.
Qed.

Lemma tune_direct_bus (chan : Z) (w : world) :
  length (shadow w) = 32%nat ->
  0 <= chan < 65536 ->
  let w' := exec (tune_direct chan) w in
  map twi_reg3 (twi_writes (trace w')) =
    map twi_reg3 (twi_writes (trace w)) ++ [0x81ff; chan] /\
  result (get_shadow_reg REGISTER_03) w' = chan /\
  eeprom w' = eeprom w /\
  eeprom_writes (trace w') = eeprom_writes (trace w).
Proof.
  intros Hlen Hch w'. subst w'. rewrite exec_tune_direct. cbn zeta.
  split; [|split; [|split]].
  - destruct w as [sh led ee bt pb rx vc pv tr]. cbn in *.
    rewrite twi_writes_app, map_app. f_equal. cbn [twi_writes map].
    rewrite !twi_reg3_shadow.
    simpl_lookups.
    rewrite join_split_be by exact Hch. reflexivity.
  - unfold result, get_shadow_reg.
    destruct w as [sh led ee bt pb rx vc pv tr]. cbn in *.
    change (Z.to_nat (18 + 1)) with 19%nat. change (Z.to_nat 18) with 18%nat.
    simpl_lookups.
    rewrite join_split_be by exact Hch. apply u16_small. exact Hch.
  - destruct w; reflexivity.
  - destruct w as [sh led ee bt pb rx vc pv tr]. cbn.
    rewrite eeprom_writes_app. cbn. apply app_nil_r.
Qed.

Lemma currentChan_range (w : world) :
  0 <= result currentChanFromShadow w < 65536.
Proof.
  unfold result, currentChanFromShadow, get_shadow_reg. cbn [fst].
  unfold u16. apply Z.mod_pos_bound. lia.
Qed.

Lemma handleButtonDown_released (w : world) (n : nat) (rest : list bool) :
  (n < Z.to_nat LONG_PRESS_MS)%nat ->
  button w = replicate n true ++ false :: rest ->
  let chan := result currentChanFromShadow w in
  let next := if (1080 - 760) <? u16 (chan + 1) then 0 else u16 (chan + 1) in
  let w' := exec handleButtonDown w in
  trace w' =
    trace (exec (tune_direct next)
             (set_trace (trace w ++ [EvOut TCCR1 0; EvOut GTCCR 0;
                                     EvDelayMs BUTTON_DEBOUNCE_MS]
                                 ++ replicate n (EvDelayMs 1)) w))
    ++ [EvDelayMs BUTTON_DEBOUNCE_MS] /\
  shadow w' = shadow (exec (tune_direct next) w) /\
  eeprom w' = eeprom w /\
  button w' = release_loop rest.
Proof.
  intros Hn Hb chan next w'. subst w'.
  unfold handleButtonDown. rewrite !exec_bind.
  set (w1 := exec currentChanFromShadow
               (exec (_delay_ms BUTTON_DEBOUNCE_MS) (exec (setLEDBrightness 0) w))).
  assert (Hb1 : button w1 = replicate n true ++ false :: rest) by exact Hb.
  rewrite (result_timing_released _ n rest w1 Hn Hb1),
          (exec_timing_released _ n rest w1 Hn Hb1).
  replace (negb (Z.to_nat LONG_PRESS_MS - n =? 0)%nat) with true
    by (symmetry; apply negb_true_iff, Nat.eqb_neq; lia).
  change (result currentChanFromShadow
            (exec (_delay_ms BUTTON_DEBOUNCE_MS) (exec (setLEDBrightness 0) w)))
    with chan.
  cbn zeta. fold next. clearbody next. clear chan.
  rewrite !exec_tune_direct.
  subst w1. rewrite !exec_setLEDBrightness_off. clear Hb1.
  generalize (replicate n (EvDelayMs 1)). intros delays.
  destruct w as [sh led ee bt pb rx vc pv tr].
  cbn. rewrite <- !app_assoc. cbn. auto.
Qed.

Lemma eeprom_of_update_channel (channel : Z) (w : world) :
  (16 <= length (eeprom w))%nat ->
  eeprom (exec (update_channel channel) w) =
  block_with_crc (block_with_channel channel (eeprom w)).
Proof.
  intros Hlen. rewrite exec_update_channel by exact Hlen.
  destruct w; reflexivity.
Qed.

Lemma eeprom_writes_long_press (chan : Z) (e : list Z) :
  eeprom_writes (long_press_events chan e) = update_channel_writes chan e.
Proof.
  unfold long_press_events, update_channel_writes. cbn zeta.
  rewrite !eeprom_writes_app, eeprom_writes_delays. reflexivity.
Qed.

Lemma twi_writes_long_press (chan : Z) (e : list Z) :
  twi_writes (long_press_events chan e) = [].
Proof.
  unfold long_press_events. cbn zeta.
  rewrite !twi_writes_app, twi_writes_delays. reflexivity.
Qed.

Lemma first_write_phase_delays (ph : flash_phase) (n : nat) (ms : Z) (t : list event) :
  first_write_phase ph (replicate n (EvDelayMs ms) ++ t) = first_write_phase ph t.
Proof. induction n as [|n IH]; [reflexivity|exact IH]. Qed.

Lemma currentChan_shadow (w1 w2 : world) :
  shadow w1 = shadow w2 ->
  result currentChanFromShadow w1 = result currentChanFromShadow w2.
Proof.
  intros H. unfold result, currentChanFromShadow, get_shadow_reg. cbn [fst].
  rewrite H. reflexivity.
Qed.

(** C6.  When the button is held for all 2000 one-millisecond ticks of
    the countdown and is released in the very tick in which the countdown
    reaches zero (the next reading of the pin is "released"), the press is
    classified long: the entry channel is saved exactly as [update_channel]
    saves it, no bus transfer is made and the shadow bank is unchanged.
    The "released" reading is consumed only by the wait for release after
    the action, not by the timing loop. *)
Theorem long_press_tie_break (w : world) (rest : list bool) :
  (16 <= length (eeprom w))%nat ->
  button w = replicate (Z.to_nat LONG_PRESS_MS) true ++ false :: rest ->
  let chan := result currentChanFromShadow w in
  let w' := exec handleButtonDown w in
  eeprom w' = eeprom (exec (update_channel chan) w) /\
  eeprom_writes (trace w') =
    eeprom_writes (trace w) ++ update_channel_writes chan (eeprom w) /\
  twi_writes (trace w') = twi_writes (trace w) /\
  shadow w' = shadow w /\
  button w' = rest.
Proof.
  intros Hlen Hb chan w'.
  destruct (handleButtonDown_held w (false :: rest) Hlen Hb) as (Ht & He & Hs & Hbt).
  fold chan in Ht, He. fold w' in Ht, He, Hs, Hbt.
  split; [|split; [|split; [|split]]].
  - rewrite He. symmetry. apply eeprom_of_update_channel. exact Hlen.
  - rewrite Ht, eeprom_writes_app, eeprom_writes_long_press. reflexivity.
  - rewrite Ht, twi_writes_app, twi_writes_long_press. apply app_nil_r.
  - exact Hs.
  - exact Hbt.
Qed.

Lemma long_press_tie_break_witness :
  let w := tuned_world 50 erased_eeprom long_press_released_on_timeout in
  (16 <= length (eeprom w))%nat /\
  button w = replicate (Z.to_nat LONG_PRESS_MS) true ++ false :: [] /\
  twi_writes (trace (exec handleButtonDown w)) = twi_writes (trace w).
Proof.
  intros w. split; [vm_compute; lia|]. split; [reflexivity|].
  apply (long_press_tie_break w []); [vm_compute; lia | reflexivity].
Defined.

(** C7 (amended).  A long press (button held for the whole countdown)
    persists exactly the channel read from the shadow bank at entry: the
    indicator is first switched to full brightness, then the four EEPROM
    cells are written as [update_channel] writes them, and only then
    follow the 500 ms hold and the switching off of the indicator; so
    the write falls inside the flash, not after it.  The channel cells read
    back as the entry channel and the shadow bank, hence its channel, is
    unchanged. *)
Theorem long_press_saves_entry_channel (w : world) (rest : list bool) :
  (16 <= length (eeprom w))%nat ->
  button w = replicate (Z.to_nat LONG_PRESS_MS) true ++ rest ->
  let chan := result currentChanFromShadow w in
  let w' := exec handleButtonDown w in
  trace w' = trace w ++ long_press_events chan (eeprom w) /\
  first_write_phase BeforeFlash (long_press_events chan (eeprom w)) = Some FlashLit /\
  eeprom w' = eeprom (exec (update_channel chan) w) /\
  result (eeprom_read_word EEPROM_CHANNEL) w' = chan /\
  shadow w' = shadow w /\
  result currentChanFromShadow w' = chan.
Proof.
  intros Hlen Hb chan w'.
  destruct (handleButtonDown_held w rest Hlen Hb) as (Ht & He & Hs & Hbt).
  fold chan in Ht, He. fold w' in Ht, He, Hs, Hbt.
  assert (Hch : 0 <= chan < 65536) by apply currentChan_range.
  pose proof (update_channel_block_valid chan w Hlen Hch) as (_ & _ & Hread & _).
  assert (He' : eeprom w' = eeprom (exec (update_channel chan) w)).
  { rewrite He. symmetry. apply eeprom_of_update_channel. exact Hlen. }
  split; [exact Ht|]. split.
  { unfold long_press_events. cbn zeta. cbn [app first_write_phase].
    rewrite first_write_phase_delays. reflexivity. }
  split; [exact He'|]. split.
  { unfold result, eeprom_read_word, bind, eeprom_read_byte, ret in *.
    cbn [fst] in *. rewrite He'. exact Hread. }
  split; [exact Hs|].
  apply currentChan_shadow. exact Hs.
Qed.

Lemma long_press_saves_entry_channel_witness :
  let w := tuned_world 50 erased_eeprom long_press_released_on_timeout in
  (16 <= length (eeprom w))%nat /\
  button w = replicate (Z.to_nat LONG_PRESS_MS) true ++ [false] /\
  result (eeprom_read_word EEPROM_CHANNEL) (exec handleButtonDown w) =
    result currentChanFromShadow w.
Proof.
  intros w. split; [vm_compute; lia|]. split; [reflexivity|].
  apply (long_press_saves_entry_channel w [false]); [vm_compute; lia | reflexivity].
Defined.

(** C7, as stated, fails: on a long press from channel 50 the first EEPROM
    write does not come after the flash is over. *)
Lemma long_press_write_not_after_flash :
  first_write_phase BeforeFlash
    (trace (exec handleButtonDown
              (tuned_world 50 erased_eeprom long_press_released_on_timeout)))
  <> Some FlashOver.
Proof. vm_compute. discriminate. Qed.

(** C3 (amended).  For every starting channel in 0..320 a short press
    leaves a channel in 0..320 in the shadow bank: the starting channel
    plus one, except that the top of the band, 320, wraps to 0. *)
Theorem short_press_next_channel (w : world) (n : nat) (rest : list bool) :
  length (shadow w) = 32%nat ->
  (n < Z.to_nat LONG_PRESS_MS)%nat ->
  button w = replicate n true ++ false :: rest ->
  0 <= result currentChanFromShadow w <= 320 ->
  let chan := result currentChanFromShadow w in
  let chan' := result currentChanFromShadow (exec handleButtonDown w) in
  chan' = (if chan =? 320 then 0 else chan + 1) /\ 0 <= chan' <= 320.
Proof.
  intros Hlen Hn Hb Hr chan chan'.
  destruct (handleButtonDown_released w n rest Hn Hb) as (_ & Hs & _ & _).
  fold chan in Hs, Hr.
  set (next := if 1080 - 760 <? u16 (chan + 1) then 0 else u16 (chan + 1)) in Hs.
  assert (Hnext : next = if chan =? 320 then 0 else chan + 1).
  { subst next. rewrite (u16_small (chan + 1)) by lia.
    change (1080 - 760) with 320.
    destruct (Z.eqb_spec chan 320) as [->|Hne]; [reflexivity|].
    destruct (Z.ltb_spec 320 (chan + 1)); [lia|reflexivity]. }
  assert (Hrange : 0 <= next <= 320).
  { rewrite Hnext. destruct (Z.eqb_spec chan 320); lia. }
  assert (E : chan' = next).
  { subst chan'. rewrite (currentChan_shadow _ _ Hs).
    apply (tune_direct_bus next w Hlen). lia. }
  rewrite E. split; [exact Hnext|exact Hrange].
Qed.

Lemma short_press_next_channel_witness :
  let w := tuned_world 320 erased_eeprom short_press in
  length (shadow w) = 32%nat /\
  (10 < Z.to_nat LONG_PRESS_MS)%nat /\
  button w = replicate 10 true ++ false :: [] /\
  0 <= result currentChanFromShadow w <= 320 /\
  result currentChanFromShadow (exec handleButtonDown w) =
    (if result currentChanFromShadow w =? 320 then 0
     else result currentChanFromShadow w + 1).
Proof.
  intros w.
  assert (H1 : length (shadow w) = 32%nat) by reflexivity.
  assert (H2 : (10 < Z.to_nat LONG_PRESS_MS)%nat) by (vm_compute; lia).
  assert (H3 : button w = replicate 10 true ++ false :: []) by reflexivity.
  assert (H4 : 0 <= result currentChanFromShadow w <= 320) by (vm_compute; split; discriminate).
  split; [exact H1|]. split; [exact H2|]. split; [exact H3|]. split; [exact H4|].
  apply (short_press_next_channel w 10 [] H1 H2 H3 H4).
Defined.

(** C3, as stated, fails: from channel 319, which is in 0..319, a short
    press leads to channel 320, which is not. *)
Lemma short_press_from_319_leaves_range :
  let w := tuned_world 319 erased_eeprom short_press in
  result currentChanFromShadow w = 319 /\
  result currentChanFromShadow (exec handleButtonDown w) = 320 /\
  ~ (0 <= result currentChanFromShadow (exec handleButtonDown w) <= 319).
Proof.
  intros w. split; [reflexivity|]. split; [vm_compute; reflexivity|].
  replace (result currentChanFromShadow (exec handleButtonDown w)) with 320
    by (vm_compute; reflexivity).
  lia.
Qed.

(** C2: what the code does.  A short press from channel 50: the first
    transfer carries 0x81FF in register 0x3 (tune-enable with channel
    field 0x1FF), not 0x8000 | 51; the second carries 51 with the
    tune-enable bit clear; no EEPROM cell is written. *)
Theorem short_press_tune_word :
  let w := tuned_world 50 erased_eeprom short_press in
  let w' := exec handleButtonDown w in
  map twi_reg3 (twi_writes (trace w')) = [0x81ff; 51] /\
  0x81ff <> Z.lor 0x8000 51 /\
  eeprom_writes (trace w') = [] /\
  eeprom w' = eeprom w.
Proof.
  intros w w'. split; [vm_compute; reflexivity|].
  split; [vm_compute; discriminate|].
  split; vm_compute; reflexivity.
Qed.



Lemma lor_range16 a b :
  0 <= a < 65536 -> 0 <= b < 65536 -> 0 <= Z.lor a b < 65536.
Proof.
  intros Ha Hb.
  assert (H0 : 0 <= Z.lor a b) by (apply Z.lor_nonneg; lia).
  split; [exact H0|].
  destruct (Z.eq_dec (Z.lor a b) 0) as [->|Hne]; [lia|].
  change 65536 with (2 ^ 16). apply Z.log2_lt_pow2; [lia|].
  rewrite Z.log2_lor by lia.
  apply Z.max_lub_lt.
  - destruct (Z.eq_dec a 0) as [->|Hn0]; [reflexivity|]. apply Z.log2_lt_pow2; lia.
  - destruct (Z.eq_dec b 0) as [->|Hn0]; [reflexivity|]. apply Z.log2_lt_pow2; lia.
Qed.

Lemma shiftl8_range d : 0 <= d < 256 -> 0 <= Z.shiftl d 8 < 65536.
Proof. intros H. rewrite Z.shiftl_mul_pow2 by lia. change (2 ^ 8) with 256. lia. Qed.

Lemma be16_range hi lo : 0 <= hi < 256 -> 0 <= lo < 256 -> 0 <= be16 hi lo < 65536.
Proof.
  intros Hh Hl. unfold be16. apply lor_range16; [apply shiftl8_range; exact Hh | lia].
Qed.

Lemma u16_be16 hi lo :
  0 <= hi < 256 -> 0 <= lo < 256 ->
  u16 (Z.lor (u16 (Z.shiftl hi 8)) lo) = be16 hi lo.
Proof.
  intros Hh Hl.
  rewrite (u16_small (Z.shiftl hi 8)) by (apply shiftl8_range; exact Hh).
  apply u16_small. apply be16_range; assumption.
Qed.

Lemma bind_run {A B} (m : M A) (k : A -> M B) (w w1 : world) (a : A) :
  m w = (a, w1) -> bind m k w = k a w1.
Proof. intros H. unfold bind. rewrite H. reflexivity. Qed.

Lemma readPbyte_cons (w : world) (d : Z) (rest : list Z) :
  pbytes w = d :: rest -> readPbyte w = (d, set_pbytes rest w).
Proof. intros H. unfold readPbyte. rewrite H. reflexivity. Qed.

Lemma set_pbytes_twice (l1 l2 : list Z) (w : world) :
  set_pbytes l2 (set_pbytes l1 w) = set_pbytes l2 w.
Proof. destruct w; reflexivity. Qed.

(** One successful or failing read at the head of the pending input. *)
Ltac read_pbyte :=
  match goal with
  | |- context [bind readPbyte ?k ?w0] =>
      rewrite (bind_run readPbyte k w0 _ _ (readPbyte_cons w0 _ _ eq_refl));
      cbv beta
  end.

Ltac byte_ok H :=
  rewrite (proj2 (Z.ltb_ge _ 0) H); cbv iota zeta.

(** C10.  If one of the four serial reads fails (the first negative
    result comes after at most three successful reads), the function
    returns that negative value at once: nothing but the input consumed so
    far changes; the EEPROM, and so the working block and its CRC, and the
    trace are as before, so [update_channel] was not called. *)
Theorem programming_packet_read_error
        (w : world) (pre : list Z) (d : Z) (rest : list Z) :
  (length pre < 4)%nat ->
  Forall (fun b => 0 <= b) pre ->
  d < 0 ->
  pbytes w = pre ++ d :: rest ->
  readProgrammingPacket w = (d, set_pbytes rest w) /\
  eeprom (exec readProgrammingPacket w) = eeprom w /\
  trace (exec readProgrammingPacket w) = trace w.
Proof.
  intros Hlen Hpre Hd Hp.
  assert (Hneg : (d <? 0) = true) by (apply Z.ltb_lt; exact Hd).
  assert (E : readProgrammingPacket w = (d, set_pbytes rest w)).
  { unfold readProgrammingPacket.
    destruct pre as [|b1 pre]; cbn [app] in Hp;
      rewrite (bind_run _ _ _ _ _ (readPbyte_cons w _ _ Hp)); cbv beta.
    { rewrite Hneg. reflexivity. }
    apply Forall_cons in Hpre as [Hb1 Hpre]. byte_ok Hb1.
    destruct pre as [|b2 pre]; cbn [app]; read_pbyte.
    { rewrite Hneg, set_pbytes_twice. reflexivity. }
    apply Forall_cons in Hpre as [Hb2 Hpre]. byte_ok Hb2.
    destruct pre as [|b3 pre]; cbn [app]; read_pbyte.
    { rewrite Hneg, !set_pbytes_twice. reflexivity. }
    apply Forall_cons in Hpre as [Hb3 Hpre]. byte_ok Hb3.
    destruct pre as [|b4 pre]; [|cbn in Hlen; lia].
    cbn [app]; read_pbyte.
    rewrite Hneg, !set_pbytes_twice. reflexivity. }
  split; [exact E|]. unfold exec. rewrite E. destruct w; split; reflexivity.
Qed.

Lemma exec_debugBlink_1 (w : world) :
  exec (debugBlink 1) w =
  set_trace (trace w ++ [EvSBI PORTB LED_DRIVE_BIT; EvDelayMs 10;
                         EvCBI PORTB LED_DRIVE_BIT; EvDelayMs 200;
                         EvDelayMs 1000]) w.
Proof.
  unfold debugBlink. change (Z.to_nat (u8 1)) with 1%nat.
  destruct w; cbn. rewrite <- !app_assoc. reflexivity.
Qed.

Lemma exec_debugBlink_2 (w : world) :
  exec (debugBlink 2) w =
  set_trace (trace w ++ [EvSBI PORTB LED_DRIVE_BIT; EvDelayMs 10;
                         EvCBI PORTB LED_DRIVE_BIT; EvDelayMs 200;
                         EvSBI PORTB LED_DRIVE_BIT; EvDelayMs 10;
                         EvCBI PORTB LED_DRIVE_BIT; EvDelayMs 200;
                         EvDelayMs 1000]) w.
Proof.
  unfold debugBlink. change (Z.to_nat (u8 2)) with 2%nat.
  destruct w; cbn. rewrite <- !app_assoc. reflexivity.
Qed.

Lemma crc16_pair (d1 d2 : Z) :
  _crc16_update (_crc16_update 0 d1) d2 = crc16 [d1; d2].
Proof. unfold crc16. cbn [fold_left]. reflexivity. Qed.

(** C5.  A four-byte packet (channel high, channel low, CRC high, CRC
    low) whose received CRC differs from the CRC-16 computed over the two
    channel bytes is rejected with result -1 and leaves every EEPROM cell
    as it was, with no EEPROM write in the trace; a packet whose CRC
    matches gives result 0 and the EEPROM state and EEPROM writes of
    exactly one [update_channel] call with the received channel. *)
Theorem programming_packet_crc_gate
        (w : world) (d1 d2 d3 d4 : Z) (rest : list Z) :
  (16 <= length (eeprom w))%nat ->
  0 <= d1 < 256 -> 0 <= d2 < 256 -> 0 <= d3 < 256 -> 0 <= d4 < 256 ->
  pbytes w = d1 :: d2 :: d3 :: d4 :: rest ->
  let channel := be16 d1 d2 in
  let w' := exec readProgrammingPacket w in
  (be16 d3 d4 <> crc16 [d1; d2] ->
     result readProgrammingPacket w = -1 /\
     eeprom w' = eeprom w /\
     eeprom_writes (trace w') = eeprom_writes (trace w)) /\
  (be16 d3 d4 = crc16 [d1; d2] ->
     result readProgrammingPacket w = 0 /\
     eeprom w' = eeprom (exec (update_channel channel) w) /\
     eeprom w' = block_with_crc (block_with_channel channel (eeprom w)) /\
     eeprom_writes (trace w') =
       eeprom_writes (trace w) ++
       eeprom_writes (trace (exec (update_channel channel) (set_trace [] w)))).
Proof.
  intros Hlen H1 H2 H3 H4 Hp channel w'.
  assert (E : readProgrammingPacket w =
              (if negb (crc16 [d1; d2] =? be16 d3 d4)
               then bind (debugBlink 1) (fun _ => ret (-1))
               else bind (_delay_ms 50)
                      (fun _ => bind (update_channel channel)
                         (fun _ => bind (debugBlink 2) (fun _ => ret 0))))
                (set_pbytes rest w)).
  { unfold readProgrammingPacket.
    rewrite (bind_run _ _ _ _ _ (readPbyte_cons w _ _ Hp)). cbv beta.
    byte_ok (proj1 H1). read_pbyte. byte_ok (proj1 H2).
    read_pbyte. byte_ok (proj1 H3). read_pbyte. byte_ok (proj1 H4).
    rewrite !set_pbytes_twice.
    rewrite !u16_be16 by assumption. rewrite crc16_pair. reflexivity. }
  assert (Er : forall (k : M Z), readProgrammingPacket w = k (set_pbytes rest w) ->
               result readProgrammingPacket w = result k (set_pbytes rest w) /\
               exec readProgrammingPacket w = exec k (set_pbytes rest w)).
  { intros k Hk. unfold result, exec. rewrite Hk. split; reflexivity. }
  subst w'. split; intros Hcrc.
  - replace (crc16 [d1; d2] =? be16 d3 d4) with false in E
      by (symmetry; apply Z.eqb_neq; congruence).
    cbn [negb] in E. destruct (Er _ E) as [-> ->]. clear E Er.
    rewrite exec_bind, result_bind, exec_debugBlink_1.
    destruct w as [sh led ee bt pb rx vc pv tr]. cbn.
    rewrite eeprom_writes_app. cbn. rewrite app_nil_r. auto.
  - replace (crc16 [d1; d2] =? be16 d3 d4) with true in E
      by (symmetry; apply Z.eqb_eq; congruence).
    cbn [negb] in E. destruct (Er _ E) as [-> ->]. clear E Er.
    rewrite !exec_bind, !result_bind, exec_debugBlink_2.
    rewrite (exec_update_channel channel (exec (_delay_ms 50) (set_pbytes rest w)))
      by exact Hlen.
    rewrite (exec_update_channel channel w) by exact Hlen.
    rewrite (exec_update_channel channel (set_trace [] w)) by exact Hlen.
    clearbody channel.
    destruct w as [sh led ee bt pb rx vc pv tr]. cbn.
    rewrite !eeprom_writes_app. cbn. rewrite !app_nil_r. auto.
Qed.

Lemma programming_packet_read_error_witness :
  let w := set_pbytes [0; 100; -2; 7] (sample_world erased_eeprom []) in
  (length [0; 100] < 4)%nat /\
  Forall (fun b => 0 <= b) [0; 100] /\
  -2 < 0 /\
  pbytes w = [0; 100] ++ -2 :: [7] /\
  readProgrammingPacket w = (-2, set_pbytes [7] w).
Proof.
  intros w.
  assert (H1 : (length [0; 100] < 4)%nat) by (cbn; lia).
  assert (H2 : Forall (fun b => 0 <= b) [0; 100])
    by (repeat constructor; lia).
  assert (H3 : -2 < 0) by lia.
  assert (H4 : pbytes w = [0; 100] ++ -2 :: [7]) by reflexivity.
  split; [exact H1|]. split; [exact H2|]. split; [exact H3|]. split; [exact H4|].
  apply (programming_packet_read_error w [0; 100] (-2) [7] H1 H2 H3 H4).
Defined.

Lemma programming_packet_crc_gate_witness :
  let w := set_pbytes [0; 100; 0xeb; 0x01] (sample_world erased_eeprom []) in
  (16 <= length (eeprom w))%nat /\
  (0 <= 0 < 256 /\ 0 <= 100 < 256 /\ 0 <= 0xeb < 256 /\ 0 <= 0x01 < 256) /\
  pbytes w = [0; 100; 0xeb; 0x01] /\
  be16 0xeb 0x01 = crc16 [0; 100] /\
  result readProgrammingPacket w = 0.
Proof.
  intros w.
  assert (H0 : (16 <= length (eeprom w))%nat) by (vm_compute; lia).
  assert (Hp : pbytes w = [0; 100; 0xeb; 0x01]) by reflexivity.
  assert (Hc : be16 0xeb 0x01 = crc16 [0; 100]) by (vm_compute; reflexivity).
  split; [exact H0|]. split; [lia|]. split; [exact Hp|]. split; [exact Hc|].
  apply (programming_packet_crc_gate w 0 100 0xeb 0x01 []
           H0 ltac:(lia) ltac:(lia) ltac:(lia) ltac:(lia) Hp).
  exact Hc.
Defined.

(** ** Receiver bring-up and boot *)

(** C9: what the code does.  The value that the init sequence leaves in
    shadow register 0x2 and transmits in its last transfer is 0x400F: bit
    14 (mute disable), bit 1 (enable) and bits 3, 2, 0 (the bit number 13
    itself, or-ed in without [_BV]); bit 13 (mono) is clear.  It is not the
    value with exactly bits 14, 13 and 1 set. *)
Theorem si4702_init_unmute_word :
  let w' := exec si4702_init (sample_world erased_eeprom []) in
  result (get_shadow_reg REGISTER_02) w' = 0x400f /\
  (exists earlier data,
      twi_writes (trace w') = earlier ++ [data] /\ twi_reg2 data = 0x400f) /\
  Z.testbit 0x400f REG_02_MONO_BIT = false /\
  0x400f <> Z.lor (Z.lor (_BV REG_02_DMUTE_BIT) (_BV REG_02_MONO_BIT))
                  (_BV REG_02_ENABLE_BIT).
Proof.
  intros w'. split; [vm_compute; reflexivity|]. split.
  - exists [[0; 0; 0; 0; 0; 0; 0; 0; 0; 0; 129; 0]; [0; 2];
            [0; 2; 0; 0; 8; 0; 0; 255]; [0; 2; 255; 255]],
           [64; 15; 255; 255].
    split; vm_compute; reflexivity.
  - split; [reflexivity|]. vm_compute. discriminate.
Qed.

(** C1: what the code does.  Booting in normal mode (battery good, no
    programmer, button up) with an erased EEPROM, whose working block
    fails the CRC check: the boot runs on to the receiver init, makes its
    five bus transfers, never blinks the indicator pin and never sleeps. *)
Theorem boot_with_bad_crc_starts_receiver :
  let w := sample_world erased_eeprom [] in
  result (check_param_crc EEPROM_WORKING) w <> 0 /\
  result main w = RadioOn /\
  length (twi_writes (trace (exec main w))) = 5%nat /\
  List.filter is_sleep (trace (exec main w)) = [] /\
  List.filter (fun e => match e with
                   | EvSBI PORTB bit => bit =? LED_DRIVE_BIT
                   | _ => false
                   end) (trace (exec main w)) = [].
Proof.
  intros w. split; [vm_compute; discriminate|].
  split; [vm_compute; reflexivity|].
  split; [vm_compute; reflexivity|].
  split; vm_compute; reflexivity.
Qed.

(** * Further properties of the code *)

(** ** Factory restore *)

(** The defining equation of [_crc16_update], for rewriting. *)
Lemma crc16_update_eq (crc a : Z) :
  _crc16_update crc a = Nat.iter 8 crc16_step (Z.lxor crc (u8 a)).
Proof. reflexivity. Qed.

Lemma crc16_update_u8 (crc a : Z) : _crc16_update crc (u8 a) = _crc16_update crc a.
Proof.
  rewrite !crc16_update_eq. f_equal. f_equal. unfold u8.
  apply Z.mod_mod. lia.
Qed.

Lemma crc_loop_exec (n src : nat) (crc : Z) (w : world) :
  exec (crc_loop n src crc) w = w.
Proof.
  revert src crc. induction n as [|n IH]; intros src crc; [reflexivity|].
  cbn [crc_loop]. rewrite exec_bind. apply IH.
Qed.

(** The running CRC depends on the cells read only through their low
    eight bits. *)
Lemma crc_loop_pointwise (n a b : nat) (crc : Z) (w1 w2 : world) :
  (forall i, (i < n)%nat ->
             u8 (eeprom w1 !!! (a + i)%nat) = u8 (eeprom w2 !!! (b + i)%nat)) ->
  result (crc_loop n a crc) w1 = result (crc_loop n b crc) w2.
Proof.
  revert a b crc. induction n as [|n IH]; intros a b crc H; [reflexivity|].
  cbn [crc_loop]. rewrite !result_bind.
  change (exec (eeprom_read_byte a) w1) with w1.
  change (exec (eeprom_read_byte b) w2) with w2.
  change (result (eeprom_read_byte a) w1) with (eeprom w1 !!! a).
  change (result (eeprom_read_byte b) w2) with (eeprom w2 !!! b).
  rewrite <- (crc16_update_u8 crc (eeprom w1 !!! a)).
  rewrite <- (crc16_update_u8 crc (eeprom w2 !!! b)).
  pose proof (H O ltac:(lia)) as H0. rewrite !Nat.add_0_r in H0. rewrite H0.
  apply IH. intros i Hi.
  specialize (H (S i) ltac:(lia)).
  replace (S a + i)%nat with (a + S i)%nat by lia.
  replace (S b + i)%nat with (b + S i)%nat by lia. exact H.
Qed.

Lemma copy_loop_spec (n src dest : nat) (w : world) :
  (dest + n <= src)%nat ->
  copy_factory_param_loop n src dest w =
  (tt, set_trace
         (trace w ++ map (fun i => EvEepromWrite (dest + i)
                                     (u8 (eeprom w !!! (src + i)%nat))) (seq 0 n))
         (set_eeprom (list_inserts dest
                        (map (fun i => u8 (eeprom w !!! (src + i)%nat)) (seq 0 n))
                        (eeprom w)) w)).
Proof.
  revert src dest w. induction n as [|n IH]; intros src dest w Hsep.
  - cbn. rewrite app_nil_r. destruct w; reflexivity.
  - cbn [copy_factory_param_loop]. unfold bind at 1. unfold eeprom_read_byte.
    unfold bind at 1. unfold eeprom_write_byte.
    rewrite IH by lia.
    destruct w as [sh led ee bt pb rx vc pv tr].
    unfold set_trace, set_eeprom. cbn [shadow currentLEDBrightness eeprom button
      pbytes twi_rx vcc_above_low prog_voltage trace].
    cbn [seq map list_inserts]. rewrite <- (seq_shift n 0), !map_map.
    rewrite !Nat.add_0_r.
    rewrite <- app_assoc. cbn [app].
    assert (Hm : forall i, (i < n)%nat ->
                 u8 (<[dest:=u8 (ee !!! src)]> ee !!! (S src + i)%nat) =
                 u8 (ee !!! (src + S i)%nat)).
    { intros i _. rewrite list_lookup_total_insert_ne by lia.
      f_equal. f_equal. lia. }
    assert (Hmap : map (fun i => u8 (<[dest:=u8 (ee !!! src)]> ee !!! (S src + i)%nat)) (seq 0 n)
                   = map (fun i => u8 (ee !!! (src + S i)%nat)) (seq 0 n)).
    { apply map_ext_in. intros i Hi. apply in_seq in Hi. apply Hm. lia. }
    assert (Hev : map (fun i => EvEepromWrite (S dest + i)
                       (u8 (<[dest:=u8 (ee !!! src)]> ee !!! (S src + i)%nat))) (seq 0 n)
                  = map (fun i => EvEepromWrite (dest + S i)
                       (u8 (ee !!! (src + S i)%nat))) (seq 0 n)).
    { apply map_ext_in. intros i Hi. apply in_seq in Hi.
      rewrite Hm by lia. f_equal. lia. }
    rewrite Hmap, Hev.
    rewrite list_insert_inserts_lt by lia. reflexivity.
Qed.

Lemma events_of_app {A} (m : M A) (w : world) (ev : list event) :
  trace (exec m w) = trace w ++ ev -> events_of m w = ev.
Proof. intros H. unfold events_of. rewrite H. apply drop_app_length. Qed.

Lemma eeprom_writes_map_writes (f : nat -> nat) (g : nat -> Z) (l : list nat) :
  eeprom_writes (map (fun i => EvEepromWrite (f i) (g i)) l) =
  map (fun i => (f i, g i)) l.
Proof. induction l as [|x l IH]; [reflexivity|]. cbn. rewrite IH. reflexivity. Qed.

(** Projections of updated states. *)
Lemma eeprom_set_trace t w : eeprom (set_trace t w) = eeprom w.
Proof. reflexivity. Qed.
Lemma eeprom_set_eeprom e w : eeprom (set_eeprom e w) = e.
Proof. reflexivity. Qed.
Lemma trace_set_trace t w : trace (set_trace t w) = t.
Proof. reflexivity. Qed.
Lemma shadow_set_trace t w : shadow (set_trace t w) = shadow w.
Proof. reflexivity. Qed.
Lemma shadow_set_eeprom e w : shadow (set_eeprom e w) = shadow w.
Proof. reflexivity. Qed.

Lemma exec_copy_factory_param (w : world) :
  exec copy_factory_param w =
  set_trace
    (trace w ++ map (fun i => EvEepromWrite (0 + i)
                                (u8 (eeprom w !!! (16 + i)%nat))) (seq 0 16))
    (set_eeprom (list_inserts 0
                   (map (fun i => u8 (eeprom w !!! (16 + i)%nat)) (seq 0 16))
                   (eeprom w)) w).
Proof.
  unfold exec, copy_factory_param.
  rewrite (copy_loop_spec EEPROM_PARAM_BLOCK_SIZE EEPROM_FACTORY EEPROM_WORKING w)
    by (unfold EEPROM_PARAM_BLOCK_SIZE, EEPROM_FACTORY, EEPROM_WORKING; lia).
  reflexivity.
Qed.

Lemma copy_factory_param_cells (w : world) (i : nat) :
  (32 <= length (eeprom w))%nat -> (i < 16)%nat ->
  eeprom (exec copy_factory_param w) !!! i = u8 (eeprom w !!! (16 + i)%nat).
Proof.
  intros Hlen Hi. rewrite exec_copy_factory_param, eeprom_set_trace, eeprom_set_eeprom.
  rewrite list_lookup_total_inserts
    by (rewrite ?length_map, ?length_seq; cbn [length]; lia).
  rewrite Nat.sub_0_r.
  apply list_lookup_total_correct.
  rewrite list_lookup_fmap, lookup_seq_lt by lia. reflexivity.
Qed.

(** X1.  Factory restore.  With both parameter blocks present,
    [copy_factory_param] programs the sixteen cells of the working block,
    in ascending order, with the (byte) contents of the factory block;
    every cell from address 16 on, the factory block included, keeps its
    value; the shadow bank is untouched; and the CRC check of the working
    block afterwards gives what the check of the factory block gave
    before: the restored block is valid exactly when the factory block
    is. *)
Theorem copy_factory_param_restores (w : world) :
  (32 <= length (eeprom w))%nat ->
  let w' := exec copy_factory_param w in
  (forall i, (i < 16)%nat -> eeprom w' !!! i = u8 (eeprom w !!! (16 + i)%nat)) /\
  (forall i, (16 <= i)%nat -> eeprom w' !!! i = eeprom w !!! i) /\
  length (eeprom w') = length (eeprom w) /\
  eeprom_writes (events_of copy_factory_param w) =
    map (fun i => (i, u8 (eeprom w !!! (16 + i)%nat))) (seq 0 16) /\
  result (check_param_crc EEPROM_WORKING) w' =
    result (check_param_crc EEPROM_FACTORY) w /\
  shadow w' = shadow w.
Proof.
  intros Hlen. cbv zeta.
  split; [intros i Hi; apply copy_factory_param_cells; assumption|].
  split.
  { intros i Hi. rewrite exec_copy_factory_param, eeprom_set_trace, eeprom_set_eeprom.
    apply list_lookup_total_inserts_ge. rewrite length_map, length_seq. lia. }
  split.
  { rewrite exec_copy_factory_param, eeprom_set_trace, eeprom_set_eeprom.
    apply length_inserts. }
  split.
  { rewrite (events_of_app copy_factory_param w
               (map (fun i => EvEepromWrite (0 + i) (u8 (eeprom w !!! (16 + i)%nat)))
                    (seq 0 16))).
    - apply (eeprom_writes_map_writes (fun i => (0 + i)%nat)).
    - rewrite exec_copy_factory_param, trace_set_trace. reflexivity. }
  split.
  { unfold check_param_crc. apply crc_loop_pointwise.
    intros i Hi. change (EEPROM_WORKING + i)%nat with i.
    change (EEPROM_FACTORY + i)%nat with (16 + i)%nat.
    rewrite (copy_factory_param_cells w i Hlen Hi).
    unfold u8. rewrite Z.mod_mod by lia. reflexivity. }
  rewrite exec_copy_factory_param, shadow_set_trace, shadow_set_eeprom. reflexivity.
Qed.

Lemma copy_factory_param_restores_witness :
  let w := sample_world (replicate 16 0 ++ replicate 16 7) [] in
  (32 <= length (eeprom w))%nat /\
  length (eeprom (exec copy_factory_param w)) = length (eeprom w).
Proof.
  intros w. split; [vm_compute; lia|].
  apply (copy_factory_param_restores w). vm_compute. lia.
Defined.

(** ** Validity check *)

Lemma testbit_above16 (c n : Z) : 0 <= c < 65536 -> 16 <= n -> Z.testbit c n = false.
Proof.
  intros Hc Hn. destruct (Z.eq_dec c 0) as [->|Hne]; [apply Z.bits_0|].
  apply Z.bits_above_log2; [lia|].
  assert (Z.log2 c < 16) by (apply Z.log2_lt_pow2; lia). lia.
Qed.

Lemma crc16_step_top_bit (c : Z) :
  0 <= c < 65536 -> Z.testbit (crc16_step c) 15 = Z.testbit c 0.
Proof.
  intros Hc. unfold crc16_step.
  destruct (Z.testbit c 0) eqn:E.
  - rewrite Z.lxor_spec, Z.shiftr_spec by lia.
    rewrite (testbit_above16 c (15 + 1)) by lia. reflexivity.
  - rewrite Z.shiftr_spec by lia. apply testbit_above16; lia.
Qed.

Lemma crc16_step_inj (c c' : Z) :
  0 <= c < 65536 -> 0 <= c' < 65536 ->
  crc16_step c = crc16_step c' -> c = c'.
Proof.
  intros Hc Hc' H.
  assert (Hb : Z.testbit c 0 = Z.testbit c' 0).
  { rewrite <- (crc16_step_top_bit c Hc), <- (crc16_step_top_bit c' Hc'), H.
    reflexivity. }
  assert (Hs : Z.shiftr c 1 = Z.shiftr c' 1).
  { unfold crc16_step in H. rewrite <- Hb in H.
    destruct (Z.testbit c 0); [|exact H].
    apply (f_equal (fun x => Z.lxor x 40961)) in H.
    rewrite !Z.lxor_assoc, Z.lxor_nilpotent, !Z.lxor_0_r in H. exact H. }
  rewrite !Z.bit0_odd in Hb.
  rewrite !Z.shiftr_div_pow2 in Hs by lia. change (2 ^ 1) with 2 in Hs.
  rewrite (Z.div_mod c 2), (Z.div_mod c' 2) by lia.
  rewrite Hs. f_equal.
  rewrite !Zmod_odd, Hb. reflexivity.
Qed.

Lemma crc16_steps_range (n : nat) (c : Z) :
  0 <= c < 65536 -> 0 <= Nat.iter n crc16_step c < 65536.
Proof.
  intros Hc. induction n as [|n IH]; [exact Hc|].
  cbn [Nat.iter nat_rect]. apply crc16_step_range. exact IH.
Qed.

Lemma crc16_steps_inj (n : nat) (c c' : Z) :
  0 <= c < 65536 -> 0 <= c' < 65536 ->
  Nat.iter n crc16_step c = Nat.iter n crc16_step c' -> c = c'.
Proof.
  intros Hc Hc'. induction n as [|n IH]; [intros H; exact H|].
  cbn [Nat.iter nat_rect]. intros H. apply IH.
  apply crc16_step_inj; [apply crc16_steps_range; exact Hc
                        |apply crc16_steps_range; exact Hc'|exact H].
Qed.

Lemma lxor_range16 (a b : Z) :
  0 <= a < 65536 -> 0 <= b < 65536 -> 0 <= Z.lxor a b < 65536.
Proof.
  intros Ha Hb.
  assert (H0 : 0 <= Z.lxor a b) by (apply Z.lxor_nonneg; lia).
  split; [exact H0|].
  destruct (Z.eq_dec (Z.lxor a b) 0) as [->|Hne]; [lia|].
  change 65536 with (2 ^ 16). apply Z.log2_lt_pow2; [lia|].
  eapply Z.le_lt_trans; [apply Z.log2_lxor; lia|].
  apply Z.max_lub_lt.
  - destruct (Z.eq_dec a 0) as [->|Hn0]; [reflexivity|]. apply Z.log2_lt_pow2; lia.
  - destruct (Z.eq_dec b 0) as [->|Hn0]; [reflexivity|]. apply Z.log2_lt_pow2; lia.
Qed.

(** Eight steps on a value whose low byte is clear shift it down. *)
Lemma crc16_steps_high (x : Z) : Nat.iter 8 crc16_step (256 * x) = x.
Proof.
  replace (256 * x) with (2 * (2 * (2 * (2 * (2 * (2 * (2 * (2 * x)))))))) by lia.
  cbn [Nat.iter nat_rect]. rewrite !crc16_step_double. reflexivity.
Qed.

(** Bytes [lo], [hi] and a 16-bit [c]: the little-endian word is [c]
    exactly when the bytes are the two halves of [c]. *)
Lemma le_word_split (lo hi c : Z) :
  0 <= lo < 256 -> 0 <= hi < 256 ->
  Z.lor lo (Z.shiftl hi 8) = c -> lo = u8 c /\ hi = Z.shiftr c 8.
Proof.
  intros Hlo Hhi <-. split.
  - rewrite u8_land_ones, Z.land_lor_distr_l.
    rewrite (Z.land_ones lo 8), (Z.land_ones (Z.shiftl hi 8) 8) by lia.
    rewrite Z.shiftl_mul_pow2 by lia.
    rewrite Z.mod_mul by lia. rewrite Z.lor_0_r.
    symmetry. apply Z.mod_small. change (2 ^ 8) with 256. lia.
  - rewrite Z.shiftr_lor, Z.shiftr_shiftl_l by lia.
    change (8 - 8) with 0. rewrite Z.shiftl_0_r.
    rewrite (Z.shiftr_div_pow2 lo) by lia.
    rewrite Z.div_small by (change (2 ^ 8) with 256; lia).
    reflexivity.
Qed.

Lemma lxor_byte_split (c b h : Z) :
  0 <= c < 65536 -> 0 <= b < 256 -> 0 <= h < 256 ->
  Z.lxor c b = 256 * h -> b = u8 c /\ h = Z.shiftr c 8.
Proof.
  intros Hc Hb Hh H.
  assert (E : c = Z.lor b (Z.shiftl h 8)).
  { apply (f_equal (fun x => Z.lxor x b)) in H.
    rewrite Z.lxor_assoc, Z.lxor_nilpotent, Z.lxor_0_r in H. rewrite H.
    rewrite Z.shiftl_mul_pow2 by lia. change (2 ^ 8) with 256.
    rewrite (Z.mul_comm h 256), Z.lxor_comm, Z.lor_comm.
    apply Z.bits_inj'. intros n Hn.
    rewrite Z.lxor_spec, Z.lor_spec.
    destruct (Z.ltb_spec n 8).
    - change 256 with (2 ^ 8). rewrite (Z.mul_comm (2 ^ 8) h).
      rewrite Z.mul_pow2_bits_low by lia.
      destruct (Z.testbit b n); reflexivity.
    - rewrite (Z.bits_above_log2 b n);
        [destruct (Z.testbit (256 * h) n); reflexivity | lia |].
      destruct (Z.eq_dec b 0) as [->|Hb0]; [cbn; lia|].
      assert (Z.log2 b < 8) by (apply Z.log2_lt_pow2; lia). lia. }
  apply le_word_split; [exact Hb|exact Hh|]. symmetry. exact E.
Qed.

(** Two further bytes bring a CRC to zero exactly when they are its low
    and its high byte. *)
Lemma crc16_zero_iff (c b1 b2 : Z) :
  0 <= c < 65536 -> 0 <= b1 < 256 -> 0 <= b2 < 256 ->
  _crc16_update (_crc16_update c b1) b2 = 0 <->
  b1 = u8 c /\ b2 = Z.shiftr c 8.
Proof.
  intros Hc H1 H2. split.
  - intros H.
    assert (Hr1 : 0 <= _crc16_update c b1 < 65536) by (apply crc16_update_range; exact Hc).
    remember (_crc16_update c b1) as x eqn:Ex.
    rewrite crc16_update_eq, (u8_small b2) in H by exact H2.
    assert (Hz : Z.lxor x b2 = 0).
    { apply (crc16_steps_inj 8); [apply lxor_range16; lia | lia |].
      rewrite H. symmetry. exact (crc16_steps_high 0). }
    apply Z.lxor_eq in Hz. rewrite Ex in Hz. clear H Hr1 Ex x.
    assert (Hx : Z.lxor c b1 = 256 * b2).
    { apply (crc16_steps_inj 8); [apply lxor_range16; lia | lia |].
      rewrite crc16_steps_high.
      rewrite <- (u8_small b1) at 1 by exact H1.
      rewrite <- crc16_update_eq. exact Hz. }
    apply lxor_byte_split; assumption.
  - intros [-> ->]. rewrite <- (crc16_update_u8 _ (Z.shiftr c 8)).
    apply crc16_residue. exact Hc.
Qed.

Lemma fold_crc16_snoc (l : list Z) (b c : Z) :
  fold_left _crc16_update (l ++ [b]) c =
  _crc16_update (fold_left _crc16_update l c) b.
Proof. apply fold_left_app. Qed.

(** X2.  What the validity check decides.  For a parameter block at
    [base] that lies inside the EEPROM and whose two CRC cells hold bytes,
    [check_param_crc base] returns 0 if and only if the little-endian word
    in the block's last two cells equals the CRC-16 of the fourteen cells
    before it; the check changes nothing. *)
Theorem check_param_crc_decides (base : nat) (w : world) :
  (base + 16 <= length (eeprom w))%nat ->
  is_byte (eeprom w !!! (base + 14)%nat) ->
  is_byte (eeprom w !!! (base + 15)%nat) ->
  (result (check_param_crc base) w = 0 <->
   result (eeprom_read_word (base + EEPROM_CRC16)) w =
     crc16 (take 14 (drop base (eeprom w)))) /\
  exec (check_param_crc base) w = w.
Proof.
  intros Hlen H14 H15. split; [|apply crc_loop_exec].
  set (l := drop base (eeprom w)).
  assert (Hl : (16 <= length l)%nat) by (subst l; rewrite length_drop; lia).
  assert (E14 : l !! 14%nat = Some (eeprom w !!! (base + 14)%nat)).
  { subst l. rewrite lookup_drop. apply list_lookup_lookup_total_lt. lia. }
  assert (E15 : l !! 15%nat = Some (eeprom w !!! (base + 15)%nat)).
  { subst l. rewrite lookup_drop. apply list_lookup_lookup_total_lt. lia. }
  assert (Ecrc : result (check_param_crc base) w =
                 _crc16_update (_crc16_update (crc16 (take 14 l))
                                  (eeprom w !!! (base + 14)%nat))
                               (eeprom w !!! (base + 15)%nat)).
  { unfold result, check_param_crc.
    rewrite crc_loop_spec by (unfold EEPROM_PARAM_BLOCK_SIZE; lia).
    cbn [fst]. fold l. change EEPROM_PARAM_BLOCK_SIZE with 16%nat.
    rewrite (take_S_r _ _ _ E15), (take_S_r _ _ _ E14).
    rewrite !fold_crc16_snoc. reflexivity. }
  assert (Eword : result (eeprom_read_word (base + EEPROM_CRC16)) w =
                  Z.lor (eeprom w !!! (base + 14)%nat)
                        (Z.shiftl (eeprom w !!! (base + 15)%nat) 8)).
  { unfold result, eeprom_read_word, bind, eeprom_read_byte, ret. cbn [fst].
    change (base + EEPROM_CRC16)%nat with (base + 14)%nat.
    replace (S (base + 14)) with (base + 15)%nat by lia. reflexivity. }
  rewrite Ecrc, Eword.
  pose proof (crc16_range (take 14 l)) as Hc.
  rewrite (crc16_zero_iff _ _ _ Hc H14 H15).
  split.
  - intros [-> ->].
    rewrite <- (u8_small (Z.shiftr (crc16 (take 14 l)) 8))
      by (apply shiftr8_range; exact Hc).
    apply join_split_le. exact Hc.
  - intros H. apply le_word_split; assumption.
Qed.

Lemma check_param_crc_decides_witness :
  let w := exec (update_channel 100) (sample_world erased_eeprom []) in
  (0 + 16 <= length (eeprom w))%nat /\
  is_byte (eeprom w !!! (0 + 14)%nat) /\
  is_byte (eeprom w !!! (0 + 15)%nat) /\
  exec (check_param_crc 0) w = w.
Proof.
  intros w.
  assert (H1 : (0 + 16 <= length (eeprom w))%nat) by (vm_compute; lia).
  assert (H2 : is_byte (eeprom w !!! (0 + 14)%nat)) by (vm_compute; split; [discriminate|reflexivity]).
  assert (H3 : is_byte (eeprom w !!! (0 + 15)%nat)) by (vm_compute; split; [discriminate|reflexivity]).
  split; [exact H1|]. split; [exact H2|]. split; [exact H3|].
  apply (check_param_crc_decides 0 w H1 H2 H3).
Defined.

(** ** What [update_channel] leaves alone *)

Ltac option_lookups :=
  repeat first
    [ rewrite list_lookup_insert_eq by (rewrite ?length_insert; lia)
    | rewrite list_lookup_insert_ne by lia ].

Lemma exec_update_channel_events (channel : Z) (w : world) :
  (16 <= length (eeprom w))%nat ->
  eeprom_writes (events_of (update_channel channel) w) =
    update_channel_writes channel (eeprom w) /\
  twi_writes (events_of (update_channel channel) w) = [].
Proof.
  intros Hlen. unfold events_of.
  rewrite exec_update_channel by exact Hlen. cbn zeta.
  destruct w as [sh led ee bt pb rx vc pv tr]; cbn [trace set_trace set_eeprom].
  rewrite drop_app_length. split; reflexivity.
Qed.

(** X3.  The frame of [update_channel].  Only the channel cells (3, 4) and
    the CRC cells (14, 15) of the working block are programmed, in that
    order; band, de-emphasis, spacing, volume, the reserved cells and
    everything beyond the working block, the factory block included, keep
    their values; shadow bank, pending inputs and bus are untouched. *)
Theorem update_channel_frame (channel : Z) (w : world) :
  (16 <= length (eeprom w))%nat ->
  let w' := exec (update_channel channel) w in
  (forall i : nat, i <> 3%nat -> i <> 4%nat -> i <> 14%nat -> i <> 15%nat ->
     eeprom w' !!! i = eeprom w !!! i) /\
  length (eeprom w') = length (eeprom w) /\
  eeprom_writes (events_of (update_channel channel) w) =
    update_channel_writes channel (eeprom w) /\
  twi_writes (events_of (update_channel channel) w) = [] /\
  shadow w' = shadow w /\ button w' = button w /\ pbytes w' = pbytes w.
Proof.
  intros Hlen w'.
  assert (He : eeprom w' = block_with_crc (block_with_channel channel (eeprom w)))
    by (apply eeprom_of_update_channel; exact Hlen).
  destruct (exec_update_channel_events channel w Hlen) as [Hev Htw].
  split.
  { intros i H3 H4 H14 H15. rewrite He.
    unfold block_with_crc, block_with_channel, EEPROM_CRC16, EEPROM_CHANNEL.
    cbn zeta. rewrite !list_lookup_total_insert_ne by lia. reflexivity. }
  split.
  { rewrite He. unfold block_with_crc, block_with_channel. cbn zeta.
    rewrite !length_insert. reflexivity. }
  split; [exact Hev|]. split; [exact Htw|].
  subst w'. rewrite exec_update_channel by exact Hlen.
  destruct w; cbn. auto.
Qed.

Lemma update_channel_frame_witness :
  let w := sample_world erased_eeprom [] in
  (16 <= length (eeprom w))%nat /\
  length (eeprom (exec (update_channel 100) w)) = length (eeprom w).
Proof.
  intros w. split; [vm_compute; lia|].
  apply (update_channel_frame 100 w). vm_compute. lia.
Defined.

Lemma block_with_channel_absorbs (c1 c2 : Z) (e : list Z) :
  (16 <= length e)%nat ->
  take EEPROM_CRC16
       (block_with_channel c2 (block_with_crc (block_with_channel c1 e))) =
  take EEPROM_CRC16 (block_with_channel c2 e).
Proof.
  intros Hlen. unfold block_with_crc, block_with_channel, EEPROM_CRC16, EEPROM_CHANNEL.
  cbn zeta. apply list_eq. intros i.
  destruct (Nat.lt_ge_cases i 14) as [Hi|Hi].
  - rewrite !lookup_take_lt by lia.
    destruct (Nat.eq_dec i 4%nat) as [->|H4]; [option_lookups; reflexivity|].
    destruct (Nat.eq_dec i 3%nat) as [->|H3]; [option_lookups; reflexivity|].
    option_lookups. reflexivity.
  - rewrite !lookup_take_ge by lia. reflexivity.
Qed.

(** X4.  Saving twice.  A second [update_channel] overwrites the first: the
    EEPROM after saving [c1] and then [c2] is the EEPROM after saving [c2]
    alone; in particular saving the same channel again changes nothing. *)
Theorem update_channel_last_wins (c1 c2 : Z) (w : world) :
  (16 <= length (eeprom w))%nat ->
  eeprom (exec (update_channel c2) (exec (update_channel c1) w)) =
  eeprom (exec (update_channel c2) w).
Proof.
  intros Hlen.
  assert (Hlen1 : (16 <= length (eeprom (exec (update_channel c1) w)))%nat).
  { rewrite eeprom_of_update_channel by exact Hlen.
    unfold block_with_crc, block_with_channel. cbn zeta.
    rewrite !length_insert. exact Hlen. }
  rewrite (eeprom_of_update_channel c2 _ Hlen1).
  rewrite (eeprom_of_update_channel c1 _ Hlen).
  rewrite (eeprom_of_update_channel c2 _ Hlen).
  set (e := eeprom w) in *.
  unfold block_with_crc at 1 3. cbn zeta.
  rewrite (block_with_channel_absorbs c1 c2 e Hlen).
  generalize (crc16 (take EEPROM_CRC16 (block_with_channel c2 e))). intros crc.
  unfold block_with_crc, block_with_channel, EEPROM_CRC16, EEPROM_CHANNEL.
  cbn zeta. apply list_eq. intros i.
  destruct (Nat.eq_dec i 15%nat) as [->|H15]; [option_lookups; reflexivity|].
  destruct (Nat.eq_dec i 14%nat) as [->|H14]; [option_lookups; reflexivity|].
  destruct (Nat.eq_dec i 4%nat) as [->|H4]; [option_lookups; reflexivity|].
  destruct (Nat.eq_dec i 3%nat) as [->|H3]; [option_lookups; reflexivity|].
  option_lookups. reflexivity.
Qed.

Lemma update_channel_last_wins_witness :
  let w := sample_world erased_eeprom [] in
  (16 <= length (eeprom w))%nat /\
  eeprom (exec (update_channel 7) (exec (update_channel 100) w)) =
  eeprom (exec (update_channel 7) w).
Proof.
  intros w. split; [vm_compute; lia|].
  apply (update_channel_last_wins 100 7 w). vm_compute. lia.
Defined.

(** ** Register bank transfers *)

Ltac nat_indices :=
  repeat match goal with
         | |- context [Z.to_nat ?e] =>
             let v := eval vm_compute in (Z.to_nat e) in
             change (Z.to_nat e) with v
         end.

(** X5.  What a bank write transmits.  For an upper register between 0x2
    and 0x9, [si4702_write_registers] makes exactly one bus write, to the
    chip's address, of two bytes per register from 0x2 up to and including
    the upper one; each register in that range travels big-endian with the
    value the shadow bank holds for it; nothing in the state but the trace
    changes. *)
Theorem si4702_write_registers_transmits (r : si4702_register) (w : world) :
  length (shadow w) = 32%nat ->
  2 <= logical_address r <= 9 ->
  exists data,
    exec (si4702_write_registers r) w =
      set_trace (trace w ++ [EvTWIWrite FMIC_ADDRESS data]) w /\
    length data = Z.to_nat (2 * (logical_address r - 2 + 1)) /\
    (forall r' : si4702_register,
        2 <= logical_address r' <= logical_address r ->
        u16 (twi_reg (logical_address r') data) = result (get_shadow_reg r') w).
Proof.
  intros Hlen Hr.
  exists (take (Z.to_nat (r - REGISTER_02 + 2)) (drop (Z.to_nat REGISTER_02) (shadow w))).
  split; [reflexivity|]. split.
  - rewrite length_take, length_drop, Hlen.
    destruct r; cbn in Hr; try lia; vm_compute; reflexivity.
  - intros r' Hr'.
    unfold twi_reg, be16, result, get_shadow_reg. cbn [fst].
    destruct r; cbn in Hr; try lia;
      destruct r'; cbn in Hr'; try lia;
      cbn [logical_address reg_value]; nat_indices;
      rewrite !lookup_total_take_lt by lia;
      rewrite !lookup_total_drop; reflexivity.
Qed.

Lemma si4702_write_registers_transmits_witness :
  let w := tuned_world 100 erased_eeprom [] in
  length (shadow w) = 32%nat /\
  2 <= logical_address REGISTER_03 <= 9 /\
  exists data,
    exec (si4702_write_registers REGISTER_03) w =
      set_trace (trace w ++ [EvTWIWrite FMIC_ADDRESS data]) w /\
    length data = Z.to_nat (2 * (logical_address REGISTER_03 - 2 + 1)) /\
    (forall r' : si4702_register,
        2 <= logical_address r' <= logical_address REGISTER_03 ->
        u16 (twi_reg (logical_address r') data) = result (get_shadow_reg r') w).
Proof.
  intros w.
  assert (H1 : length (shadow w) = 32%nat) by reflexivity.
  assert (H2 : 2 <= logical_address REGISTER_03 <= 9) by (cbn; lia).
  split; [exact H1|]. split; [exact H2|].
  exact (si4702_write_registers_transmits REGISTER_03 w H1 H2).
Defined.

Lemma shadow_after_read (w : world) (j : nat) :
  length (shadow w) = 32%nat ->
  (32 <= length (twi_rx w))%nat ->
  (j < 32)%nat ->
  shadow (exec si4702_read_registers w) !!! j = u8 (twi_rx w !!! j).
Proof.
  intros Hlen Hrx Hj.
  unfold si4702_read_registers, exec, USI_TWI_Read_Data.
  change (Z.to_nat (0x10 * 2)) with 32%nat.
  cbn [snd]. rewrite shadow_set_trace.
  change (shadow (set_twi_rx ?a (set_shadow ?s ?x))) with s.
  assert (Hl : length (u8 <$> take 32 (twi_rx w)) = 32%nat)
    by (rewrite length_fmap, length_take; lia).
  rewrite list_lookup_total_inserts by lia.
  rewrite Nat.sub_0_r.
  apply list_lookup_total_correct.
  rewrite list_lookup_fmap, lookup_take_lt by lia.
  rewrite (list_lookup_lookup_total_lt (twi_rx w) j) by lia. reflexivity.
Qed.

(** X6.  What a bank read leaves.  After [si4702_read_registers], with at
    least 32 bytes coming from the chip, every register of the shadow bank
    holds the big-endian word that arrived at its place in the chip's read
    order, which starts with register 0xA and wraps from 0xF to 0x0: the
    register with address [a] is word number [(a + 6) mod 16].  The 32
    bytes are consumed and the bank keeps its size. *)
Theorem si4702_read_registers_layout (r : si4702_register) (w : world) :
  length (shadow w) = 32%nat ->
  (32 <= length (twi_rx w))%nat ->
  let w' := exec si4702_read_registers w in
  let k := Z.to_nat ((logical_address r + 6) mod 16) in
  result (get_shadow_reg r) w' =
    be16 (u8 (twi_rx w !!! (2 * k)%nat)) (u8 (twi_rx w !!! (2 * k + 1)%nat)) /\
  twi_rx w' = drop 32 (twi_rx w) /\
  length (shadow w') = 32%nat /\
  events_of si4702_read_registers w = [EvTWIRead FMIC_ADDRESS 32] /\
  eeprom w' = eeprom w.
Proof.
  intros Hlen Hrx w' k. split; [|split; [|split; [|split]]].
  - unfold result, get_shadow_reg. cbn [fst]. fold w'.
    assert (Hj : (Z.to_nat r = 2 * k)%nat /\ (Z.to_nat (r + 1) = 2 * k + 1)%nat)
      by (subst k; destruct r; vm_compute; split; reflexivity).
    destruct Hj as [-> ->]. subst w'.
    assert (Hk : (2 * k + 1 < 32)%nat) by (subst k; destruct r; vm_compute; lia).
    rewrite !shadow_after_read by (assumption || lia).
    apply u16_small. apply be16_range; apply u8_range.
  - reflexivity.
  - subst w'. unfold si4702_read_registers, exec, USI_TWI_Read_Data.
    cbn [snd]. rewrite shadow_set_trace.
    change (shadow (set_twi_rx ?a (set_shadow ?s ?x))) with s.
    rewrite length_inserts. exact Hlen.
  - apply events_of_app. reflexivity.
  - reflexivity.
Qed.

Lemma si4702_read_registers_layout_witness :
  let w := set_twi_rx (seqZ 0 32) (sample_world erased_eeprom []) in
  length (shadow w) = 32%nat /\
  (32 <= length (twi_rx w))%nat /\
  result (get_shadow_reg REGISTER_10) (exec si4702_read_registers w) =
    be16 (u8 (twi_rx w !!! 0%nat)) (u8 (twi_rx w !!! 1%nat)).
Proof.
  intros w.
  assert (H1 : length (shadow w) = 32%nat) by reflexivity.
  assert (H2 : (32 <= length (twi_rx w))%nat) by (vm_compute; lia).
  split; [exact H1|]. split; [exact H2|].
  apply (si4702_read_registers_layout REGISTER_10 w H1 H2).
Defined.

(** ** Diagnostic byte output *)

Lemma exec_debugBlinkByte_loop (masks : list Z) (data : Z) (w : world) :
  exec (debugBlinkByte_loop masks data) w =
  set_trace (trace w ++ concat (map (blink_bit_events data) masks)) w.
Proof.
  revert w. induction masks as [|m masks IH]; intros w.
  - cbn. rewrite app_nil_r. destruct w; reflexivity.
  - cbn [debugBlinkByte_loop]. rewrite !exec_bind. rewrite IH.
    cbn [map concat]. unfold blink_bit_events at 2.
    destruct (Z.land data m =? 0); destruct w; cbn; rewrite <- !app_assoc; reflexivity.
Qed.

Lemma exec_debugBlinkByte (data : Z) (w : world) :
  exec (debugBlinkByte data) w =
  set_trace (trace w ++ debugBlinkByte_events data) w.
Proof.
  unfold debugBlinkByte. rewrite !exec_bind. rewrite exec_debugBlinkByte_loop.
  unfold debugBlinkByte_events.
  generalize (concat (map (blink_bit_events (u8 data)) bit_masks)). intros frames.
  destruct w; cbn. rewrite <- !app_assoc. reflexivity.
Qed.

Lemma debugBlinkByte_events_u8 (data : Z) :
  debugBlinkByte_events (u8 data) = debugBlinkByte_events data.
Proof.
  unfold debugBlinkByte_events. replace (u8 (u8 data)) with (u8 data); [reflexivity|].
  unfold u8. rewrite Z.mod_mod by lia. reflexivity.
Qed.

Lemma blink_levels_all_bytes :
  forallb (fun x =>
             (bits_value (blink_levels (debugBlinkByte_events x)) =? x)
             && Nat.eqb (length (blink_levels (debugBlinkByte_events x))) 8)
          (seqZ 0 256) = true.
Proof. vm_compute. reflexivity. Qed.

(** X7.  The diagnostic waveform carries the byte.  Whatever the state,
    [debugBlinkByte data] emits eight clock pulses, each followed by a data
    level on the pin; read most significant bit first, the eight levels
    are the low eight bits of [data].  Only the trace changes. *)
Theorem debugBlinkByte_encodes (data : Z) (w : world) :
  let ev := events_of (debugBlinkByte data) w in
  length (blink_levels ev) = 8%nat /\
  bits_value (blink_levels ev) = u8 data /\
  exec (debugBlinkByte data) w = set_trace (trace w ++ ev) w.
Proof.
  intros ev.
  assert (Eev : ev = debugBlinkByte_events data).
  { subst ev. apply events_of_app. rewrite exec_debugBlinkByte. reflexivity. }
  rewrite Eev. rewrite <- debugBlinkByte_events_u8.
  pose proof blink_levels_all_bytes as H.
  rewrite forallb_forall in H.
  specialize (H (u8 data)).
  assert (Hin : In (u8 data) (seqZ 0 256)).
  { apply list_elem_of_In, elem_of_seqZ. pose proof (u8_range data). lia. }
  apply H in Hin. apply andb_prop in Hin as [H1 H2].
  apply Z.eqb_eq in H1. apply Nat.eqb_eq in H2.
  split; [exact H2|]. split; [exact H1|].
  rewrite debugBlinkByte_events_u8. apply exec_debugBlinkByte.
Qed.

(** ** Receiver init sequence *)

Lemma exec_set_shadow_reg (reg value : Z) (w : world) :
  exec (set_shadow_reg reg value) w = set_shadow (bank_set reg value (shadow w)) w.
Proof. reflexivity. Qed.

Lemma result_get_shadow_reg (reg : Z) (w : world) :
  result (get_shadow_reg reg) w = bank_get reg (shadow w).
Proof. reflexivity. Qed.

Lemma exec_get_shadow_reg (reg : Z) (w : world) : exec (get_shadow_reg reg) w = w.
Proof. reflexivity. Qed.

Lemma exec_si4702_write_registers (upto_reg : Z) (w : world) :
  exec (si4702_write_registers upto_reg) w =
  set_trace (trace w ++ [EvTWIWrite FMIC_ADDRESS (bank_bytes upto_reg (shadow w))]) w.
Proof. reflexivity. Qed.

Lemma exec_eeprom_read_byte (a : nat) (w : world) : exec (eeprom_read_byte a) w = w.
Proof. reflexivity. Qed.

Lemma exec_eeprom_read_word (a : nat) (w : world) : exec (eeprom_read_word a) w = w.
Proof. reflexivity. Qed.

Lemma length_bank_set (reg value : Z) (sh : list Z) :
  length (bank_set reg value sh) = length sh.
Proof. unfold bank_set. rewrite !length_insert. reflexivity. Qed.

#[local] Arguments bank_set : simpl never.
#[local] Arguments bank_get : simpl never.
#[local] Arguments bank_bytes : simpl never.
#[local] Arguments debugBlinkByte_events : simpl never.

(** The state and the events that [si4702_init] leaves, with the shadow
    bank traced through the six register stores. *)
Lemma exec_si4702_init (w : world) :
  let e := eeprom w in
  let chan := Z.lor (e !!! EEPROM_CHANNEL) (Z.shiftl (e !!! S EEPROM_CHANNEL) 8) in
  let sh1 := bank_set REGISTER_07 0x8100 (shadow w) in
  let sh2 := bank_set REGISTER_02 (_BV REG_02_ENABLE_BIT) sh1 in
  let sh3 := bank_set REGISTER_04
               (Z.lor (bank_get REGISTER_04 sh2)
                      (if e !!! EEPROM_DEEMPHASIS =? 0 then 0x0000 else 0x0800)) sh2 in
  let sh4 := bank_set REGISTER_05
               (Z.lor (Z.lor (Z.shiftl (Z.land (e !!! EEPROM_BAND) 0x03) 6)
                             (Z.shiftl (Z.land (e !!! EEPROM_SPACING) 0x03) 4))
                      (Z.land (e !!! EEPROM_VOLUME) 0x0f)) sh3 in
  let sh5 := bank_set REGISTER_03 (Z.lor 0x8000 chan) sh4 in
  let sh6 := bank_set REGISTER_03 chan
               (bank_set REGISTER_02
                  (Z.lor (Z.lor (_BV REG_02_DMUTE_BIT) REG_02_MONO_BIT)
                         (_BV REG_02_ENABLE_BIT)) sh5) in
  exec si4702_init w =
  set_trace
    (trace w ++
     [EvSBI PORTB FMIC_RESET_BIT; EvDelayMs 1; EvTWIInit;
      EvTWIWrite FMIC_ADDRESS (bank_bytes REGISTER_07 sh1); EvDelayMs 600;
      EvTWIWrite FMIC_ADDRESS (bank_bytes REGISTER_02 sh2); EvDelayMs 110;
      EvTWIWrite FMIC_ADDRESS (bank_bytes REGISTER_05 sh4)]
     ++ debugBlinkByte_events (chan / 0x100)
     ++ debugBlinkByte_events (Z.land chan 0xff)
     ++ [EvTWIWrite FMIC_ADDRESS (bank_bytes REGISTER_03 sh5); EvDelayMs 100;
         EvTWIWrite FMIC_ADDRESS (bank_bytes REGISTER_03 sh6)])
    (set_shadow sh6 w).
Proof.
  cbv zeta. unfold si4702_init.
  rewrite !exec_bind.
  rewrite !exec_debugBlinkByte.
  unfold bank_set, bank_get, bank_bytes.
  destruct w as [sh led ee bt pb rx vc pv tr].
  cbn. rewrite <- !app_assoc. reflexivity.
Qed.

Lemma twi_reg_bank_bytes (r r' : si4702_register) (sh : list Z) :
  2 <= logical_address r' <= logical_address r ->
  logical_address r <= 9 ->
  twi_reg (logical_address r') (bank_bytes r sh) = reg_word r' sh.
Proof.
  intros Hr' Hr. unfold twi_reg, bank_bytes, reg_word.
  destruct r; cbn in Hr; try lia;
    destruct r'; cbn in Hr'; try lia;
    cbn [logical_address reg_value]; nat_indices;
    rewrite !lookup_total_take_lt by lia;
    rewrite !lookup_total_drop; reflexivity.
Qed.

Lemma reg_word_bank_set (r : si4702_register) (v : Z) (sh : list Z) :
  length sh = 32%nat -> 0 <= v < 65536 ->
  reg_word r (bank_set r v sh) = v.
Proof.
  intros Hlen Hv. unfold reg_word, bank_set, be16.
  assert (H1 : (Z.to_nat r < 32)%nat /\ (Z.to_nat (r + 1) < 32)%nat /\
               Z.to_nat (r + 1) <> Z.to_nat r)
    by (destruct r; vm_compute; lia).
  destruct H1 as (H1 & H2 & H3).
  rewrite list_lookup_total_insert_ne by exact H3.
  rewrite !list_lookup_total_insert_eq by (rewrite ?length_insert; lia).
  apply join_split_be. exact Hv.
Qed.

Lemma reg_word_bank_set_other (r r' : si4702_register) (v : Z) (sh : list Z) :
  r' <> r -> reg_word r' (bank_set r v sh) = reg_word r' sh.
Proof.
  intros Hne. unfold reg_word, bank_set.
  rewrite !list_lookup_total_insert_ne; [reflexivity| | | |];
    destruct r, r'; try congruence; vm_compute; lia.
Qed.

Lemma bank_get_reg_word (r : Z) (sh : list Z) : bank_get r sh = u16 (reg_word r sh).
Proof. reflexivity. Qed.

Lemma land_low_range (x : Z) (n : Z) :
  0 <= n -> 0 <= Z.land x (Z.ones n) < 2 ^ n.
Proof. intros Hn. rewrite Z.land_ones by exact Hn. apply Z.mod_pos_bound. lia. Qed.

Lemma composite_range (band spacing volume : Z) :
  0 <= Z.lor (Z.lor (Z.shiftl (Z.land band 0x03) 6)
                    (Z.shiftl (Z.land spacing 0x03) 4))
             (Z.land volume 0x0f) < 65536.
Proof.
  pose proof (land_low_range band 2 ltac:(lia)) as Hb.
  pose proof (land_low_range spacing 2 ltac:(lia)) as Hs.
  pose proof (land_low_range volume 4 ltac:(lia)) as Hv.
  change (Z.ones 2) with 3 in *. change (Z.ones 4) with 15 in *.
  change (2 ^ 2) with 4 in *. change (2 ^ 4) with 16 in *.
  apply lor_range16; [apply lor_range16|]; rewrite ?Z.shiftl_mul_pow2 by lia; lia.
Qed.

Lemma channel_word_range (lo hi : Z) :
  is_byte lo -> is_byte hi -> 0 <= Z.lor lo (Z.shiftl hi 8) < 65536.
Proof.
  unfold is_byte. intros Hlo Hhi.
  apply lor_range16; [lia|apply shiftl8_range; exact Hhi].
Qed.

(** X8.  The receiver init sequence on the bus.  From any state with a
    32-byte shadow bank and a byte-valued channel in the EEPROM,
    [si4702_init] releases reset, waits 1 ms, starts the bus driver and
    then makes five writes, in this order and with these waits: registers
    0x2..0x7 (12 bytes) with the oscillator pattern 0x8100 in 0x7, 600 ms;
    register 0x2 alone with the enable bit only, 110 ms; registers
    0x2..0x5 with de-emphasis or-ed into 0x4 and band, spacing and volume
    packed into 0x5; after the two diagnostic bytes, registers 0x2..0x3
    with tune-enable and the stored channel, 100 ms; registers 0x2..0x3
    with the channel alone.  Register 0x2 is still "enable only" (muted)
    in the tune write.  No write reaches registers 0x8 or 0x9 and the
    EEPROM is not changed. *)
Theorem si4702_init_bus_sequence (w : world) :
  length (shadow w) = 32%nat ->
  is_byte (eeprom w !!! EEPROM_CHANNEL) ->
  is_byte (eeprom w !!! S EEPROM_CHANNEL) ->
  let e := eeprom w in
  let chan := result (eeprom_read_word EEPROM_CHANNEL) w in
  let w' := exec si4702_init w in
  exists d1 d2 d3 d4 d5 : list Z,
    events_of si4702_init w =
      [EvSBI PORTB FMIC_RESET_BIT; EvDelayMs 1; EvTWIInit;
       EvTWIWrite FMIC_ADDRESS d1; EvDelayMs 600;
       EvTWIWrite FMIC_ADDRESS d2; EvDelayMs 110;
       EvTWIWrite FMIC_ADDRESS d3]
      ++ debugBlinkByte_events (chan / 0x100)
      ++ debugBlinkByte_events (Z.land chan 0xff)
      ++ [EvTWIWrite FMIC_ADDRESS d4; EvDelayMs 100;
          EvTWIWrite FMIC_ADDRESS d5] /\
    [length d1; length d2; length d3; length d4; length d5]
      = [12; 2; 8; 4; 4]%nat /\
    twi_reg 7 d1 = 0x8100 /\
    twi_reg 2 d2 = _BV REG_02_ENABLE_BIT /\
    twi_reg 2 d3 = _BV REG_02_ENABLE_BIT /\
    twi_reg 2 d4 = _BV REG_02_ENABLE_BIT /\
    twi_reg 4 d3 = Z.lor (result (get_shadow_reg REGISTER_04) w)
                         (if e !!! EEPROM_DEEMPHASIS =? 0 then 0x0000 else 0x0800) /\
    twi_reg 5 d3 = Z.lor (Z.lor (Z.shiftl (Z.land (e !!! EEPROM_BAND) 0x03) 6)
                                (Z.shiftl (Z.land (e !!! EEPROM_SPACING) 0x03) 4))
                         (Z.land (e !!! EEPROM_VOLUME) 0x0f) /\
    twi_reg 3 d4 = Z.lor 0x8000 chan /\
    twi_reg 3 d5 = chan /\
    eeprom w' = eeprom w /\
    length (shadow w') = 32%nat.
Proof.
  intros Hlen Hlo Hhi e chan w'.
  pose proof (exec_si4702_init w) as E. cbv zeta in E. fold e in E.
  change (Z.lor (e !!! EEPROM_CHANNEL) (Z.shiftl (e !!! S EEPROM_CHANNEL) 8))
    with chan in E.
  assert (Hchan : 0 <= chan < 65536) by (apply channel_word_range; assumption).
  set (comp := Z.lor (Z.lor (Z.shiftl (Z.land (e !!! EEPROM_BAND) 0x03) 6)
                            (Z.shiftl (Z.land (e !!! EEPROM_SPACING) 0x03) 4))
                     (Z.land (e !!! EEPROM_VOLUME) 0x0f)) in *.
  assert (Hcomp : 0 <= comp < 65536) by apply composite_range.
  set (sh1 := bank_set REGISTER_07 0x8100 (shadow w)) in *.
  set (sh2 := bank_set REGISTER_02 (_BV REG_02_ENABLE_BIT) sh1) in *.
  set (v4 := Z.lor (bank_get REGISTER_04 sh2)
                   (if e !!! EEPROM_DEEMPHASIS =? 0 then 0x0000 else 0x0800)) in *.
  set (sh3 := bank_set REGISTER_04 v4 sh2) in *.
  set (sh4 := bank_set REGISTER_05 comp sh3) in *.
  set (sh5 := bank_set REGISTER_03 (Z.lor 0x8000 chan) sh4) in *.
  set (v2 := Z.lor (Z.lor (_BV REG_02_DMUTE_BIT) REG_02_MONO_BIT)
                   (_BV REG_02_ENABLE_BIT)) in *.
  set (sh6 := bank_set REGISTER_03 chan (bank_set REGISTER_02 v2 sh5)) in *.
  assert (L1 : length sh1 = 32%nat) by (subst sh1; rewrite length_bank_set; exact Hlen).
  assert (L2 : length sh2 = 32%nat) by (subst sh2; rewrite length_bank_set; exact L1).
  assert (L3 : length sh3 = 32%nat) by (subst sh3; rewrite length_bank_set; exact L2).
  assert (L4 : length sh4 = 32%nat) by (subst sh4; rewrite length_bank_set; exact L3).
  assert (L5 : length sh5 = 32%nat) by (subst sh5; rewrite length_bank_set; exact L4).
  assert (L6 : length sh6 = 32%nat) by (subst sh6; rewrite !length_bank_set; exact L5).
  assert (Hen : 0 <= _BV REG_02_ENABLE_BIT < 65536) by (vm_compute; split; [discriminate|reflexivity]).
  assert (Hv4 : 0 <= v4 < 65536).
  { subst v4. apply lor_range16.
    - rewrite bank_get_reg_word. unfold u16. apply Z.mod_pos_bound. lia.
    - destruct (e !!! EEPROM_DEEMPHASIS =? 0); lia. }
  assert (Hr4 : bank_get REGISTER_04 sh2 = result (get_shadow_reg REGISTER_04) w).
  { rewrite result_get_shadow_reg, !bank_get_reg_word. subst sh2 sh1.
    rewrite !reg_word_bank_set_other by discriminate. reflexivity. }
  exists (bank_bytes REGISTER_07 sh1), (bank_bytes REGISTER_02 sh2),
         (bank_bytes REGISTER_05 sh4), (bank_bytes REGISTER_03 sh5),
         (bank_bytes REGISTER_03 sh6).
  split.
  { apply events_of_app. fold w'. subst w'. rewrite E. reflexivity. }
  split.
  { unfold bank_bytes. rewrite !length_take, !length_drop, L1, L2, L4, L5, L6.
    reflexivity. }
  change (twi_reg 7) with (twi_reg (logical_address REGISTER_07)).
  change (twi_reg 2) with (twi_reg (logical_address REGISTER_02)).
  change (twi_reg 3) with (twi_reg (logical_address REGISTER_03)).
  change (twi_reg 4) with (twi_reg (logical_address REGISTER_04)).
  change (twi_reg 5) with (twi_reg (logical_address REGISTER_05)).
  rewrite !twi_reg_bank_bytes by (cbn; lia).
  split. { subst sh1. apply reg_word_bank_set; [exact Hlen|lia]. }
  split. { subst sh2. apply reg_word_bank_set; assumption. }
  split.
  { subst sh4 sh3. rewrite !reg_word_bank_set_other by discriminate.
    subst sh2. apply reg_word_bank_set; assumption. }
  split.
  { subst sh5 sh4 sh3. rewrite !reg_word_bank_set_other by discriminate.
    subst sh2. apply reg_word_bank_set; assumption. }
  split.
  { subst sh4. rewrite reg_word_bank_set_other by discriminate.
    subst sh3. rewrite reg_word_bank_set by assumption.
    subst v4. rewrite Hr4. reflexivity. }
  split. { subst sh4. apply reg_word_bank_set; assumption. }
  split.
  { subst sh5. apply reg_word_bank_set; [exact L4|]. apply lor_range16; lia. }
  split.
  { subst sh6. apply reg_word_bank_set; [|exact Hchan].
    rewrite length_bank_set. exact L5. }
  subst w'. rewrite E. split; [reflexivity|exact L6].
Qed.

Lemma si4702_init_bus_sequence_witness :
  let w := sample_world (exec (update_channel 100)
                           (sample_world erased_eeprom [])).(eeprom) [] in
  length (shadow w) = 32%nat /\
  is_byte (eeprom w !!! EEPROM_CHANNEL) /\
  is_byte (eeprom w !!! S EEPROM_CHANNEL) /\
  exists d1 d2 d3 d4 d5 : list Z,
    events_of si4702_init w =
      [EvSBI PORTB FMIC_RESET_BIT; EvDelayMs 1; EvTWIInit;
       EvTWIWrite FMIC_ADDRESS d1; EvDelayMs 600;
       EvTWIWrite FMIC_ADDRESS d2; EvDelayMs 110;
       EvTWIWrite FMIC_ADDRESS d3]
      ++ debugBlinkByte_events (result (eeprom_read_word EEPROM_CHANNEL) w / 0x100)
      ++ debugBlinkByte_events (Z.land (result (eeprom_read_word EEPROM_CHANNEL) w) 0xff)
      ++ [EvTWIWrite FMIC_ADDRESS d4; EvDelayMs 100;
          EvTWIWrite FMIC_ADDRESS d5] /\
    [length d1; length d2; length d3; length d4; length d5]
      = [12; 2; 8; 4; 4]%nat.
Proof.
  intros w.
  assert (H1 : length (shadow w) = 32%nat) by reflexivity.
  assert (H2 : is_byte (eeprom w !!! EEPROM_CHANNEL))
    by (vm_compute; split; [discriminate|reflexivity]).
  assert (H3 : is_byte (eeprom w !!! S EEPROM_CHANNEL))
    by (vm_compute; split; [discriminate|reflexivity]).
  split; [exact H1|]. split; [exact H2|]. split; [exact H3|].
  destruct (si4702_init_bus_sequence w H1 H2 H3)
    as (d1 & d2 & d3 & d4 & d5 & Hev & Hl & _).
  exists d1, d2, d3, d4, d5. split; [exact Hev|exact Hl].
Defined.

(** ** Boot: mode selection *)

Lemma repeatM_events (n : nat) (body : M unit) (ev : list event) :
  (forall w, exec body w = set_trace (trace w ++ ev) w) ->
  forall w, exec (repeatM n body) w =
            set_trace (trace w ++ concat (replicate n ev)) w.
Proof.
  intros Hbody. induction n as [|n IH]; intros w.
  - cbn. rewrite app_nil_r. destruct w; reflexivity.
  - cbn [repeatM replicate concat]. rewrite exec_bind, IH, Hbody.
    destruct w; cbn. rewrite <- app_assoc. reflexivity.
Qed.

Lemma exec_low_battery_blink (w : world) :
  exec (bind (SBI PORTB LED_DRIVE_BIT)
          (fun _ => bind (_delay_ms 100)
             (fun _ => bind (CBI PORTB LED_DRIVE_BIT)
                (fun _ => _delay_ms 900)))) w =
  set_trace (trace w ++ [EvSBI PORTB LED_DRIVE_BIT; EvDelayMs 100;
                         EvCBI PORTB LED_DRIVE_BIT; EvDelayMs 900]) w.
Proof. destruct w; cbn. rewrite <- !app_assoc. reflexivity. Qed.

(** X9.  The low-battery gate.  When the supply is not above the
    low-battery threshold, [main] switches the ADC off, blinks the
    indicator pin directly 120 times (100 ms on, 900 ms off), sleeps and
    goes no further: the receiver stays in reset, the bus driver is never
    started, the EEPROM is neither read into the bank nor written, and the
    button is not even sampled.  Nothing in the state changes but the
    trace. *)
Theorem main_low_battery (w : world) :
  vcc_above_low w = false ->
  result main w = LowBatteryAsleep /\
  events_of main w =
    [EvSBI DDRB FMIC_RESET_BIT; EvSBI DDRB LED_DRIVE_BIT; EvAdcOn; EvAdcOff]
    ++ concat (replicate 120 [EvSBI PORTB LED_DRIVE_BIT; EvDelayMs 100;
                              EvCBI PORTB LED_DRIVE_BIT; EvDelayMs 900])
    ++ [EvSleep] /\
  exec main w = set_trace (trace w ++ events_of main w) w.
Proof.
  intros Hv.
  assert (E : main w =
              (LowBatteryAsleep,
               set_trace
                 (trace w ++
                  [EvSBI DDRB FMIC_RESET_BIT; EvSBI DDRB LED_DRIVE_BIT; EvAdcOn; EvAdcOff]
                  ++ concat (replicate 120 [EvSBI PORTB LED_DRIVE_BIT; EvDelayMs 100;
                                            EvCBI PORTB LED_DRIVE_BIT; EvDelayMs 900])
                  ++ [EvSleep]) w)).
  { rewrite (run_eq main w). f_equal.
    - unfold main. rewrite !result_bind.
      change (result VCC_GT_LOW_BATTERY_VOLTAGE _) with (vcc_above_low w).
      rewrite Hv. cbn [negb]. rewrite !result_bind. reflexivity.
    - unfold main. rewrite !exec_bind.
      change (result VCC_GT_LOW_BATTERY_VOLTAGE _) with (vcc_above_low w).
      rewrite Hv. cbn [negb]. rewrite !exec_bind.
      rewrite (repeatM_events 120 _ _ exec_low_battery_blink).
      generalize (concat (replicate 120 [EvSBI PORTB LED_DRIVE_BIT; EvDelayMs 100;
                                         EvCBI PORTB LED_DRIVE_BIT; EvDelayMs 900])).
      intros blinks. destruct w; cbn. rewrite <- !app_assoc. reflexivity. }
  assert (Eev : events_of main w =
                [EvSBI DDRB FMIC_RESET_BIT; EvSBI DDRB LED_DRIVE_BIT; EvAdcOn; EvAdcOff]
                ++ concat (replicate 120 [EvSBI PORTB LED_DRIVE_BIT; EvDelayMs 100;
                                          EvCBI PORTB LED_DRIVE_BIT; EvDelayMs 900])
                ++ [EvSleep]).
  { apply events_of_app. unfold exec. rewrite E. reflexivity. }
  split; [unfold result; rewrite E; reflexivity|].
  split; [exact Eev|].
  rewrite Eev. unfold exec. rewrite E. reflexivity.
Qed.

Lemma main_low_battery_witness :
  let w := mkWorld (replicate 32 0) 0 erased_eeprom [true] [] [] false false [] in
  vcc_above_low w = false /\ result main w = LowBatteryAsleep.
Proof.
  intros w. split; [reflexivity|].
  apply (main_low_battery w). reflexivity.
Defined.

(** ** Programming mode *)

Lemma readPbyte_nil (w : world) : pbytes w = [] -> readPbyte w = (-1, w).
Proof. intros H. unfold readPbyte. rewrite H. reflexivity. Qed.

Lemma u16_range (x : Z) : 0 <= u16 x < 65536.
Proof. unfold u16. apply Z.mod_pos_bound. lia. Qed.

Lemma result_readPbyte_cons (w : world) (d : Z) (l : list Z) :
  pbytes w = d :: l -> result readPbyte w = d.
Proof. intros H. unfold result. rewrite (readPbyte_cons w d l H). reflexivity. Qed.

Lemma exec_readPbyte_cons (w : world) (d : Z) (l : list Z) :
  pbytes w = d :: l -> exec readPbyte w = set_pbytes l w.
Proof. intros H. unfold exec. rewrite (readPbyte_cons w d l H). reflexivity. Qed.

Lemma result_readPbyte_nil (w : world) : pbytes w = [] -> result readPbyte w = -1.
Proof. intros H. unfold result. rewrite (readPbyte_nil w H). reflexivity. Qed.

Lemma exec_readPbyte_nil (w : world) : pbytes w = [] -> exec readPbyte w = w.
Proof. intros H. unfold exec. rewrite (readPbyte_nil w H). reflexivity. Qed.

Lemma exec_ret {A} (a : A) (w : world) : exec (ret a) w = w.
Proof. reflexivity. Qed.

Ltac next_pbyte :=
  match goal with
  | |- context [exec (bind readPbyte ?k) ?w0] =>
      rewrite (exec_bind readPbyte k w0);
      first [ rewrite (result_readPbyte_cons w0 _ _ eq_refl),
                      (exec_readPbyte_cons w0 _ _ eq_refl)
            | rewrite (result_readPbyte_nil w0 eq_refl),
                      (exec_readPbyte_nil w0 eq_refl) ]
  end.

Ltac read_failed l :=
  rewrite exec_ret; left; exists l;
  split; [reflexivity | cbn [length]; split; [lia | intros _; lia]].

(** What one call of [readProgrammingPacket] can do to the state, on any
    input: give up on a failed read, having only consumed input; reject a
    packet with one blink; or accept it, saving a 16-bit channel.  Unless
    no input is pending, at least one byte is consumed. *)
Lemma readProgrammingPacket_outcomes (w : world) :
  let w' := exec readProgrammingPacket w in
  (exists l, w' = set_pbytes l w /\
             (length l <= length (pbytes w))%nat /\
             (pbytes w <> [] -> (length l < length (pbytes w))%nat)) \/
  (exists l, w' = exec (debugBlink 1) (set_pbytes l w) /\
             (length l < length (pbytes w))%nat) \/
  (exists l channel,
      w' = exec (debugBlink 2)
             (exec (update_channel channel) (exec (_delay_ms 50) (set_pbytes l w))) /\
      0 <= channel < 65536 /\
      (length l < length (pbytes w))%nat).
Proof.
  cbv zeta. unfold readProgrammingPacket.
  destruct w as [sh led ee bt pb rx vc pv tr].
  set (w := mkWorld sh led ee bt pb rx vc pv tr).
  assert (Hset : forall l, set_pbytes l w = mkWorld sh led ee bt l rx vc pv tr)
    by reflexivity.
  change (pbytes w) with pb.
  destruct pb as [|d1 [|d2 [|d3 [|d4 l4]]]]; subst w.
  - next_pbyte. change (-1 <? 0) with true. cbv iota. rewrite exec_ret.
    left. exists []. split; [reflexivity|]. split; [cbn; lia|congruence].
  - next_pbyte. destruct (d1 <? 0); [|next_pbyte; change (-1 <? 0) with true; cbv iota];
      read_failed (@nil Z).
  - next_pbyte. destruct (d1 <? 0).
    { read_failed ([d2]). }
    next_pbyte. destruct (d2 <? 0); [|next_pbyte; change (-1 <? 0) with true; cbv iota];
      read_failed (@nil Z).
  - next_pbyte. destruct (d1 <? 0).
    { read_failed ([d2; d3]). }
    next_pbyte. destruct (d2 <? 0).
    { read_failed ([d3]). }
    next_pbyte. destruct (d3 <? 0); [|next_pbyte; change (-1 <? 0) with true; cbv iota];
      read_failed (@nil Z).
  - next_pbyte. destruct (d1 <? 0).
    { read_failed ((d2 :: d3 :: d4 :: l4)). }
    next_pbyte. destruct (d2 <? 0).
    { read_failed ((d3 :: d4 :: l4)). }
    next_pbyte. destruct (d3 <? 0).
    { read_failed ((d4 :: l4)). }
    next_pbyte. destruct (d4 <? 0).
    { read_failed (l4). }
    cbv zeta.
    match goal with |- context [negb ?c] => generalize c end.
    intros [|]; cbn [negb]; cbv iota; rewrite !exec_bind, !exec_ret.
    + right. right. exists l4, (u16 (Z.lor (u16 (Z.shiftl d1 8)) d2)).
      split; [reflexivity|split; [apply u16_range|cbn [length]; lia]].
    + right. left. exists l4. split; [reflexivity|cbn [length]; lia].
Qed.

Lemma check_param_crc_eeprom (base : nat) (w1 w2 : world) :
  eeprom w1 = eeprom w2 ->
  result (check_param_crc base) w1 = result (check_param_crc base) w2.
Proof.
  intros H. unfold check_param_crc. apply crc_loop_pointwise.
  intros i _. rewrite H. reflexivity.
Qed.

Lemma eeprom_update_channel_other (channel : Z) (w : world) (i : nat) :
  (16 <= length (eeprom w))%nat ->
  i <> 3%nat -> i <> 4%nat -> i <> 14%nat -> i <> 15%nat ->
  eeprom (exec (update_channel channel) w) !!! i = eeprom w !!! i.
Proof.
  intros Hlen H3 H4 H14 H15.
  rewrite eeprom_of_update_channel by exact Hlen.
  unfold block_with_crc, block_with_channel, EEPROM_CRC16, EEPROM_CHANNEL.
  cbn zeta. rewrite !list_lookup_total_insert_ne by lia. reflexivity.
Qed.

Lemma length_eeprom_update_channel (channel : Z) (w : world) :
  (16 <= length (eeprom w))%nat ->
  length (eeprom (exec (update_channel channel) w)) = length (eeprom w).
Proof.
  intros Hlen. rewrite eeprom_of_update_channel by exact Hlen.
  unfold block_with_crc, block_with_channel. cbn zeta.
  rewrite !length_insert. reflexivity.
Qed.

(** One call of [readProgrammingPacket], on any input. *)
Lemma readProgrammingPacket_step (w : world) :
  (16 <= length (eeprom w))%nat ->
  let w1 := exec readProgrammingPacket w in
  (length (pbytes w1) <= length (pbytes w))%nat /\
  (pbytes w <> [] -> (length (pbytes w1) < length (pbytes w))%nat) /\
  shadow w1 = shadow w /\
  button w1 = button w /\
  (exists ev, trace w1 = trace w ++ ev /\ twi_writes ev = []) /\
  length (eeprom w1) = length (eeprom w) /\
  (forall i : nat, i <> 3%nat -> i <> 4%nat -> i <> 14%nat -> i <> 15%nat ->
     eeprom w1 !!! i = eeprom w !!! i) /\
  (result (check_param_crc EEPROM_WORKING) w = 0 ->
   result (check_param_crc EEPROM_WORKING) w1 = 0).
Proof.
  intros Hlen w1.
  destruct (readProgrammingPacket_outcomes w)
    as [(l & E & Hl1 & Hl2) | [(l & E & Hl) | (l & c & E & Hc & Hl)]];
    fold w1 in E; rewrite E; clear E w1.
  - destruct w; cbn in *.
    repeat split; auto. exists []. rewrite app_nil_r. split; reflexivity.
  - rewrite exec_debugBlink_1.
    destruct w as [sh led ee bt pb rx vc pv tr]; cbn in *.
    repeat split; auto; try lia.
    eexists. split; reflexivity.
  - rewrite exec_debugBlink_2.
    set (w2 := exec (_delay_ms 50) (set_pbytes l w)).
    assert (He2 : eeprom w2 = eeprom w) by (destruct w; reflexivity).
    assert (Hlen2 : (16 <= length (eeprom w2))%nat) by (rewrite He2; exact Hlen).
    pose proof (exec_update_channel c w2 Hlen2) as Eu. cbv zeta in Eu.
    split; [|split; [|split; [|split; [|split; [|split; [|split]]]]]].
    + rewrite Eu. subst w2. destruct w; cbn in *. lia.
    + intros _. rewrite Eu. subst w2. destruct w; cbn in *. lia.
    + rewrite Eu. subst w2. destruct w; reflexivity.
    + rewrite Eu. subst w2. destruct w; reflexivity.
    + rewrite Eu. subst w2. destruct w as [sh led ee bt pb rx vc pv tr]; cbn.
      rewrite <- !app_assoc. eexists. split; reflexivity.
    + rewrite eeprom_set_trace.
      rewrite (length_eeprom_update_channel c w2 Hlen2), He2. reflexivity.
    + intros i H3 H4 H14 H15. rewrite eeprom_set_trace.
      rewrite (eeprom_update_channel_other c w2 i Hlen2 H3 H4 H14 H15), He2.
      reflexivity.
    + intros _.
      rewrite (check_param_crc_eeprom _ _ (exec (update_channel c) w2))
        by apply eeprom_set_trace.
      apply (update_channel_block_valid c w2 Hlen2 Hc).
Qed.

Lemma programming_loop_invariant (fuel : nat) (w : world) :
  (16 <= length (eeprom w))%nat ->
  (length (pbytes w) <= fuel)%nat ->
  let w' := exec (programming_loop fuel) w in
  pbytes w' = [] /\
  shadow w' = shadow w /\
  button w' = button w /\
  (exists ev, trace w' = trace w ++ ev /\ twi_writes ev = []) /\
  length (eeprom w') = length (eeprom w) /\
  (forall i : nat, i <> 3%nat -> i <> 4%nat -> i <> 14%nat -> i <> 15%nat ->
     eeprom w' !!! i = eeprom w !!! i) /\
  (result (check_param_crc EEPROM_WORKING) w = 0 ->
   result (check_param_crc EEPROM_WORKING) w' = 0).
Proof.
  revert w. induction fuel as [|fuel IH]; intros w Hlen Hf; cbv zeta.
  - cbn [programming_loop]. rewrite exec_ret.
    destruct (pbytes w) eqn:Hp; [|cbn in Hf; lia]. repeat split; auto.
    exists []. rewrite app_nil_r. split; reflexivity.
  - cbn [programming_loop]. rewrite exec_bind.
    destruct (readProgrammingPacket_step w Hlen)
      as (Hl1 & Hl2 & Hs & Hb & Ht & Hle & Hfr & Hv).
    set (w1 := exec readProgrammingPacket w) in *.
    assert (Hf1 : (length (pbytes w1) <= fuel)%nat).
    { destruct (pbytes w) eqn:Hp; [cbn in Hl1; lia|].
      specialize (Hl2 ltac:(discriminate)). cbn [length] in *. lia. }
    assert (Hlen1 : (16 <= length (eeprom w1))%nat) by (rewrite Hle; exact Hlen).
    destruct (IH w1 Hlen1 Hf1) as (Ip & Is & Ib & It & Ile & Ifr & Iv).
    split; [exact Ip|]. split; [congruence|]. split; [congruence|].
    split.
    { destruct Ht as (ev1 & Ht1 & Ht2). destruct It as (ev2 & It1 & It2).
      exists (ev1 ++ ev2). split.
      - rewrite It1, Ht1, app_assoc. reflexivity.
      - rewrite twi_writes_app, Ht2, It2. reflexivity. }
    split; [congruence|]. split.
    + intros i H3 H4 H14 H15. rewrite Ifr, Hfr by assumption. reflexivity.
    + intros H. apply Iv, Hv, H.
Qed.

(** X10.  Programming mode.  With a good supply and the programmer's voltage
    present, [main] does nothing but read packets: every pending input
    byte is consumed, the receiver is never addressed on the bus, the
    shadow bank and the button input are untouched, only the channel and
    CRC cells of the working block can change, and a working block that
    passed the CRC check before still passes it afterwards. *)
Theorem main_programming_mode (w : world) :
  vcc_above_low w = true ->
  prog_voltage w = true ->
  (16 <= length (eeprom w))%nat ->
  let w' := exec main w in
  result main w = ProgrammingWaiting /\
  pbytes w' = [] /\
  twi_writes (events_of main w) = [] /\
  shadow w' = shadow w /\
  button w' = button w /\
  length (eeprom w') = length (eeprom w) /\
  (forall i : nat, i <> 3%nat -> i <> 4%nat -> i <> 14%nat -> i <> 15%nat ->
     eeprom w' !!! i = eeprom w !!! i) /\
  (result (check_param_crc EEPROM_WORKING) w = 0 ->
   result (check_param_crc EEPROM_WORKING) w' = 0).
Proof.
  intros Hv Hp Hlen w'.
  set (w0 := exec adc_on (exec (SBI DDRB LED_DRIVE_BIT) (exec (SBI DDRB FMIC_RESET_BIT) w))).
  assert (Hw0 : w0 = set_trace (trace w ++ [EvSBI DDRB FMIC_RESET_BIT;
                                            EvSBI DDRB LED_DRIVE_BIT; EvAdcOn]) w).
  { subst w0. destruct w; cbn. rewrite <- !app_assoc. reflexivity. }
  assert (Er : result main w = ProgrammingWaiting).
  { unfold main. rewrite !result_bind.
    change (result VCC_GT_LOW_BATTERY_VOLTAGE _) with (vcc_above_low w).
    rewrite Hv. cbn [negb]. rewrite !result_bind.
    change (result programmingVoltagePresent _) with (prog_voltage w).
    rewrite Hp. rewrite !result_bind. reflexivity. }
  assert (Ee : w' = exec (programming_loop (length (pbytes w0))) w0).
  { subst w'. unfold main. rewrite !exec_bind.
    change (result VCC_GT_LOW_BATTERY_VOLTAGE _) with (vcc_above_low w).
    rewrite Hv. cbn [negb]. rewrite !exec_bind.
    change (result programmingVoltagePresent _) with (prog_voltage w).
    rewrite Hp. rewrite !exec_bind, exec_ret. reflexivity. }
  assert (Hlen0 : (16 <= length (eeprom w0))%nat) by (rewrite Hw0; exact Hlen).
  destruct (programming_loop_invariant (length (pbytes w0)) w0 Hlen0 (Nat.le_refl _))
    as (Ip & Is & Ib & It & Ile & Ifr & Iv).
  rewrite <- Ee in Ip, Is, Ib, It, Ile, Ifr, Iv.
  split; [exact Er|]. split; [exact Ip|]. split.
  { destruct It as (ev & It1 & It2).
    rewrite (events_of_app main w
               ([EvSBI DDRB FMIC_RESET_BIT; EvSBI DDRB LED_DRIVE_BIT; EvAdcOn] ++ ev)).
    - rewrite twi_writes_app, It2. reflexivity.
    - fold w'. rewrite It1, Hw0, trace_set_trace, app_assoc. reflexivity. }
  rewrite Hw0 in Is, Ib, Ile, Ifr, Iv.
  split; [exact Is|]. split; [exact Ib|]. split; [exact Ile|].
  split; [exact Ifr|].
  intros H. apply Iv.
  rewrite <- H. apply check_param_crc_eeprom. reflexivity.
Qed.

Lemma main_programming_mode_witness :
  let w := mkWorld (replicate 32 0) 0 erased_eeprom [] [0; 100; 0xeb; 0x01; 9]
                   [] true true [] in
  vcc_above_low w = true /\
  prog_voltage w = true /\
  (16 <= length (eeprom w))%nat /\
  result main w = ProgrammingWaiting /\
  pbytes (exec main w) = [].
Proof.
  intros w.
  assert (H1 : vcc_above_low w = true) by reflexivity.
  assert (H2 : prog_voltage w = true) by reflexivity.
  assert (H3 : (16 <= length (eeprom w))%nat) by (vm_compute; lia).
  split; [exact H1|]. split; [exact H2|]. split; [exact H3|].
  destruct (main_programming_mode w H1 H2 H3) as (Hr & Hp & _).
  split; [exact Hr|exact Hp].
Defined.

(** ** Gesture classification on any input *)

(** The timing loop on any input: it stops at the first sample that is
    not "pressed" (consuming it), or after [c] pressed samples. *)
Lemma timing_loop_any (c : nat) (w : world) :
  let k := pressed_run (button w) in
  timing_loop c w =
  if (c <=? k)%nat
  then (O, set_trace (trace w ++ replicate c (EvDelayMs 1))
             (set_button (drop c (button w)) w))
  else ((c - k)%nat,
        set_trace (trace w ++ replicate k (EvDelayMs 1))
          (set_button (drop (S k) (button w)) w)).
Proof.
  revert w. induction c as [|c IH]; intros w; cbv zeta.
  - cbn. rewrite app_nil_r. destruct w; reflexivity.
  - cbn [timing_loop]. unfold bind at 1. unfold buttonDown.
    destruct w as [sh led ee bt pb rx vc pv tr]. cbn [button].
    destruct bt as [|[|] bt].
    + cbn. rewrite app_nil_r. reflexivity.
    + cbn [pressed_run]. unfold bind, _delay_ms, emit.
      rewrite IH. cbn [button set_button set_trace trace shadow currentLEDBrightness
                       eeprom pbytes twi_rx vcc_above_low prog_voltage].
      change (S c <=? S (pressed_run bt))%nat with (c <=? pressed_run bt)%nat.
      destruct (c <=? pressed_run bt)%nat; cbn; rewrite <- app_assoc; reflexivity.
    + cbn. rewrite app_nil_r. reflexivity.
Qed.

Lemma result_timing_any_short (c : nat) (w : world) :
  (pressed_run (button w) < c)%nat ->
  result (timing_loop c) w = (c - pressed_run (button w))%nat /\
  exec (timing_loop c) w =
    set_trace (trace w ++ replicate (pressed_run (button w)) (EvDelayMs 1))
      (set_button (drop (S (pressed_run (button w))) (button w)) w).
Proof.
  intros Hk. unfold result, exec. rewrite timing_loop_any. cbv zeta.
  destruct (Nat.leb_spec c (pressed_run (button w))); [lia|]. split; reflexivity.
Qed.

Lemma pressed_run_replicate (samples : list bool) (n : nat) :
  (n <= pressed_run samples)%nat ->
  samples = replicate n true ++ drop n samples.
Proof.
  revert samples. induction n as [|n IH]; intros samples Hn; [reflexivity|].
  destruct samples as [|[|] samples]; cbn in Hn; try lia.
  cbn [replicate app drop]. f_equal. apply IH. lia.
Qed.

(** A press shorter than the long-press time, on any continuation of
    the input (including an input that simply ends). *)
Lemma handleButtonDown_short_any (w : world) :
  (pressed_run (button w) < Z.to_nat LONG_PRESS_MS)%nat ->
  let k := pressed_run (button w) in
  let chan := result currentChanFromShadow w in
  let next := if (1080 - 760) <? u16 (chan + 1) then 0 else u16 (chan + 1) in
  let w' := exec handleButtonDown w in
  trace w' =
    trace (exec (tune_direct next)
             (set_trace (trace w ++ [EvOut TCCR1 0; EvOut GTCCR 0;
                                     EvDelayMs BUTTON_DEBOUNCE_MS]
                                 ++ replicate k (EvDelayMs 1)) w))
    ++ [EvDelayMs BUTTON_DEBOUNCE_MS] /\
  shadow w' = shadow (exec (tune_direct next) w) /\
  eeprom w' = eeprom w /\
  button w' = release_loop (drop (S k) (button w)).
Proof.
  intros Hk k chan next w'. subst w'.
  unfold handleButtonDown. rewrite !exec_bind.
  set (w1 := exec currentChanFromShadow
               (exec (_delay_ms BUTTON_DEBOUNCE_MS) (exec (setLEDBrightness 0) w))).
  assert (Hb1 : button w1 = button w) by reflexivity.
  assert (Hk1 : (pressed_run (button w1) < Z.to_nat LONG_PRESS_MS)%nat)
    by (rewrite Hb1; exact Hk).
  destruct (result_timing_any_short _ w1 Hk1) as [Er Ee].
  rewrite Er, Ee, Hb1. fold k.
  replace (negb (Z.to_nat LONG_PRESS_MS - k =? 0)%nat) with true
    by (symmetry; apply negb_true_iff, Nat.eqb_neq; lia).
  change (result currentChanFromShadow
            (exec (_delay_ms BUTTON_DEBOUNCE_MS) (exec (setLEDBrightness 0) w)))
    with chan.
  cbn zeta. fold next. clearbody next. clear chan.
  rewrite !exec_tune_direct.
  subst w1. rewrite !exec_setLEDBrightness_off. clear Hb1 Hk1 Er Ee.
  generalize (replicate k (EvDelayMs 1)). intros delays.
  generalize (drop (S k) (button w)). intros rest.
  clearbody k. clear Hk.
  destruct w as [sh led ee bt pb rx vc pv tr].
  cbn. rewrite <- !app_assoc. cbn. auto.
Qed.

(** X11.  How a press is classified, on any input.  [handleButtonDown]
    counts the consecutive "pressed" samples at the start of the input.
    Fewer than 2000: a short press; whatever the entry channel, the
    channel left in the shadow bank is the entry channel plus one, or 0
    when that exceeds 320, so it always lies in 0..320; two bus writes are
    made and the EEPROM is not written.  2000 or more: a long press; the
    entry channel is saved as [update_channel] saves it, with no bus
    write and the shadow bank unchanged.  Either way the handler returns
    only after it has read a "released" sample (or the input ended). *)
Theorem handleButtonDown_classifies (w : world) :
  length (shadow w) = 32%nat ->
  (16 <= length (eeprom w))%nat ->
  let k := pressed_run (button w) in
  let chan := result currentChanFromShadow w in
  let next := if (1080 - 760) <? u16 (chan + 1) then 0 else u16 (chan + 1) in
  let w' := exec handleButtonDown w in
  ((k < Z.to_nat LONG_PRESS_MS)%nat ->
     result currentChanFromShadow w' = next /\
     0 <= next <= 320 /\
     eeprom w' = eeprom w /\
     eeprom_writes (events_of handleButtonDown w) = [] /\
     length (twi_writes (events_of handleButtonDown w)) = 2%nat /\
     button w' = release_loop (drop (S k) (button w))) /\
  ((Z.to_nat LONG_PRESS_MS <= k)%nat ->
     eeprom w' = eeprom (exec (update_channel chan) w) /\
     eeprom_writes (events_of handleButtonDown w) =
       update_channel_writes chan (eeprom w) /\
     twi_writes (events_of handleButtonDown w) = [] /\
     shadow w' = shadow w /\
     button w' = release_loop (drop (Z.to_nat LONG_PRESS_MS) (button w))).
Proof.
  intros Hsh Hee k chan next w'. split; intros Hk.
  - destruct (handleButtonDown_short_any w Hk) as (Ht & Hs & He & Hb).
    fold k chan next w' in Ht, Hs, He, Hb.
    assert (Hnext : 0 <= next <= 320).
    { subst next. pose proof (u16_range (chan + 1)) as Hu.
      change (1080 - 760) with 320.
      destruct (Z.ltb_spec 320 (u16 (chan + 1))); lia. }
    assert (Hev : events_of handleButtonDown w =
                  [EvOut TCCR1 0; EvOut GTCCR 0; EvDelayMs BUTTON_DEBOUNCE_MS]
                  ++ replicate k (EvDelayMs 1)
                  ++ events_of (tune_direct next) w
                  ++ [EvDelayMs BUTTON_DEBOUNCE_MS]).
    { apply events_of_app. fold w'. rewrite Ht.
      unfold events_of. rewrite !exec_tune_direct. cbv zeta.
      rewrite !trace_set_trace, drop_app_length, <- !app_assoc. reflexivity. }
    assert (Htd : events_of (tune_direct next) w =
                  [EvTWIWrite FMIC_ADDRESS
                     (take 4 (drop 16 (<[19%nat:=255]> (<[18%nat:=129]> (shadow w)))));
                   EvDelayMs 160;
                   EvTWIWrite FMIC_ADDRESS
                     (take 4 (drop 16
                        (<[19%nat:=u8 (Z.land next 255)]>
                           (<[18%nat:=u8 (Z.shiftr next 8)]>
                              (<[19%nat:=255]> (<[18%nat:=129]> (shadow w)))))))]).
    { apply events_of_app. rewrite exec_tune_direct. reflexivity. }
    split.
    { rewrite (currentChan_shadow _ _ Hs).
      apply (tune_direct_bus next w Hsh). lia. }
    split; [exact Hnext|]. split; [exact He|]. split.
    { rewrite Hev, Htd, !eeprom_writes_app, eeprom_writes_delays. reflexivity. }
    split; [|exact Hb].
    rewrite Hev, Htd, !twi_writes_app, twi_writes_delays. reflexivity.
  - assert (Hb : button w = replicate (Z.to_nat LONG_PRESS_MS) true
                            ++ drop (Z.to_nat LONG_PRESS_MS) (button w))
      by (apply pressed_run_replicate; exact Hk).
    destruct (handleButtonDown_held w _ Hee Hb) as (Ht & He & Hs & Hbt).
    fold chan w' in Ht, He, Hs, Hbt.
    assert (Hev : events_of handleButtonDown w = long_press_events chan (eeprom w))
      by (apply events_of_app; exact Ht).
    split.
    { rewrite He. symmetry. apply eeprom_of_update_channel. exact Hee. }
    split; [rewrite Hev; apply eeprom_writes_long_press|].
    split; [rewrite Hev; apply twi_writes_long_press|].
    split; [exact Hs|exact Hbt].
Qed.

Lemma handleButtonDown_classifies_witness :
  let w := tuned_world 65535 erased_eeprom [true; true; false; true] in
  length (shadow w) = 32%nat /\
  (16 <= length (eeprom w))%nat /\
  (pressed_run (button w) < Z.to_nat LONG_PRESS_MS)%nat /\
  result currentChanFromShadow (exec handleButtonDown w) = 0.
Proof.
  intros w.
  assert (H1 : length (shadow w) = 32%nat) by reflexivity.
  assert (H2 : (16 <= length (eeprom w))%nat) by (vm_compute; lia).
  assert (H3 : (pressed_run (button w) < Z.to_nat LONG_PRESS_MS)%nat)
    by (vm_compute; lia).
  split; [exact H1|]. split; [exact H2|]. split; [exact H3|].
  destruct (handleButtonDown_classifies w H1 H2) as [Hshort _].
  destruct (Hshort H3) as [Hc _]. exact Hc.
Defined.

(** ** Breathing *)

Lemma exec_setLEDBrightness (b : Z) (w : world) :
  exec (setLEDBrightness b) w =
  set_trace (trace w ++ led_events b) (set_currentLEDBrightness (u8 b) w).
Proof.
  unfold setLEDBrightness, led_events. rewrite exec_bind.
  pose proof (u8_range b) as Hb.
  destruct (Z.eqb_spec (u8 b) 0) as [E|E].
  - destruct w; cbn. rewrite <- app_assoc. reflexivity.
  - rewrite !exec_bind. unfold updateLEDcompensation, exec at 2 3.
    destruct w as [sh led ee bt pb rx vc pv tr].
    cbn [snd set_currentLEDBrightness currentLEDBrightness].
    replace (0 <? u8 b) with true by (symmetry; apply Z.ltb_lt; lia).
    cbn. rewrite <- !app_assoc. reflexivity.
Qed.

Lemma buttonDown_released (w : world) :
  Forall (fun b => b = false) (take 1 (button w)) ->
  buttonDown w = (false, set_button (drop 1 (button w)) w).
Proof.
  intros H. unfold buttonDown. destruct w as [sh led ee bt pb rx vc pv tr].
  cbn in *. destruct bt as [|b bt]; [reflexivity|].
  cbn in H. apply Forall_cons in H as [-> _]. reflexivity.
Qed.

Lemma breath_table_step (m : nat) :
  (m < 91)%nat ->
  drop (90 - m) breath_data =
  breath (Z.of_nat (90 - m)) :: drop (91 - m) breath_data.
Proof.
  intros Hm. replace (91 - m)%nat with (S (90 - m)) by lia.
  apply drop_S. unfold breath.
  rewrite u8_small by lia. rewrite Nat2Z.id.
  apply list_lookup_lookup_total_lt. cbn [length breath_data]. lia.
Qed.

Lemma bind_exec {A B} (m : M A) (k : A -> M B) (w : world) :
  bind m k w = k (result m w) (exec m w).
Proof. unfold bind, result, exec. destruct (m w). reflexivity. Qed.

(** The rest of a ramp, [n] steps before its end, when the button stays
    up for those steps. *)
Lemma breath_ramp_undisturbed (n fuel : nat) (w : world) :
  (n <= 91)%nat -> (n < fuel)%nat ->
  Forall (fun b => b = false) (take n (button w)) ->
  breath_ramp fuel (Z.of_nat (91 - n)) w =
  (Some tt,
   set_trace (trace w ++ concat (map (fun b => led_events b ++ [EvDelayMs 20])
                                     (drop (91 - n) breath_data)))
     (set_currentLEDBrightness
        (match n with O => currentLEDBrightness w | S _ => 0 end)
        (set_button (drop n (button w)) w))).
Proof.
  revert fuel w. induction n as [|n IH]; intros fuel w Hn Hf Hb.
  - destruct fuel as [|fuel]; [lia|]. cbn [breath_ramp].
    change (Z.of_nat (91 - 0) <? BREATH_LEN) with false. cbv iota.
    change (drop (91 - 0) breath_data) with (@nil Z). cbn [map concat].
    rewrite app_nil_r. destruct w; reflexivity.
  - destruct fuel as [|fuel]; [lia|]. cbn [breath_ramp].
    replace (91 - S n)%nat with (90 - n)%nat by lia.
    replace (Z.of_nat (90 - n) <? BREATH_LEN) with true
      by (symmetry; apply Z.ltb_lt; change BREATH_LEN with 91; lia).
    cbv iota.
    rewrite bind_exec. cbv beta. rewrite bind_exec. cbv beta.
    rewrite bind_exec. cbv beta.
    rewrite exec_setLEDBrightness.
    set (w1 := exec (_delay_ms 20) _).
    assert (Hb1 : button w1 = button w) by reflexivity.
    assert (Hd : buttonDown w1 = (false, set_button (drop 1 (button w)) w1)).
    { rewrite <- Hb1. apply buttonDown_released. rewrite Hb1.
      replace (take 1 (button w)) with (take 1 (take (S n) (button w)))
        by (rewrite take_take; f_equal; lia).
      apply Forall_take. exact Hb. }
    assert (Hr : result buttonDown w1 = false) by (unfold result; rewrite Hd; reflexivity).
    assert (He : exec buttonDown w1 = set_button (drop 1 (button w)) w1)
      by (unfold exec; rewrite Hd; reflexivity).
    rewrite Hr, He. cbv iota.
    replace (u8 (Z.of_nat (90 - n) + 1)) with (Z.of_nat (91 - n))
      by (rewrite u8_small by lia; lia).
    set (w2 := set_button (drop 1 (button w)) w1).
    assert (Hb2 : Forall (fun b => b = false) (take n (button w2))).
    { change (button w2) with (drop 1 (button w)).
      rewrite take_drop_commute. apply Forall_drop. exact Hb. }
    rewrite (IH fuel w2 ltac:(lia) ltac:(lia) Hb2).
    rewrite (breath_table_step n) by lia.
    cbn [map concat].
    assert (Hlast : match n with
                    | O => currentLEDBrightness w2
                    | S _ => 0
                    end = 0).
    { destruct n; [|reflexivity].
      subst w2 w1. cbn. reflexivity. }
    rewrite Hlast.
    subst w2 w1.
    generalize (breath (Z.of_nat (90 - n))). intros bri.
    generalize (concat (map (fun b => led_events b ++ [EvDelayMs 20])
                            (drop (91 - n) breath_data))). intros tail.
    destruct w as [sh led ee bt pb rx vc pv tr]. cbn.
    rewrite !drop_drop, <- !app_assoc. reflexivity.
Qed.

Lemma breathing_undisturbed (c fuel : nat) (w : world) :
  (91 < fuel)%nat ->
  Forall (fun b => b = false) (take (91 * c) (button w)) ->
  breathing c fuel w =
  (Some tt,
   set_trace (trace w ++ concat (replicate c ramp_events))
     (set_currentLEDBrightness
        (match c with O => currentLEDBrightness w | S _ => 0 end)
        (set_button (drop (91 * c) (button w)) w))).
Proof.
  intros Hf. revert w. induction c as [|c IH]; intros w Hb.
  - cbn [breathing replicate concat]. rewrite app_nil_r.
    destruct w; reflexivity.
  - cbn [breathing]. rewrite bind_exec.
    assert (H1 : Forall (fun b => b = false) (take 91 (button w))).
    { replace (take 91 (button w)) with (take 91 (take (91 * S c) (button w)))
        by (rewrite take_take; f_equal; lia).
      apply Forall_take. exact Hb. }
    pose proof (breath_ramp_undisturbed 91 fuel w ltac:(lia) Hf H1) as Hr.
    change (Z.of_nat (91 - 91)) with 0 in Hr.
    change (drop (91 - 91) breath_data) with breath_data in Hr.
    fold ramp_events in Hr.
    unfold result, exec. rewrite Hr. cbn [fst snd].
    set (w1 := set_trace _ _).
    assert (H2 : Forall (fun b => b = false) (take (91 * c) (button w1))).
    { change (button w1) with (drop 91 (button w)).
      rewrite take_drop_commute. apply Forall_drop.
      replace (91 + 91 * c)%nat with (91 * S c)%nat by lia. exact Hb. }
    rewrite (IH w1 H2). subst w1.
    assert (Hlast : match c with
                    | O => currentLEDBrightness
                             (set_trace (trace w ++ ramp_events)
                                (set_currentLEDBrightness 0
                                   (set_button (drop 91 (button w)) w)))
                    | S _ => 0
                    end = 0) by (destruct c; reflexivity).
    rewrite Hlast.
    replace (91 * S c)%nat with (91 + 91 * c)%nat by lia.
    rewrite <- drop_drop. cbn [replicate concat].
    generalize (91 * c)%nat. intros k.
    generalize (concat (replicate c ramp_events)). intros tail.
    generalize ramp_events. intros ramp.
    destruct w as [sh led ee bt pb rx vc pv tr].
    cbn [set_trace set_currentLEDBrightness set_button trace button shadow
         currentLEDBrightness eeprom pbytes twi_rx vcc_above_low prog_voltage].
    rewrite <- !app_assoc. reflexivity.
Qed.

(** X12.  The breathing phase of [main], [BREATH_COUNT_TIMEOUT_S] ramps,
    when the button reads released at each of its samples: it ends, the
    indicator has gone through the brightness table once per count with a
    20 ms step after each level, one button sample was taken per step and
    none more, the indicator is left dark, and neither the parameter store
    nor the register bank nor the bus was touched. *)
Theorem breathing_without_press (fuel : nat) (w : world) :
  (91 < fuel)%nat ->
  Forall (fun b => b = false) (take (91 * 60) (button w)) ->
  let w' := exec (breathing (Z.to_nat BREATH_COUNT_TIMEOUT_S) fuel) w in
  result (breathing (Z.to_nat BREATH_COUNT_TIMEOUT_S) fuel) w = Some tt /\
  events_of (breathing (Z.to_nat BREATH_COUNT_TIMEOUT_S) fuel) w =
    concat (replicate 60 ramp_events) /\
  button w' = drop (91 * 60) (button w) /\
  currentLEDBrightness w' = 0 /\
  eeprom w' = eeprom w /\ shadow w' = shadow w /\
  eeprom_writes (events_of (breathing (Z.to_nat BREATH_COUNT_TIMEOUT_S) fuel) w) = [] /\
  twi_writes (events_of (breathing (Z.to_nat BREATH_COUNT_TIMEOUT_S) fuel) w) = [].
Proof.
  intros Hf Hb w'. subst w'.
  change (Z.to_nat BREATH_COUNT_TIMEOUT_S) with 60%nat.
  unfold events_of, result, exec.
  rewrite (breathing_undisturbed 60 fuel w Hf Hb). cbn [fst snd].
  assert (Ht : drop (length (trace w))
                 (trace (set_trace (trace w ++ concat (replicate 60 ramp_events))
                    (set_currentLEDBrightness 0
                       (set_button (drop (91 * 60) (button w)) w)))) =
               concat (replicate 60 ramp_events)).
  { destruct w; cbn. apply drop_app_length. }
  rewrite Ht.
  split; [reflexivity|]. split; [reflexivity|].
  split; [destruct w; reflexivity|]. split; [destruct w; reflexivity|].
  split; [destruct w; reflexivity|]. split; [destruct w; reflexivity|].
  split; vm_compute; reflexivity.
Qed.

Lemma breathing_without_press_witness :
  let w := sample_world erased_eeprom (replicate (91 * 60) false ++ [true]) in
  (91 < 92)%nat /\
  Forall (fun b => b = false) (take (91 * 60) (button w)) /\
  result (breathing (Z.to_nat BREATH_COUNT_TIMEOUT_S) 92) w = Some tt /\
  button (exec (breathing (Z.to_nat BREATH_COUNT_TIMEOUT_S) 92) w) = [true].
Proof.
  intros w.
  assert (H1 : (91 < 92)%nat) by lia.
  assert (H2 : Forall (fun b => b = false) (take (91 * 60) (button w))).
  { unfold w, sample_world. cbn [button].
    rewrite take_app_length' by (rewrite length_replicate; reflexivity).
    apply Forall_replicate. reflexivity. }
  split; [exact H1|]. split; [exact H2|].
  destruct (breathing_without_press 92 w H1 H2) as (Hr & _ & Hbt & _).
  split; [exact Hr|]. rewrite Hbt. vm_compute. reflexivity.
Defined.

(** ** Boot in normal mode *)

Lemma exec_initButton (w : world) :
  exec initButton w =
  set_trace (trace w ++ [EvSBI PORTB BUTTON_INPUT_BIT; EvSBI GIMSK PCIE;
                         EvSBI PCMSK BUTTON_PCINT_BIT; EvSei])
    (set_button (tail (button w)) w).
Proof.
  destruct w as [sh led ee bt pb rx vc pv tr]. destruct bt as [|b bt];
    cbn; rewrite <- !app_assoc; reflexivity.
Qed.

Lemma result_initButton (w : world) :
  result initButton w = match button w with b :: _ => b | [] => false end.
Proof.
  destruct w as [sh led ee bt pb rx vc pv tr]. destruct bt as [|b bt]; reflexivity.
Qed.

Lemma main_normal_mode (w : world) :
  vcc_above_low w = true ->
  prog_voltage w = false ->
  let w0 := set_trace (trace w ++ [EvSBI DDRB FMIC_RESET_BIT; EvSBI DDRB LED_DRIVE_BIT;
                                   EvAdcOn; EvAdcOff;
                                   EvOut PLLCSR (_BV LSM); EvOut OCR1C 255; EvOut OCR1B 0;
                                   EvOut TCCR1 0x84; EvOut GTCCR 0x60]) w in
  let w1 := exec initButton w0 in
  let w2 := if result initButton w0
            then exec copy_factory_param (exec (factory_pending_loop (button w1)) w1)
            else w1 in
  result main w = RadioOn /\ exec main w = exec si4702_init w2.
Proof.
  intros Hv Hp w0 w1 w2.
  assert (Hw0 : exec LED_PWM_on (exec LED_PWM_init (exec adc_off
                  (exec adc_on (exec (SBI DDRB LED_DRIVE_BIT)
                     (exec (SBI DDRB FMIC_RESET_BIT) w))))) = w0).
  { subst w0. destruct w; cbn. rewrite <- !app_assoc. reflexivity. }
  split.
  - with_strategy opaque [si4702_init check_param_crc copy_factory_param initButton
                          LED_PWM_init LED_PWM_on adc_off adc_on shutDown]
      (unfold main; rewrite !result_bind;
       change (result VCC_GT_LOW_BATTERY_VOLTAGE _) with (vcc_above_low w);
       rewrite Hv; cbn [negb]; rewrite !result_bind;
       change (result programmingVoltagePresent _) with (prog_voltage w);
       rewrite Hp; rewrite !result_bind). reflexivity.
  - with_strategy opaque [si4702_init check_param_crc copy_factory_param initButton
                          LED_PWM_init LED_PWM_on adc_off adc_on shutDown]
      (unfold main; rewrite !exec_bind;
       change (result VCC_GT_LOW_BATTERY_VOLTAGE _) with (vcc_above_low w);
       rewrite Hv; cbn [negb]; rewrite !exec_bind;
       change (result programmingVoltagePresent _) with (prog_voltage w);
       rewrite Hp; rewrite !exec_bind, ?exec_ret).
    assert (Ev : forall x, exec VCC_GT_LOW_BATTERY_VOLTAGE x = x) by reflexivity.
    assert (Ep : forall x, exec programmingVoltagePresent x = x) by reflexivity.
    rewrite !Ev, !Ep, Hw0. fold w1.
    unfold check_param_crc at 2. rewrite crc_loop_exec.
    assert (Hs : forall (b : bool) (w3 : world), exec (if b then shutDown DIAGNOSTIC_BLINK_BADEEPROM
                                    else ret tt) w3 = w3)
      by (intros b w3; destruct b; reflexivity).
    rewrite Hs. f_equal. subst w2.
    destruct (result initButton w0).
    + rewrite exec_bind. reflexivity.
    + reflexivity.
Qed.

Lemma exec_double_blink (w : world) :
  exec (setLEDBrightness 255 ;; _delay_ms 100 ;; setLEDBrightness 0 ;;
        _delay_ms 100 ;; setLEDBrightness 255 ;; _delay_ms 100 ;;
        setLEDBrightness 0 ;; _delay_ms 900)%fw w =
  set_trace (trace w ++ double_blink_events) (set_currentLEDBrightness 0 w).
Proof.
  rewrite !exec_bind, !exec_setLEDBrightness. unfold double_blink_events.
  change (u8 0) with 0.
  generalize (led_events 255) (led_events 0). intros on off.
  destruct w; cbn. rewrite <- !app_assoc. reflexivity.
Qed.

Lemma exec_factory_pending_loop (k : nat) (rest : list bool) (w : world) :
  button w = replicate k true ++ false :: rest ->
  exec (factory_pending_loop (button w)) w =
  set_trace (trace w ++ concat (replicate k double_blink_events))
    (set_currentLEDBrightness
       (match k with O => currentLEDBrightness w | S _ => 0 end)
       (set_button rest w)).
Proof.
  revert w. induction k as [|k IH]; intros w Hb.
  - destruct w as [sh led ee bt pb rx vc pv tr]. cbn in Hb. subst bt.
    cbn. rewrite app_nil_r. reflexivity.
  - rewrite Hb. cbn [replicate app factory_pending_loop].
    rewrite exec_bind.
    assert (Hd : buttonDown w = (true, set_button (replicate k true ++ false :: rest) w)).
    { unfold buttonDown. rewrite Hb. reflexivity. }
    unfold result at 1, exec at 2. rewrite Hd. cbn [fst snd].
    set (w1 := set_button _ w).
    assert (E : forall (m : M unit) x,
               exec (setLEDBrightness 255 ;; _delay_ms 100 ;; setLEDBrightness 0 ;;
                     _delay_ms 100 ;; setLEDBrightness 255 ;; _delay_ms 100 ;;
                     setLEDBrightness 0 ;; _delay_ms 900 ;; m)%fw x =
               exec m (exec (setLEDBrightness 255 ;; _delay_ms 100 ;;
                             setLEDBrightness 0 ;; _delay_ms 100 ;;
                             setLEDBrightness 255 ;; _delay_ms 100 ;;
                             setLEDBrightness 0 ;; _delay_ms 900)%fw x)).
    { intros m x. rewrite !exec_bind. reflexivity. }
    rewrite E, exec_double_blink.
    set (w2 := set_trace _ _).
    assert (Hb2 : button w2 = replicate k true ++ false :: rest) by reflexivity.
    rewrite <- Hb2 at 1. rewrite (IH w2 Hb2).
    assert (Hlast : match k with
                    | O => currentLEDBrightness w2
                    | S _ => 0
                    end = 0) by (destruct k; reflexivity).
    rewrite Hlast. subst w2 w1. cbn [replicate concat].
    generalize (concat (replicate k double_blink_events)). intros tail.
    generalize double_blink_events. intros blink.
    destruct w as [sh led ee bt pb rx vc pv tr]. cbn.
    rewrite <- !app_assoc. reflexivity.
Qed.

Lemma eeprom_writes_blink_byte (d : Z) :
  eeprom_writes (debugBlinkByte_events d) = [].
Proof.
  unfold debugBlinkByte_events. rewrite !eeprom_writes_app.
  assert (H : forall l, eeprom_writes (concat (map (blink_bit_events (u8 d)) l)) = []).
  { induction l as [|m l IH]; [reflexivity|].
    cbn [map concat]. rewrite eeprom_writes_app, IH.
    unfold blink_bit_events. destruct (Z.land (u8 d) m =? 0); reflexivity. }
  rewrite H. reflexivity.
Qed.

Lemma twi_writes_blink_byte (d : Z) :
  twi_writes (debugBlinkByte_events d) = [].
Proof.
  unfold debugBlinkByte_events. rewrite !twi_writes_app.
  assert (H : forall l, twi_writes (concat (map (blink_bit_events (u8 d)) l)) = []).
  { induction l as [|m l IH]; [reflexivity|].
    cbn [map concat]. rewrite twi_writes_app, IH.
    unfold blink_bit_events. destruct (Z.land (u8 d) m =? 0); reflexivity. }
  rewrite H. reflexivity.
Qed.

(** What the boot sequence needs of [si4702_init]: it only appends to the
    trace, programs no EEPROM cell, and its last bus write carries the
    channel word of the working block in register 0x3. *)
Lemma si4702_init_summary (w : world) :
  length (shadow w) = 32%nat ->
  is_byte (eeprom w !!! EEPROM_CHANNEL) ->
  is_byte (eeprom w !!! S EEPROM_CHANNEL) ->
  exists (ev : list event) (d : list Z),
    trace (exec si4702_init w) = trace w ++ ev /\
    eeprom_writes ev = [] /\
    length (twi_writes ev) = 5%nat /\
    last (twi_writes ev) = Some d /\
    twi_reg 3 d = result (eeprom_read_word EEPROM_CHANNEL) w /\
    eeprom (exec si4702_init w) = eeprom w /\
    button (exec si4702_init w) = button w.
Proof.
  intros Hlen Hlo Hhi.
  pose proof (exec_si4702_init w) as E. cbv zeta in E.
  set (chan := Z.lor (eeprom w !!! EEPROM_CHANNEL)
                     (Z.shiftl (eeprom w !!! S EEPROM_CHANNEL) 8)) in *.
  assert (Hchan : 0 <= chan < 65536) by (apply channel_word_range; assumption).
  match type of E with
  | _ = set_trace (_ ++ ?pre ++ ?b1 ++ ?b2 ++ [?e4; ?dl; EvTWIWrite _ (bank_bytes _ ?sh6)]) _ =>
      set (sh := sh6) in *;
      exists (pre ++ b1 ++ b2 ++ [e4; dl; EvTWIWrite FMIC_ADDRESS (bank_bytes REGISTER_03 sh)]),
             (bank_bytes REGISTER_03 sh)
  end.
  rewrite E.
  split; [reflexivity|].
  split.
  { rewrite !eeprom_writes_app, !eeprom_writes_blink_byte. reflexivity. }
  split.
  { rewrite !twi_writes_app, !twi_writes_blink_byte. reflexivity. }
  split.
  { rewrite !twi_writes_app, !twi_writes_blink_byte. reflexivity. }
  split.
  { change (twi_reg 3) with (twi_reg (logical_address REGISTER_03)).
    rewrite twi_reg_bank_bytes by (cbn; lia).
    subst sh. apply reg_word_bank_set; [|exact Hchan].
    rewrite !length_bank_set. exact Hlen. }
  split; reflexivity.
Qed.

Lemma boot_state_before_restore (w : world) :
  exec initButton
    (set_trace (trace w ++ [EvSBI DDRB FMIC_RESET_BIT; EvSBI DDRB LED_DRIVE_BIT;
                            EvAdcOn; EvAdcOff;
                            EvOut PLLCSR (_BV LSM); EvOut OCR1C 255; EvOut OCR1B 0;
                            EvOut TCCR1 0x84; EvOut GTCCR 0x60]) w) =
  set_trace (trace w ++ boot_prefix_events) (set_button (tail (button w)) w).
Proof.
  rewrite exec_initButton. unfold boot_prefix_events.
  destruct w; cbn. rewrite <- !app_assoc. reflexivity.
Qed.

(** X13.  Boot in normal mode with the button up.  With a good supply, no
    programmer and the button released at the first sample, [main] always
    reaches the receiver bring-up, whatever the working block holds and
    whatever its CRC check gives: no EEPROM cell is programmed, one button
    sample is consumed, the five bus writes of the bring-up are made, and
    the last of them carries the channel word stored in the working
    block. *)
Theorem main_boot_button_up (rest : list bool) (w : world) :
  vcc_above_low w = true ->
  prog_voltage w = false ->
  length (shadow w) = 32%nat ->
  is_byte (eeprom w !!! EEPROM_CHANNEL) ->
  is_byte (eeprom w !!! S EEPROM_CHANNEL) ->
  button w = false :: rest ->
  let w' := exec main w in
  result main w = RadioOn /\
  eeprom w' = eeprom w /\
  eeprom_writes (events_of main w) = [] /\
  button w' = rest /\
  length (twi_writes (events_of main w)) = 5%nat /\
  exists d : list Z,
    last (twi_writes (events_of main w)) = Some d /\
    twi_reg 3 d = result (eeprom_read_word EEPROM_CHANNEL) w.
Proof.
  intros Hv Hp Hlen Hlo Hhi Hb w'.
  destruct (main_normal_mode w Hv Hp) as [Er Ee]. cbv zeta in Ee.
  rewrite result_initButton in Ee.
  rewrite boot_state_before_restore in Ee.
  change (button (set_trace _ w)) with (button w) in Ee.
  rewrite Hb in Ee. cbn [tail] in Ee.
  set (w1 := set_trace (trace w ++ boot_prefix_events) (set_button rest w)) in *.
  destruct (si4702_init_summary w1 Hlen Hlo Hhi)
    as (ev & d & Ht & Hew & Hn & Hl & Hd & Hee & Hbt).
  fold w' in Ee. rewrite <- Ee in Ht, Hee, Hbt.
  assert (Hev : events_of main w = boot_prefix_events ++ ev).
  { apply events_of_app. fold w'. rewrite Ht. subst w1.
    rewrite trace_set_trace, app_assoc. reflexivity. }
  split; [exact Er|]. split; [exact Hee|].
  split; [rewrite Hev, eeprom_writes_app, Hew; reflexivity|].
  split; [exact Hbt|].
  split; [rewrite Hev, twi_writes_app, length_app, Hn; reflexivity|].
  exists d. split; [|exact Hd].
  rewrite Hev, twi_writes_app. exact Hl.
Qed.

Lemma main_boot_button_up_witness :
  let w := sample_world erased_eeprom [false; true] in
  vcc_above_low w = true /\
  prog_voltage w = false /\
  length (shadow w) = 32%nat /\
  is_byte (eeprom w !!! EEPROM_CHANNEL) /\
  is_byte (eeprom w !!! S EEPROM_CHANNEL) /\
  button w = [false; true] /\
  result (check_param_crc EEPROM_WORKING) w <> 0 /\
  result main w = RadioOn /\
  button (exec main w) = [true].
Proof.
  intros w.
  assert (H1 : vcc_above_low w = true) by reflexivity.
  assert (H2 : prog_voltage w = false) by reflexivity.
  assert (H3 : length (shadow w) = 32%nat) by reflexivity.
  assert (H4 : is_byte (eeprom w !!! EEPROM_CHANNEL))
    by (vm_compute; split; [discriminate|reflexivity]).
  assert (H5 : is_byte (eeprom w !!! S EEPROM_CHANNEL))
    by (vm_compute; split; [discriminate|reflexivity]).
  assert (H6 : button w = [false; true]) by reflexivity.
  split; [exact H1|]. split; [exact H2|]. split; [exact H3|].
  split; [exact H4|]. split; [exact H5|]. split; [exact H6|].
  split; [vm_compute; discriminate|].
  destruct (main_boot_button_up [true] w H1 H2 H3 H4 H5 H6)
    as (Hr & _ & _ & Hb & _).
  split; [exact Hr|exact Hb].
Defined.

Lemma main_before_restore (k : nat) (rest : list bool) (w : world) :
  vcc_above_low w = true ->
  prog_voltage w = false ->
  button w = replicate (S k) true ++ false :: rest ->
  exec main w =
  exec si4702_init
    (exec copy_factory_param
       (set_trace (trace w ++ boot_prefix_events
                   ++ concat (replicate k double_blink_events))
          (set_currentLEDBrightness
             (match k with O => currentLEDBrightness w | S _ => 0 end)
             (set_button rest w)))).
Proof.
  intros Hv Hp Hb.
  destruct (main_normal_mode w Hv Hp) as [_ Ee]. cbv zeta in Ee.
  etransitivity; [exact Ee|]. clear Ee.
  rewrite result_initButton, boot_state_before_restore.
  change (button (set_trace _ w)) with (button w).
  rewrite Hb. cbn [replicate app tail]. f_equal. f_equal.
  set (w1 := set_trace (trace w ++ boot_prefix_events)
               (set_button (replicate k true ++ false :: rest) w)).
  assert (Hb1 : button w1 = replicate k true ++ false :: rest) by reflexivity.
  rewrite (exec_factory_pending_loop k rest w1 Hb1). subst w1.
  generalize (concat (replicate k double_blink_events)). intros blinks.
  generalize boot_prefix_events. intros pre.
  destruct w as [sh led ee bt pb rx vc pv tr]. cbn.
  rewrite <- !app_assoc. reflexivity.
Qed.

(** X14.  Factory restore at boot.  With a good supply, no programmer, and
    the button read pressed at power-up, then for [k] more samples, then
    released: [main] blinks while the button is held, then programs the
    working block with the contents of the factory block, cell by cell in
    ascending order, leaves every other cell as it was, and brings the
    receiver up on the factory channel: the last bus write carries the
    channel word of the factory block.  The restore is made whatever the
    CRC of either block. *)
Theorem main_factory_restore (k : nat) (rest : list bool) (w : world) :
  vcc_above_low w = true ->
  prog_voltage w = false ->
  length (shadow w) = 32%nat ->
  (32 <= length (eeprom w))%nat ->
  button w = replicate (S k) true ++ false :: rest ->
  let w' := exec main w in
  result main w = RadioOn /\
  (forall i, (i < 16)%nat -> eeprom w' !!! i = u8 (eeprom w !!! (16 + i)%nat)) /\
  (forall i, (16 <= i)%nat -> eeprom w' !!! i = eeprom w !!! i) /\
  eeprom_writes (events_of main w) =
    map (fun i => (i, u8 (eeprom w !!! (16 + i)%nat))) (seq 0 16) /\
  button w' = rest /\
  (exists ev : list event,
     events_of main w =
       boot_prefix_events ++ concat (replicate k double_blink_events) ++ ev) /\
  exists d : list Z,
    last (twi_writes (events_of main w)) = Some d /\
    twi_reg 3 d =
      Z.lor (u8 (eeprom w !!! (EEPROM_FACTORY + EEPROM_CHANNEL)%nat))
            (Z.shiftl (u8 (eeprom w !!! (EEPROM_FACTORY + S EEPROM_CHANNEL)%nat)) 8).
Proof.
  intros Hv Hp Hlen Hel Hb w'.
  destruct (main_normal_mode w Hv Hp) as [Er _].
  pose proof (main_before_restore k rest w Hv Hp Hb) as Ee.
  set (w2 := set_trace _ _) in Ee.
  set (w3 := exec copy_factory_param w2) in *.
  assert (He2 : eeprom w2 = eeprom w) by reflexivity.
  assert (Hel2 : (32 <= length (eeprom w2))%nat) by (rewrite He2; exact Hel).
  assert (Hcells : forall i, (i < 16)%nat ->
                     eeprom w3 !!! i = u8 (eeprom w !!! (16 + i)%nat)).
  { intros i Hi. subst w3. rewrite copy_factory_param_cells by assumption.
    rewrite He2. reflexivity. }
  assert (E3 := exec_copy_factory_param w2). fold w3 in E3. rewrite He2 in E3.
  assert (Hsh3 : length (shadow w3) = 32%nat).
  { rewrite E3, shadow_set_trace, shadow_set_eeprom. exact Hlen. }
  assert (Hlo : is_byte (eeprom w3 !!! EEPROM_CHANNEL)).
  { rewrite Hcells by (unfold EEPROM_CHANNEL; lia). apply u8_range. }
  assert (Hhi : is_byte (eeprom w3 !!! S EEPROM_CHANNEL)).
  { rewrite Hcells by (unfold EEPROM_CHANNEL; lia). apply u8_range. }
  destruct (si4702_init_summary w3 Hsh3 Hlo Hhi)
    as (ev & d & Ht & Hew & Hn & Hl & Hd & Hee & Hbt).
  fold w' in Ee. rewrite <- Ee in Ht, Hee, Hbt.
  set (writes := map (fun i => EvEepromWrite (0 + i) (u8 (eeprom w !!! (16 + i)%nat)))
                     (seq 0 16)) in *.
  assert (Hev : events_of main w =
                boot_prefix_events ++ concat (replicate k double_blink_events)
                ++ writes ++ ev).
  { apply events_of_app. fold w'. rewrite Ht, E3, trace_set_trace.
    subst w2. rewrite trace_set_trace.
    rewrite <- !app_assoc. reflexivity. }
  assert (Hblink : forall n, eeprom_writes (concat (replicate n double_blink_events)) = []
                             /\ twi_writes (concat (replicate n double_blink_events)) = []).
  { induction n as [|n [IH1 IH2]]; [split; reflexivity|].
    cbn [replicate concat]. rewrite eeprom_writes_app, twi_writes_app, IH1, IH2.
    split; reflexivity. }
  assert (Htw : twi_writes writes = []).
  { subst writes. generalize (seq 0 16). intros l.
    induction l as [|i l IH]; [reflexivity|exact IH]. }
  split; [exact Er|].
  split; [intros i Hi; rewrite Hee; apply Hcells; exact Hi|].
  split.
  { intros i Hi. rewrite Hee, E3, eeprom_set_trace, eeprom_set_eeprom.
    apply list_lookup_total_inserts_ge. rewrite length_map, length_seq. lia. }
  split.
  { rewrite Hev, !eeprom_writes_app, (proj1 (Hblink k)), Hew, app_nil_r.
    subst writes. rewrite eeprom_writes_map_writes. reflexivity. }
  split.
  { rewrite Hbt, E3. reflexivity. }
  split; [exists (writes ++ ev); exact Hev|].
  exists d. split.
  - rewrite Hev, !twi_writes_app, (proj2 (Hblink k)), Htw. exact Hl.
  - rewrite Hd. unfold result, eeprom_read_word, bind, eeprom_read_byte, ret.
    cbn [fst snd]. rewrite !Hcells by (unfold EEPROM_CHANNEL; lia).
    reflexivity.
Qed.

Lemma main_factory_restore_witness :
  let w := sample_world (erased_eeprom ++ replicate 32 0 ++ [7])
                        [true; true; true; false; true] in
  vcc_above_low w = true /\
  prog_voltage w = false /\
  length (shadow w) = 32%nat /\
  (32 <= length (eeprom w))%nat /\
  button w = replicate 3 true ++ false :: [true] /\
  result main w = RadioOn /\
  button (exec main w) = [true] /\
  eeprom (exec main w) !!! 3%nat = u8 (eeprom w !!! 19%nat).
Proof.
  intros w.
  assert (H1 : vcc_above_low w = true) by reflexivity.
  assert (H2 : prog_voltage w = false) by reflexivity.
  assert (H3 : length (shadow w) = 32%nat) by reflexivity.
  assert (H4 : (32 <= length (eeprom w))%nat) by (vm_compute; lia).
  assert (H5 : button w = replicate 3 true ++ false :: [true]) by reflexivity.
  split; [exact H1|]. split; [exact H2|]. split; [exact H3|].
  split; [exact H4|]. split; [exact H5|].
  destruct (main_factory_restore 2 [true] w H1 H2 H3 H4 H5)
    as (Hr & Hc & _ & _ & Hb & _).
  split; [exact Hr|]. split; [exact Hb|].
  apply (Hc 3%nat). lia.
Defined.

(** ** The sleep loop *)

Lemma exec_sleep_iteration_idle (tl : list bool) (w : world) :
  button w = false :: tl ->
  exec sleep_iteration w =
  set_trace (trace w ++ idle_wake_events) (set_button tl w).
Proof.
  intros Hb. destruct w as [sh led ee bt pb rx vc pv tr]. cbn in Hb. subst bt.
  cbn. rewrite <- !app_assoc. reflexivity.
Qed.

Lemma exec_sleep_idle_turns (n : nat) (tl : list bool) (w : world) :
  button w = replicate n false ++ tl ->
  exec (repeatM n sleep_iteration) w =
  set_trace (trace w ++ concat (replicate n idle_wake_events)) (set_button tl w).
Proof.
  revert w. induction n as [|n IH]; intros w Hb.
  - destruct w as [sh led ee bt pb rx vc pv tr]. cbn in Hb. subst bt.
    cbn. rewrite app_nil_r. reflexivity.
  - cbn [repeatM]. rewrite exec_bind.
    rewrite (exec_sleep_iteration_idle (replicate n false ++ tl) w Hb).
    rewrite IH by reflexivity.
    cbn [replicate concat].
    generalize (concat (replicate n idle_wake_events)). intros rest.
    generalize idle_wake_events. intros idle.
    destruct w; cbn. rewrite <- !app_assoc. reflexivity.
Qed.

Lemma exec_sleep_iteration_press (tl : list bool) (w : world) :
  button w = true :: tl ->
  exec sleep_iteration w =
  exec handleButtonDown
    (set_trace (trace w ++ [EvOut TCCR1 0; EvOut GTCCR 0; EvSleep;
                            EvOut TCCR1 0x84; EvOut GTCCR 0x60])
       (set_button tl w)).
Proof.
  intros Hb. unfold sleep_iteration. rewrite !exec_bind.
  assert (Hd : buttonDown (exec deepSleep (exec LED_PWM_off w)) =
               (true, set_button tl (exec deepSleep (exec LED_PWM_off w)))).
  { unfold buttonDown.
    change (button (exec deepSleep (exec LED_PWM_off w))) with (button w).
    rewrite Hb. reflexivity. }
  assert (Hr : result buttonDown (exec deepSleep (exec LED_PWM_off w)) = true)
    by (unfold result; rewrite Hd; reflexivity).
  assert (He : exec buttonDown (exec deepSleep (exec LED_PWM_off w)) =
               set_button tl (exec deepSleep (exec LED_PWM_off w)))
    by (unfold exec at 1; rewrite Hd; reflexivity).
  rewrite Hr, He. rewrite exec_bind. f_equal.
  destruct w; cbn. rewrite <- !app_assoc. reflexivity.
Qed.

Lemma repeatM_snoc (n : nat) (body : M unit) (w : world) :
  exec (repeatM (S n) body) w = exec body (exec (repeatM n body) w).
Proof.
  revert w. induction n as [|n IH]; intros w.
  - cbn [repeatM]. rewrite exec_bind. reflexivity.
  - change (repeatM (S (S n)) body) with (bind body (fun _ => repeatM (S n) body)).
    rewrite exec_bind, IH. cbn [repeatM]. rewrite exec_bind. reflexivity.
Qed.

Lemma sleeps_idle_turns (n : nat) :
  List.filter is_sleep (concat (replicate n idle_wake_events)) = replicate n EvSleep
  /\ twi_writes (concat (replicate n idle_wake_events)) = []
  /\ eeprom_writes (concat (replicate n idle_wake_events)) = [].
Proof.
  induction n as [|n (IH1 & IH2 & IH3)]; [repeat split|].
  cbn [replicate concat].
  rewrite List.filter_app, twi_writes_app, eeprom_writes_app, IH1, IH2, IH3.
  repeat split.
Qed.

Lemma sleeps_delays (n : nat) (ms : Z) :
  List.filter is_sleep (replicate n (EvDelayMs ms)) = [].
Proof. induction n as [|n IH]; [reflexivity|exact IH]. Qed.

(** X15.  The final loop of [main], from its first turn to the first
    press.  While the button reads released after a wake the turn does
    nothing but stop the timer and sleep again: no bus write, no EEPROM
    write.  The turn in which it reads pressed switches the timer on and
    hands the rest of the input to [handleButtonDown]; when the press is a
    short one the receiver is left on the next channel, after exactly two
    bus writes.  The controller has slept once per turn. *)
Theorem sleep_loop_until_press (n : nat) (tl : list bool) (w : world) :
  length (shadow w) = 32%nat ->
  button w = replicate n false ++ true :: tl ->
  (pressed_run tl < Z.to_nat LONG_PRESS_MS)%nat ->
  let chan := result currentChanFromShadow w in
  let next := if (1080 - 760) <? u16 (chan + 1) then 0 else u16 (chan + 1) in
  let turns := repeatM (S n) sleep_iteration in
  let w' := exec turns w in
  result currentChanFromShadow w' = next /\
  eeprom w' = eeprom w /\
  List.filter is_sleep (events_of turns w) = replicate (S n) EvSleep /\
  length (twi_writes (events_of turns w)) = 2%nat /\
  eeprom_writes (events_of turns w) = [] /\
  (exists ev : list event,
     events_of turns w =
       concat (replicate n idle_wake_events)
       ++ [EvOut TCCR1 0; EvOut GTCCR 0; EvSleep;
           EvOut TCCR1 0x84; EvOut GTCCR 0x60] ++ ev) /\
  button w' = release_loop (drop (S (pressed_run tl)) tl).
Proof.
  intros Hsh Hb Hk chan next turns w'.
  set (w1 := set_trace (trace w ++ concat (replicate n idle_wake_events))
               (set_button (true :: tl) w)).
  set (w2 := set_trace (trace w1 ++ [EvOut TCCR1 0; EvOut GTCCR 0; EvSleep;
                                     EvOut TCCR1 0x84; EvOut GTCCR 0x60])
               (set_button tl w1)).
  assert (Ew : w' = exec handleButtonDown w2).
  { subst w' turns. rewrite repeatM_snoc.
    rewrite (exec_sleep_idle_turns n (true :: tl) w Hb). fold w1.
    apply (exec_sleep_iteration_press tl w1). reflexivity. }
  assert (Hk2 : (pressed_run (button w2) < Z.to_nat LONG_PRESS_MS)%nat) by exact Hk.
  destruct (handleButtonDown_short_any w2 Hk2) as (Ht & Hs & He & Hbt).
  cbv zeta in Ht, Hs, He, Hbt. rewrite <- Ew in Ht, Hs, He, Hbt.
  change (button w2) with tl in Ht, Hbt.
  change (result currentChanFromShadow w2) with chan in Ht, Hs.
  fold next in Ht, Hs.
  assert (Hnext : 0 <= next <= 320).
  { subst next. pose proof (u16_range (chan + 1)) as Hu.
    change (1080 - 760) with 320.
    destruct (Z.ltb_spec 320 (u16 (chan + 1))); lia. }
  rewrite exec_tune_direct in Ht. cbv zeta in Ht.
  rewrite !trace_set_trace in Ht.
  match type of Ht with
  | _ = (_ ++ [EvTWIWrite _ ?a; _; EvTWIWrite _ ?b]) ++ _ =>
      set (d1 := a) in Ht; set (d2 := b) in Ht
  end.
  assert (Hev : events_of turns w =
                concat (replicate n idle_wake_events)
                ++ [EvOut TCCR1 0; EvOut GTCCR 0; EvSleep;
                    EvOut TCCR1 0x84; EvOut GTCCR 0x60]
                ++ ([EvOut TCCR1 0; EvOut GTCCR 0; EvDelayMs BUTTON_DEBOUNCE_MS]
                    ++ replicate (pressed_run tl) (EvDelayMs 1)
                    ++ [EvTWIWrite FMIC_ADDRESS d1; EvDelayMs 160;
                        EvTWIWrite FMIC_ADDRESS d2]
                    ++ [EvDelayMs BUTTON_DEBOUNCE_MS])).
  { apply events_of_app. fold w'. rewrite Ht. subst w2.
    rewrite trace_set_trace. subst w1. rewrite trace_set_trace.
    rewrite <- !app_assoc. reflexivity. }
  destruct (sleeps_idle_turns n) as (Hi1 & Hi2 & Hi3).
  split.
  { rewrite (currentChan_shadow _ _ Hs).
    apply (tune_direct_bus next w2 Hsh). lia. }
  split; [exact He|].
  split.
  { rewrite Hev, !List.filter_app, Hi1, sleeps_delays.
    cbn [List.filter is_sleep app].
    clear. induction n as [|n IH]; [reflexivity|].
    cbn [replicate app]. f_equal. exact IH. }
  split.
  { rewrite Hev, !twi_writes_app, Hi2, twi_writes_delays. reflexivity. }
  split.
  { rewrite Hev, !eeprom_writes_app, Hi3, eeprom_writes_delays. reflexivity. }
  split; [eexists; exact Hev|exact Hbt].
Qed.

Lemma sleep_loop_until_press_witness :
  let w := tuned_world 320 erased_eeprom [false; false; true; true; false; false; true] in
  length (shadow w) = 32%nat /\
  button w = replicate 2 false ++ true :: [true; false; false; true] /\
  (pressed_run [true; false; false; true] < Z.to_nat LONG_PRESS_MS)%nat /\
  result currentChanFromShadow (exec (repeatM 3 sleep_iteration) w) = 0 /\
  button (exec (repeatM 3 sleep_iteration) w) = [true].
Proof.
  intros w.
  assert (H1 : length (shadow w) = 32%nat) by reflexivity.
  assert (H2 : button w = replicate 2 false ++ true :: [true; false; false; true])
    by reflexivity.
  assert (H3 : (pressed_run [true; false; false; true] < Z.to_nat LONG_PRESS_MS)%nat)
    by (vm_compute; lia).
  split; [exact H1|]. split; [exact H2|]. split; [exact H3|].
  destruct (sleep_loop_until_press 2 [true; false; false; true] w H1 H2 H3)
    as (Hc & _ & _ & _ & _ & _ & Hb).
  split; [exact Hc|exact Hb].
Defined.
